(** * Data-quality tests of evidently.v2: a shallow embedding

    Source: [src/evidently/v2/tests/data_quality_tests.py].

    Conventions of the embedding.
    - The arithmetic of Python's numbers is a parameter, [Arithmetic]: the
      type of the numbers, the operators the module applies to them and
      the numbers its literals denote.  [binary64] is the arithmetic of
      Python's [float] (IEEE 754 double precision: every operation rounds
      to nearest, ties to even; infinities and NaN included).  [rational]
      is the arithmetic of the rationals, in which nothing is rounded.  A
      property stated for every [Arithmetic] holds of both; a property
      that rests on the laws of exact arithmetic is stated for [rational],
      which is the arithmetic of a statement that names none.
    - [None] is [option]'s [None].
    - No method assigns an attribute of [self]; the one object a method
      changes is the metric bound to [self], whose cache
      [self.metric.get_result()] fills.  A method is therefore a function
      of [self] into the monad [M] over the state of that metric: it
      either returns or raises, and leaves the metric in a new state.
    - f-strings are string concatenations; the text a number, a rounded
      number or a condition is printed as comes from [Formatting]. *)

From Stdlib Require Import QArith Qabs ZArith Bool Lqa.
From Stdlib Require Import PrimFloat FloatOps SpecFloat.
From stdpp Require Import base option strings pretty gmap.

(** A decimal literal of a double stands for the double nearest to it. *)
Set Warnings "-inexact-float".

Local Open Scope string_scope.

(** ** Numbers *)

(** The numbers of the module and what the module does with them.
    [literal q] is the number a numeric literal of the source denotes, [q]
    being the value the literal spells ([0.1] spells 1/10).  [of_int n] is
    what an [int] becomes as an operand of arithmetic with a number;
    [None] stands for [OverflowError].  [x > y] is [num_lt y x] and
    [x >= y] is [num_le y x]. *)
Class Arithmetic : Type := mkArithmetic {
  num : Type;
  literal : Q -> num;
  of_int : Z -> option num;
  num_add : num -> num -> num;
  num_sub : num -> num -> num;
  num_mul : num -> num -> num;
  num_div : num -> num -> num;
  num_abs : num -> num;
  num_eq : num -> num -> bool;
  num_lt : num -> num -> bool;
  num_le : num -> num -> bool
}.

Declare Scope num_scope.
Delimit Scope num_scope with num.
Bind Scope num_scope with num.
Infix "+" := num_add : num_scope.
Infix "-" := num_sub : num_scope.
Infix "*" := num_mul : num_scope.
Infix "/" := num_div : num_scope.
Infix "=?" := num_eq : num_scope.
Infix "<?" := num_lt : num_scope.
Infix "<=?" := num_le : num_scope.

(** Exact arithmetic: the rationals. *)
Definition Qltb (x y : Q) : bool := negb (Qle_bool y x).

Definition rational : Arithmetic :=
  {| num := Q;
     literal := fun q => q;
     of_int := fun n => Some (inject_Z n);
     num_add := Qplus;
     num_sub := Qminus;
     num_mul := Qmult;
     num_div := Qdiv;
     num_abs := Qabs;
     num_eq := Qeq_bool;
     num_lt := Qltb;
     num_le := Qle_bool |}.

(** Python's [float]: binary64.  [float_of_Z n] is the double nearest to
    the integer [n] (ties to even), an infinity when [n] is out of range.
    A literal is the double nearest to the value it spells: the quotient
    of numerator and denominator, both doubles for the literals of the
    module, rounded once.  An [int] out of range is no operand:
    [1.0 * 10**400] raises [OverflowError]. *)
Definition float_of_Z (n : Z) : float :=
  SF2Prim (binary_normalize prec emax n 0 false).

Definition binary64 : Arithmetic :=
  {| num := float;
     literal := fun q =>
       PrimFloat.div (float_of_Z (Qnum q)) (float_of_Z (Zpos (Qden q)));
     of_int := fun n =>
       let x := float_of_Z n in
       if PrimFloat.is_infinity x then None else Some x;
     num_add := PrimFloat.add;
     num_sub := PrimFloat.sub;
     num_mul := PrimFloat.mul;
     num_div := PrimFloat.div;
     num_abs := PrimFloat.abs;
     num_eq := PrimFloat.eqb;
     num_lt := PrimFloat.ltb;
     num_le := PrimFloat.leb |}.

(** ** Exceptions and the method monad *)

Inductive Exception : Type :=
| ValueError (msg : string)
| TypeError
| KeyError (key : string)
| OverflowError.

Inductive Outcome (A : Type) : Type :=
| Returned (a : A)
| Raised (e : Exception).
Arguments Returned {A} a.
Arguments Raised {A} e.

(** A method body: from the state of the bound metric to an outcome and
    the state of the metric afterwards. *)
Definition M (S A : Type) : Type := S -> Outcome A * S.

Definition ret {S A} (a : A) : M S A := fun s => (Returned a, s).

Definition raise {S A} (e : Exception) : M S A := fun s => (Raised e, s).

Definition bind {S A B} (c : M S A) (k : A -> M S B) : M S B :=
  fun s =>
    match c s with
    | (Returned a, s') => k a s'
    | (Raised e, s') => (Raised e, s')
    end.

(** [lift o]: a pure call that may raise. *)
Definition lift {S A} (o : Outcome A) : M S A := fun s => (o, s).

(** [try: body except ValueError: handler]. Every other exception
    propagates. *)
Definition try_except_ValueError {S A} (body : M S A) (handler : M S A) : M S A :=
  fun s =>
    match body s with
    | (Raised (ValueError _), s') => handler s'
    | r => r
    end.

Declare Scope method_scope.
Delimit Scope method_scope with method.
Notation "x <- c ;; k" := (bind c (fun x => k))
  (at level 100, c at next level, right associativity) : method_scope.
Local Open Scope method_scope.

Section Values.
Context {A : Arithmetic}.

(** Arithmetic on an attribute that may hold [None]: Python raises
    [TypeError]. *)
Definition number {S} (o : option num) : M S num :=
  match o with
  | Some q => ret q
  | None => raise TypeError
  end.

(** An [int] as an operand of arithmetic with a number. *)
Definition int_operand {S} (n : Z) : M S num :=
  match of_int n with
  | Some x => ret x
  | None => raise OverflowError
  end.

(** ** Scalars: number / string / boolean *)

Inductive Scalar : Type :=
| SNum (q : num)
| SStr (s : string)
| SBool (b : bool).

(** Python's numeric reading of a scalar ([True == 1], [False == 0]). *)
Definition as_number (v : Scalar) : option num :=
  match v with
  | SNum q => Some q
  | SBool b => Some (if b then literal 1 else literal 0)
  | SStr _ => None
  end.

Definition py_eq (v w : Scalar) : bool :=
  match as_number v, as_number w with
  | Some x, Some y => (x =? y)%num
  | None, None =>
      match v, w with
      | SStr s, SStr t => bool_decide (s = t)
      | _, _ => false
      end
  | _, _ => false
  end.

(** [v in xs] *)
Definition py_in (v : Scalar) (xs : list Scalar) : bool :=
  existsb (py_eq v) xs.

(** ** Tolerant values ([evidently.v2.tests.utils.approx]) *)

Record ApproxValue : Type := mkApproxValue {
  approx_value : num;
  approx_relative : num;
  approx_absolute : num
}.

(** Modelled from the spec: [approx] of evidently/v2/tests/utils.py, which
    is not among the sources: "wraps a target number with an optional
    relative tolerance (fraction of target) and/or absolute tolerance".  An
    omitted tolerance takes the fixed default of the class ("a small fixed
    tolerance band"); the spec gives no number for the defaults, so they
    are arguments here. *)
Definition approx (DEFAULT_RELATIVE DEFAULT_ABSOLUTE : num)
    (value : num) (relative absolute : option num) : ApproxValue :=
  {| approx_value := value;
     approx_relative := default DEFAULT_RELATIVE relative;
     approx_absolute := default DEFAULT_ABSOLUTE absolute |}.

(** Modelled from the spec: equality against a tolerant value "succeed[s]
    if the observed value lies within the union of the relative and
    absolute bands". *)
Definition approx_eq (a : ApproxValue) (v : num) : bool :=
  (num_abs (v - approx_value a) <=? num_abs (approx_value a) * approx_relative a)%num
  || (num_abs (v - approx_value a) <=? approx_absolute a)%num.

(** ** Conditions ([evidently.v2.tests.base_test.TestValueCondition]) *)

(** An operand of [eq] / [not_eq]: a number or a tolerant value. *)
Inductive Bound : Type :=
| BNum (q : num)
| BApprox (a : ApproxValue).

Record TestValueCondition : Type := mkTestValueCondition {
  eq : option Bound;
  gt : option num;
  gte : option num;
  is_in : option (list Scalar);
  lt : option num;
  lte : option num;
  not_eq : option Bound;
  not_in : option (list Scalar)
}.

(** [x is not None] *)
Definition is_not_None {X} (o : option X) : bool :=
  match o with
  | Some _ => true
  | None => false
  end.

(** Modelled from the spec: [TestValueCondition.is_set] of
    evidently/v2/tests/base_test.py: "a Condition with no field set is
    unset; is_set() reports this". *)
Definition is_set (c : TestValueCondition) : bool :=
  is_not_None (eq c) || is_not_None (gt c) || is_not_None (gte c)
  || is_not_None (is_in c) || is_not_None (lt c) || is_not_None (lte c)
  || is_not_None (not_eq c) || is_not_None (not_in c).

(** The evaluation error of a condition. The test classes catch it as
    [ValueError]; its message is never inspected. *)
Definition evaluation_error : Exception := ValueError EmptyString.

(** One configured ordering predicate: the value must be a number. *)
Definition check_order (cmp : num -> num -> bool) (bound : option num) (v : Scalar)
    : Outcome bool :=
  match bound with
  | None => Returned true
  | Some b =>
      match as_number v with
      | Some x => Returned (cmp x b)
      | None => Raised evaluation_error
      end
  end.

(** One configured equality predicate: exact, or band membership when the
    operand is a tolerant value. *)
Definition check_eq (bound : option Bound) (v : Scalar) : Outcome bool :=
  match bound with
  | None => Returned true
  | Some (BNum q) => Returned (py_eq v (SNum q))
  | Some (BApprox a) =>
      match as_number v with
      | Some x => Returned (approx_eq a x)
      | None => Raised evaluation_error
      end
  end.

Definition outcome_bind {X Y} (o : Outcome X) (k : X -> Outcome Y) : Outcome Y :=
  match o with
  | Returned a => k a
  | Raised e => Raised e
  end.

Definition check_not_eq (bound : option Bound) (v : Scalar) : Outcome bool :=
  match bound with
  | None => Returned true
  | Some b => outcome_bind (check_eq (Some b) v) (fun r => Returned (negb r))
  end.

Definition check_in (xs : option (list Scalar)) (v : Scalar) : bool :=
  match xs with
  | None => true
  | Some l => py_in v l
  end.

Definition check_not_in (xs : option (list Scalar)) (v : Scalar) : bool :=
  match xs with
  | None => true
  | Some l => negb (py_in v l)
  end.

(** Modelled from the spec: [TestValueCondition.check_value] of
    evidently/v2/tests/base_test.py: "returns true iff every configured
    field's predicate holds for v (logical AND across all configured
    fields); fails with an evaluation error if a field's predicate cannot
    be computed". *)
Definition check_value (c : TestValueCondition) (v : Scalar) : Outcome bool :=
  outcome_bind (check_eq (eq c) v) (fun r_eq =>
  outcome_bind (check_order (fun x b => num_lt b x) (gt c) v) (fun r_gt =>
  outcome_bind (check_order (fun x b => num_le b x) (gte c) v) (fun r_gte =>
  outcome_bind (check_order num_lt (lt c) v) (fun r_lt =>
  outcome_bind (check_order num_le (lte c) v) (fun r_lte =>
  outcome_bind (check_not_eq (not_eq c) v) (fun r_not_eq =>
  Returned (r_eq && r_gt && r_gte && check_in (is_in c) v
            && r_lt && r_lte && r_not_eq && check_not_in (not_in c) v))))))).

(** [TestValueCondition(...)] with keyword arguments: the omitted ones are
    [None]. *)
Definition TestValueCondition_unset : TestValueCondition :=
  mkTestValueCondition None None None None None None None None.

Definition TestValueCondition_eq (b : Bound) : TestValueCondition :=
  mkTestValueCondition (Some b) None None None None None None None.

Definition TestValueCondition_lt (q : num) : TestValueCondition :=
  mkTestValueCondition None None None None (Some q) None None None.

End Values.

(** ** Results ([evidently.v2.tests.base_test.TestResult]) *)

Inductive Status : Type := SUCCESS | FAIL | ERROR | SKIPPED.

Record TestResult : Type := mkTestResult {
  name : string;
  description : string;
  status : Status
}.

Definition set_description (r : TestResult) (d : string) : TestResult :=
  {| name := name r; description := d; status := status r |}.

(** Modelled from the spec: the status setters of [TestResult]
    (evidently/v2/tests/base_test.py); each assigns its status and, when a
    description is passed, the description. *)
Definition set_status (st : Status) (r : TestResult) (d : option string) : TestResult :=
  {| name := name r; description := default (description r) d; status := st |}.

Definition mark_as_fail := set_status FAIL.
Definition mark_as_error := set_status ERROR.
Definition mark_as_success := set_status SUCCESS.

(** ** Metrics ([evidently.v2.metrics]) *)

(** Modelled from the spec: the Metric classes are not among the sources.
    A Metric "exposes a cached, lazily-computed, immutable snapshot":
    "computed once per Metric instance on first access, cached for the
    instance's lifetime; never mutated afterward".  [params] are the
    constructor's arguments, [calculate] is what the computation pipeline
    yields for this instance and [cached] the cache. *)
Record Metric (P R : Type) : Type := mkMetric {
  params : P;
  calculate : R;
  cached : option R
}.
Arguments mkMetric {P R} params calculate cached.
Arguments params {P R} m.
Arguments calculate {P R} m.
Arguments cached {P R} m.

Definition get_result {P R} : M (Metric P R) R :=
  fun m =>
    match cached m with
    | Some r => (Returned r, m)
    | None =>
        let r := calculate m in
        (Returned r, mkMetric (params m) (calculate m) (Some r))
    end.

(** [Metric(...)]: a fresh instance, nothing computed yet. [pipeline] is
    the computation the instance will run on first access. *)
Definition new_metric {P R} (pipeline : P -> R) (p : P) : Metric P R :=
  mkMetric p (pipeline p) None.

(** The result [get_result] yields, now and at every later call. *)
Definition result_of {P R} (m : Metric P R) : R :=
  default (calculate m) (cached m).

(** The metric once its result has been accessed. *)
Definition accessed {P R} (m : Metric P R) : Metric P R :=
  mkMetric (params m) (calculate m) (Some (result_of m)).

(** A method called on an instance: the body runs on the metric of the
    instance ([metric_of]), which the instance keeps afterwards
    ([set_metric]). *)
Definition call_method {Self P R A}
    (metric_of : Self -> Metric P R) (set_metric : Self -> Metric P R -> Self)
    (method : Self -> M (Metric P R) A) (self : Self) : Outcome A * Self :=
  let (o, m) := method self (metric_of self) in (o, set_metric self m).

(** ** Formatting *)

(** What Python and numpy print: the text of a number inside an f-string,
    [np.round], and [TestValueCondition.__str__] (base_test.py, not among
    the sources). *)
Record Formatting {A : Arithmetic} : Type := mkFormatting {
  format_number : num -> string;
  np_round : num -> Z -> num;
  format_condition : TestValueCondition -> string
}.
Arguments mkFormatting {A} format_number np_round format_condition.

(** An optional attribute inside an f-string: [None] prints as "None". *)
Definition format_optional {X} (f : X -> string) (o : option X) : string :=
  match o with
  | Some a => f a
  | None => "None"
  end.

Fixpoint spaces (n : nat) : string :=
  match n with
  | O => EmptyString
  | S k => " " +:+ spaces k
  end.

(** ** Feature statistics *)

Module FeatureQualityStats.
Section Stats.
Context {A : Arithmetic}.
(** Modelled from the spec: the statistics record of the analyzers, not
    among the sources: "keyed per-feature statistics (min, max, mean,
    median, std, unique count, unique-value share, most-common-value
    share ...)".  The fields are the attributes the tests read; each may
    hold [None]. *)
Record t : Type := mk {
  min : option num;
  max : option num;
  mean : option num;
  percentile_50 : option num;
  std : option num;
  unique_count : option num;
  unique_percentage : option num;
  most_common_value_percentage : option num
}.
End Stats.
End FeatureQualityStats.

(** Modelled from the spec: the per-dataset statistics object ("keyed
    per-feature statistics"): a dictionary from feature name to its
    statistics. [get_all_features()] is that dictionary and [stats[name]]
    indexes it. *)
Abbreviation DataQualityStats := (gmap string FeatureQualityStats.t).

Definition get_all_features {A : Arithmetic} (stats : DataQualityStats)
    : gmap string FeatureQualityStats.t :=
  stats.

(** [key in d] *)
Definition contains {X} (d : gmap string X) (key : string) : bool :=
  is_not_None (d !! key).

(** [d[key]] *)
Definition getitem {X} (d : gmap string X) (key : string) : Outcome X :=
  match d !! key with
  | Some a => Returned a
  | None => Raised (KeyError key)
  end.

(** The result of [DataQualityMetrics]. *)
Record DataQualityMetricsResults {A : Arithmetic} : Type := mkDataQualityMetricsResults {
  features_stats : DataQualityStats;
  reference_features_stats : option DataQualityStats
}.
Arguments mkDataQualityMetricsResults {A} features_stats reference_features_stats.

(** ** BaseCheckValueTest ([evidently.v2.tests.base_test]) *)

Module BaseCheckValueTest.
Section Abstract.
Context {A : Arithmetic} {Self P R : Type}.
(** The class attribute and the abstract methods a subclass provides. *)
Variable name_of : Self -> string.
Variable calculate_value_for_test : Self -> M (Metric P R) (option num).
Variable get_description : Self -> num -> M (Metric P R) string.
Variable get_condition : Self -> M (Metric P R) TestValueCondition.

(** Modelled from the spec: [BaseCheckValueTest.check] of base_test.py,
    not among the sources, after the canonical algorithm: "Seed a Result
    with status SKIPPED, description 'not launched'"; compute the value,
    "if the computed value is undefined -> status ERROR, return
    immediately"; "build a human-readable description from the computed
    value"; resolve the condition; evaluate it: "True -> status SUCCESS.
    False -> status FAIL. An evaluation error from the Condition ->
    status ERROR, description 'cannot evaluate condition'". *)
Definition check (self : Self) : M (Metric P R) TestResult :=
  let result := mkTestResult (name_of self) "not launched" SKIPPED in
  value <- calculate_value_for_test self ;;
  match value with
  | None => ret (mark_as_error result None)
  | Some value =>
      d <- get_description self value ;;
      let result := set_description result d in
      try_except_ValueError
        (condition <- get_condition self ;;
         condition_check_result <- lift (check_value condition (SNum value)) ;;
         if condition_check_result : bool
         then ret (mark_as_success result None)
         else ret (mark_as_fail result None))
        (ret (mark_as_error result (Some "cannot evaluate condition")))
  end.
End Abstract.
End BaseCheckValueTest.

(** ** Feature-level tests (BaseFeatureDataQualityMetricsTest) *)

Module FeatureTest.
Section Methods.
Context {A : Arithmetic}.

(** The concrete subclasses. *)
Inductive Class : Type :=
| TestFeatureValueMin
| TestFeatureValueMax
| TestFeatureValueMean
| TestFeatureValueMedian
| TestFeatureValueStd
| TestNumberOfUniqueValues
| TestUniqueValuesShare
| TestMostCommonValueShare.

Record t : Type := mk {
  cls : Class;
  column_name : string;
  condition : TestValueCondition;
  metric : Metric unit DataQualityMetricsResults
}.

Definition set_metric (self : t) (m : Metric unit DataQualityMetricsResults) : t :=
  mk (cls self) (column_name self) (condition self) m.

(** The type of a method body of this class. *)
Abbreviation Method := (M (Metric unit DataQualityMetricsResults)).

Definition call {X} (method : t -> Method X) (self : t) : Outcome X * t :=
  call_method metric set_metric method self.

Definition name_of (self : t) : string :=
  match cls self with
  | TestFeatureValueMin => "Test a feature min value"
  | TestFeatureValueMax => "Test a feature max value"
  | TestFeatureValueMean => "Test a feature mean value"
  | TestFeatureValueMedian => "Test a feature median value"
  | TestFeatureValueStd => "Test a feature std value"
  | TestNumberOfUniqueValues => "Test a feature for number of unique values"
  | TestUniqueValuesShare => "Test a feature for share of unique values"
  | TestMostCommonValueShare => "Test Share of the Most Common Value"
  end.

(** [BaseDataQualityMetricsValueTest.__init__] and, on top of it,
    [BaseFeatureDataQualityMetricsTest.__init__]: a given metric is bound
    as it is, otherwise a [DataQualityMetrics()] is made;
    [super().__init__(eq=..., ...)] stores [TestValueCondition(eq=..., ...)]
    as the condition.  The subclasses define no constructor; [cls] is the
    subclass that is instantiated. *)
Definition init (cls : Class) (pipeline : unit -> DataQualityMetricsResults)
    (column_name : string)
    (eq : option Bound) (gt gte : option num) (is_in : option (list Scalar))
    (lt lte : option num) (not_eq : option Bound) (not_in : option (list Scalar))
    (metric : option (Metric unit DataQualityMetricsResults)) : Outcome t :=
  let metric :=
    match metric with
    | Some m => m
    | None => new_metric pipeline tt
    end in
  Returned (mk cls column_name
              (mkTestValueCondition eq gt gte is_in lt lte not_eq not_in) metric).

Variable fmt : Formatting.
Variables DEFAULT_RELATIVE DEFAULT_ABSOLUTE : num.

Definition calculate_value_for_test (self : t) : Method (option num) :=
  r <- get_result ;;
  let features_stats := get_all_features (features_stats r) in
  st <- lift (getitem features_stats (column_name self)) ;;
  match cls self with
  | TestFeatureValueMin => ret (FeatureQualityStats.min st)
  | TestFeatureValueMax => ret (FeatureQualityStats.max st)
  | TestFeatureValueMean => ret (FeatureQualityStats.mean st)
  | TestFeatureValueMedian => ret (FeatureQualityStats.percentile_50 st)
  | TestFeatureValueStd => ret (FeatureQualityStats.std st)
  | TestNumberOfUniqueValues => ret (FeatureQualityStats.unique_count st)
  | TestUniqueValuesShare =>
      p <- number (FeatureQualityStats.unique_percentage st) ;;
      ret (Some (p / literal 100)%num)
  | TestMostCommonValueShare =>
      p <- number (FeatureQualityStats.most_common_value_percentage st) ;;
      ret (Some (p / literal 100)%num)
  end.

(** [TestMostCommonValueShare.get_condition]; [approx] and [is_set] are
    not among the sources and follow the spec.  The other subclasses
    inherit [BaseCheckValueTest.get_condition] (base_test.py, not among
    the sources either), modelled from the spec: "if the caller configured
    explicit bounds, use them"; these classes derive nothing, the
    condition of the instance is the answer. *)
Definition get_condition (self : t) : Method TestValueCondition :=
  match cls self with
  | TestMostCommonValueShare =>
      if is_set (condition self) then ret (condition self)
      else
        r <- get_result ;;
        if is_not_None (reference_features_stats r) then
          r' <- get_result ;;
          match reference_features_stats r' with
          | None => raise TypeError
          | Some reference =>
              st <- lift (getitem reference (column_name self)) ;;
              p <- number (FeatureQualityStats.most_common_value_percentage st) ;;
              ret (TestValueCondition_eq
                     (BApprox (approx DEFAULT_RELATIVE DEFAULT_ABSOLUTE
                                 (p / literal 100)%num (Some (literal (1 # 10)))
                                 None)))
          end
        else ret (TestValueCondition_lt (literal (8 # 10)))
  | _ => ret (condition self)
  end.

Definition get_description (self : t) (value : num) : Method string :=
  match cls self with
  | TestFeatureValueMin =>
      ret ("Min value for feature '" +:+ column_name self +:+ "' is "
           +:+ format_number fmt value)
  | TestFeatureValueMax =>
      ret ("Max value for feature '" +:+ column_name self +:+ "' is "
           +:+ format_number fmt value)
  | TestFeatureValueMean =>
      ret ("Mean value for feature '" +:+ column_name self +:+ "' is "
           +:+ format_number fmt value)
  | TestFeatureValueMedian =>
      ret ("Median (50 percentile) value for feature '" +:+ column_name self
           +:+ "' is " +:+ format_number fmt value)
  | TestFeatureValueStd =>
      ret ("Std value for feature '" +:+ column_name self +:+ "' is "
           +:+ format_number fmt value)
  | TestNumberOfUniqueValues =>
      ret ("Number of unique values for feature '" +:+ column_name self
           +:+ "' is " +:+ format_number fmt value)
  | TestUniqueValuesShare =>
      ret ("Share of unique values for feature '" +:+ column_name self
           +:+ "' is " +:+ format_number fmt value)
  | TestMostCommonValueShare =>
      c <- get_condition self ;;
      ret ("Share of the Most Common Value for column " +:+ column_name self
           +:+ " is " +:+ format_number fmt (np_round fmt value 3) +:+ ". "
           +:+ spaces 12 +:+ "Test Threshold is [" +:+ format_condition fmt c
           +:+ "].")
  end.

(** [BaseFeatureDataQualityMetricsTest.check] *)
Definition check (self : t) : Method TestResult :=
  let result := mkTestResult (name_of self) "The test was not launched" SKIPPED in
  r <- get_result ;;
  let features_stats := get_all_features (features_stats r) in
  if negb (contains features_stats (column_name self)) then
    let result := mark_as_fail result None in
    let result :=
      set_description result ("Feature '" +:+ column_name self +:+ "' was not found") in
    ret result
  else
    value <- calculate_value_for_test self ;;
    match value with
    | None =>
        ret (mark_as_error result
               (Some ("No value for the feature '" +:+ column_name self +:+ "'")))
    | Some value =>
        d <- get_description self value ;;
        let result := set_description result d in
        try_except_ValueError
          (c <- get_condition self ;;
           condition_check_result <- lift (check_value c (SNum value)) ;;
           if condition_check_result : bool
           then ret (mark_as_success result None)
           else ret (mark_as_fail result None))
          (ret (mark_as_error result (Some "Cannot calculate the condition")))
    end.
End Methods.
End FeatureTest.

(** ** TestMeanInNSigmas *)

Module TestMeanInNSigmas.
Section Methods.
Context {A : Arithmetic}.

Record t : Type := mk {
  column_name : string;
  n_sigmas : Z;
  metric : Metric unit DataQualityMetricsResults
}.

Definition set_metric (self : t) (m : Metric unit DataQualityMetricsResults) : t :=
  mk (column_name self) (n_sigmas self) m.

(** The type of a method body of this class. *)
Abbreviation Method := (M (Metric unit DataQualityMetricsResults)).

Definition call {X} (method : t -> Method X) (self : t) : Outcome X * t :=
  call_method metric set_metric method self.

Definition name : string := "Test Mean Value Stability".

(** [__init__(self, column_name, n_sigmas=2, metric=None)]: an omitted
    keyword argument is [None] here and takes the default of the
    signature. *)
Definition init (pipeline : unit -> DataQualityMetricsResults)
    (column_name : string) (n_sigmas : option Z)
    (metric : option (Metric unit DataQualityMetricsResults)) : t :=
  mk column_name (default 2%Z n_sigmas) (default (new_metric pipeline tt) metric).

Variable fmt : Formatting.

Definition check (self : t) : Method TestResult :=
  r1 <- get_result ;;
  let reference_feature_stats := reference_features_stats r1 in
  r2 <- get_result ;;
  let features_stats := features_stats r2 in
  match reference_feature_stats with
  | None => raise (ValueError "Reference should be present")
  | Some reference_feature_stats =>
      if negb (contains (get_all_features features_stats) (column_name self)) then
        ret (mkTestResult name
               ("Column " +:+ column_name self +:+ " should be in current data")
               ERROR)
      else if negb (contains (get_all_features reference_feature_stats)
                      (column_name self)) then
        ret (mkTestResult name
               ("Column " +:+ column_name self +:+ " should be in reference data")
               ERROR)
      else
        cur <- lift (getitem features_stats (column_name self)) ;;
        let current_mean := FeatureQualityStats.mean cur in
        ref1 <- lift (getitem reference_feature_stats (column_name self)) ;;
        let reference_mean := FeatureQualityStats.mean ref1 in
        ref2 <- lift (getitem reference_feature_stats (column_name self)) ;;
        let reference_std := FeatureQualityStats.std ref2 in
        reference_std <- number reference_std ;;
        n_sigmas <- int_operand (n_sigmas self) ;;
        let sigmas_value := (reference_std * n_sigmas)%num in
        reference_mean <- number reference_mean ;;
        let left_condition := (reference_mean - sigmas_value)%num in
        let right_condition := (reference_mean + sigmas_value)%num in
        current_mean <- number current_mean ;;
        if (left_condition <? current_mean)%num
           && (current_mean <? right_condition)%num then
          ret (mkTestResult name
                 ("Mean value of column " +:+ column_name self +:+ " "
                  +:+ format_number fmt (np_round fmt current_mean 3)
                  +:+ " is in range from "
                  +:+ format_number fmt (np_round fmt left_condition 3) +:+ " "
                  +:+ spaces 32 +:+ "to "
                  +:+ format_number fmt (np_round fmt right_condition 3))
                 SUCCESS)
        else
          ret (mkTestResult name
                 ("Mean value of column " +:+ column_name self +:+ " "
                  +:+ format_number fmt (np_round fmt current_mean 3)
                  +:+ " is not in range from "
                  +:+ format_number fmt (np_round fmt left_condition 3) +:+ " "
                  +:+ spaces 32 +:+ "to "
                  +:+ format_number fmt (np_round fmt right_condition 3))
                 FAIL)
  end.
End Methods.

Abbreviation Method := (M (Metric unit DataQualityMetricsResults)).

End TestMeanInNSigmas.

(** ** Stability tests: conflicts in target and in prediction *)

Record DataQualityStabilityMetricsResults {A : Arithmetic} : Type :=
  mkDataQualityStabilityMetricsResults {
  number_not_stable_target : option num;
  number_not_stable_prediction : option num
}.
Arguments mkDataQualityStabilityMetricsResults {A} number_not_stable_target
  number_not_stable_prediction.

Module ConflictTest.
Section Methods.
Context {A : Arithmetic}.

Inductive Class : Type := TestConflictTarget | TestConflictPrediction.

Record t : Type := mk {
  cls : Class;
  metric : Metric unit DataQualityStabilityMetricsResults
}.

Definition set_metric (self : t) (m : Metric unit DataQualityStabilityMetricsResults) : t :=
  mk (cls self) m.

(** The type of a method body of this class. *)
Abbreviation Method := (M (Metric unit DataQualityStabilityMetricsResults)).

Definition call {X} (method : t -> Method X) (self : t) : Outcome X * t :=
  call_method metric set_metric method self.

Definition name_of (self : t) : string :=
  match cls self with
  | TestConflictTarget => "Test number of conflicts in target"
  | TestConflictPrediction => "Test number of conflicts in prediction"
  end.

(** [TestConflictTarget.__init__] and [TestConflictPrediction.__init__],
    which read alike. *)
Definition init (cls : Class)
    (pipeline : unit -> DataQualityStabilityMetricsResults)
    (metric : option (Metric unit DataQualityStabilityMetricsResults)) : Outcome t :=
  match metric with
  | Some m => Returned (mk cls m)
  | None => Returned (mk cls (new_metric pipeline tt))
  end.

Variable fmt : Formatting.

Definition check (self : t) : Method TestResult :=
  metric_result <- get_result ;;
  match cls self with
  | TestConflictTarget =>
      match number_not_stable_target metric_result with
      | None => ret (mkTestResult (name_of self) "No target in the dataset" ERROR)
      | Some n =>
          if (literal 0 <? n)%num then
            ret (mkTestResult (name_of self)
                   ("Not stable target rows count is " +:+ format_number fmt n) FAIL)
          else ret (mkTestResult (name_of self) "Target is stable" SUCCESS)
      end
  | TestConflictPrediction =>
      match number_not_stable_prediction metric_result with
      | None => ret (mkTestResult (name_of self) "No prediction in the dataset" ERROR)
      | Some n =>
          if (literal 0 <? n)%num then
            ret (mkTestResult (name_of self)
                   ("Not stable prediction rows count is " +:+ format_number fmt n) FAIL)
          else ret (mkTestResult (name_of self) "Prediction is stable" SUCCESS)
      end
  end.
End Methods.
End ConflictTest.

(** ** Correlation tests *)

Record DataQualityCorrelationMetricsResults {A : Arithmetic} : Type :=
  mkDataQualityCorrelationMetricsResults {
  target_prediction_correlation : option num;
  abs_max_num_features_correlation : option num
}.
Arguments mkDataQualityCorrelationMetricsResults {A} target_prediction_correlation
  abs_max_num_features_correlation.

Module CorrelationTest.
Section Methods.
Context {A : Arithmetic}.

Inductive Class : Type :=
| TestTargetPredictionCorrelation
| HighlyCorrelatedFeatures
| CorrelationChanges.

(** [params] of the metric: the correlation method. *)
Record t : Type := mk {
  cls : Class;
  method : string;
  condition : TestValueCondition;
  metric : Metric string DataQualityCorrelationMetricsResults
}.

Definition set_metric (self : t) (m : Metric string DataQualityCorrelationMetricsResults) : t :=
  mk (cls self) (method self) (condition self) m.

(** The type of a method body of this class. *)
Abbreviation Method := (M (Metric string DataQualityCorrelationMetricsResults)).

Definition call {X} (method : t -> Method X) (self : t) : Outcome X * t :=
  call_method metric set_metric method self.

Definition name_of (self : t) : string :=
  match cls self with
  | TestTargetPredictionCorrelation => "Test correlation between target and prediction"
  | HighlyCorrelatedFeatures =>
      "Test max correlation between numerical features and compares it against the threshold"
  | CorrelationChanges =>
      "Test max correlation between numerical features and target, prediction for regression tasks"
  end.

(** [BaseDataQualityCorrelationsMetricsValueTest.__init__]; an omitted
    [method] is [None] here and takes the default of the signature. *)
Definition init (cls : Class)
    (pipeline : string -> DataQualityCorrelationMetricsResults)
    (method : option string)
    (eq : option Bound) (gt gte : option num) (is_in : option (list Scalar))
    (lt lte : option num) (not_eq : option Bound) (not_in : option (list Scalar))
    (metric : option (Metric string DataQualityCorrelationMetricsResults))
    : Outcome t :=
  let method := default "pearson" method in
  let metric :=
    match metric with
    | Some m => m
    | None => new_metric pipeline method
    end in
  Returned (mk cls method
              (mkTestValueCondition eq gt gte is_in lt lte not_eq not_in) metric).

Variable fmt : Formatting.

Definition calculate_value_for_test (self : t) : Method (option num) :=
  match cls self with
  | TestTargetPredictionCorrelation =>
      r <- get_result ;; ret (target_prediction_correlation r)
  | HighlyCorrelatedFeatures =>
      r <- get_result ;; ret (abs_max_num_features_correlation r)
  | CorrelationChanges =>
      r <- get_result ;; ret (abs_max_num_features_correlation r)
  end.

Definition get_description (self : t) (value : num) : Method string :=
  match cls self with
  | TestTargetPredictionCorrelation =>
      ret ("Correlation between target and prediction is " +:+ format_number fmt value)
  | HighlyCorrelatedFeatures =>
      ret ("Max numeric features correlation is " +:+ format_number fmt value)
  | CorrelationChanges =>
      ret ("Max numeric features correlation is " +:+ format_number fmt value)
  end.

(** Modelled from the spec: the inherited
    [BaseCheckValueTest.get_condition] (see [FeatureTest.get_condition]). *)
Definition get_condition (self : t) : Method TestValueCondition :=
  ret (condition self).

Definition check : t -> Method TestResult :=
  BaseCheckValueTest.check name_of calculate_value_for_test get_description
    get_condition.
End Methods.
End CorrelationTest.

(** ** Value-range tests *)

Record DataQualityValueRangeMetricsResults {A : Arithmetic} : Type :=
  mkDataQualityValueRangeMetricsResults {
  number_not_in_range : num;
  share_not_in_range : num
}.
Arguments mkDataQualityValueRangeMetricsResults {A} number_not_in_range
  share_not_in_range.

(** [DataQualityValueRangeMetrics(column=..., left=..., right=...)] *)
Record ValueRangeParams {A : Arithmetic} : Type := mkValueRangeParams {
  range_column : string;
  range_left : option num;
  range_right : option num
}.
Arguments mkValueRangeParams {A} range_column range_left range_right.

Module TestValueRange.
Section Methods.
Context {A : Arithmetic}.

Record t : Type := mk {
  column_name : string;
  left : option num;
  right : option num;
  metric : Metric ValueRangeParams DataQualityValueRangeMetricsResults
}.

Definition set_metric (self : t)
    (m : Metric ValueRangeParams DataQualityValueRangeMetricsResults) : t :=
  mk (column_name self) (left self) (right self) m.

(** The type of a method body of this class. *)
Abbreviation Method := (M (Metric ValueRangeParams DataQualityValueRangeMetricsResults)).

Definition call {X} (method : t -> Method X) (self : t) : Outcome X * t :=
  call_method metric set_metric method self.

Definition name : string :=
  "Checks that all values of certain column belong to the interval".

(** [TestValueRange.__init__]: the attributes are stored; a given metric
    is bound as it is, otherwise one is made from the arguments. *)
Definition init
    (pipeline : ValueRangeParams -> DataQualityValueRangeMetricsResults)
    (column_name : string) (left right : option num)
    (metric : option (Metric ValueRangeParams DataQualityValueRangeMetricsResults))
    : Outcome t :=
  match metric with
  | Some m => Returned (mk column_name left right m)
  | None =>
      Returned (mk column_name left right
                  (new_metric pipeline (mkValueRangeParams column_name left right)))
  end.

Variable fmt : Formatting.

Definition check (self : t) : Method TestResult :=
  r <- get_result ;;
  let number_not_in_range := number_not_in_range r in
  if (literal 0 <? number_not_in_range)%num then
    ret (mkTestResult name
           ("Column " +:+ column_name self +:+ " has "
            +:+ format_number fmt number_not_in_range +:+ " values that are "
            +:+ "not in range from " +:+ format_optional (format_number fmt) (left self)
            +:+ " to " +:+ format_optional (format_number fmt) (right self) +:+ ".")
           FAIL)
  else
    ret (mkTestResult name
           ("Column " +:+ column_name self +:+ " values are in range from "
            +:+ format_optional (format_number fmt) (left self)
            +:+ " to " +:+ format_optional (format_number fmt) (right self))
           SUCCESS).
End Methods.
End TestValueRange.

(** The subclasses of [BaseDataQualityValueRangeMetricsTest]. *)
Module ValueRangeMetricsTest.
Section Methods.
Context {A : Arithmetic}.

Inductive Class : Type :=
| TestNumberOfOutRangeValues
| TestShareOfOutRangeValues.

Record t : Type := mk {
  cls : Class;
  column_name : string;
  left : option num;
  right : option num;
  condition : TestValueCondition;
  metric : Metric ValueRangeParams DataQualityValueRangeMetricsResults
}.

Definition set_metric (self : t)
    (m : Metric ValueRangeParams DataQualityValueRangeMetricsResults) : t :=
  mk (cls self) (column_name self) (left self) (right self) (condition self) m.

(** The type of a method body of this class. *)
Abbreviation Method := (M (Metric ValueRangeParams DataQualityValueRangeMetricsResults)).

Definition call {X} (method : t -> Method X) (self : t) : Outcome X * t :=
  call_method metric set_metric method self.

Definition name_of (self : t) : string :=
  match cls self with
  | TestNumberOfOutRangeValues =>
      "Test the number of out range values for a given feature and compares it against the threshold"
  | TestShareOfOutRangeValues => "Test Share of Out-Of-Range Values"
  end.

(** [BaseDataQualityValueRangeMetricsTest.__init__] *)
Definition init (cls : Class)
    (pipeline : ValueRangeParams -> DataQualityValueRangeMetricsResults)
    (column_name : string) (left right : option num)
    (eq : option Bound) (gt gte : option num) (is_in : option (list Scalar))
    (lt lte : option num) (not_eq : option Bound) (not_in : option (list Scalar))
    (metric : option (Metric ValueRangeParams DataQualityValueRangeMetricsResults))
    : Outcome t :=
  let metric :=
    match metric with
    | Some m => m
    | None => new_metric pipeline (mkValueRangeParams column_name left right)
    end in
  Returned (mk cls column_name left right
              (mkTestValueCondition eq gt gte is_in lt lte not_eq not_in) metric).

Variable fmt : Formatting.
Variables DEFAULT_RELATIVE DEFAULT_ABSOLUTE : num.

Definition calculate_value_for_test (self : t) : Method (option num) :=
  match cls self with
  | TestNumberOfOutRangeValues =>
      r <- get_result ;; ret (Some (number_not_in_range r))
  | TestShareOfOutRangeValues =>
      r <- get_result ;; ret (Some (share_not_in_range r))
  end.

(** [TestShareOfOutRangeValues.get_condition]; the other class inherits
    [BaseCheckValueTest.get_condition] (see [FeatureTest.get_condition]). *)
Definition get_condition (self : t) : Method TestValueCondition :=
  match cls self with
  | TestNumberOfOutRangeValues => ret (condition self)
  | TestShareOfOutRangeValues =>
      if is_set (condition self) then ret (condition self)
      else ret (TestValueCondition_eq
                  (BApprox (approx DEFAULT_RELATIVE DEFAULT_ABSOLUTE (literal 0)
                              None None)))
  end.

Definition get_description (self : t) (value : num) : Method string :=
  match cls self with
  | TestNumberOfOutRangeValues =>
      ret ("Number of out of the range values for feature '" +:+ column_name self
           +:+ "' is " +:+ format_number fmt value)
  | TestShareOfOutRangeValues =>
      c <- get_condition self ;;
      ret ("Share of Out-Of-Range Values for feature " +:+ column_name self
           +:+ " is " +:+ format_number fmt (np_round fmt value 3) +:+ ". "
           +:+ spaces 8 +:+ "Test Threshold is [" +:+ format_condition fmt c
           +:+ "].")
  end.

Definition check : t -> Method TestResult :=
  BaseCheckValueTest.check name_of calculate_value_for_test get_description
    get_condition.
End Methods.
End ValueRangeMetricsTest.

(** ** Value-list tests *)

Record DataQualityValueListMetricsResults {A : Arithmetic} : Type :=
  mkDataQualityValueListMetricsResults {
  number_not_in_list : num;
  share_not_in_list : num
}.
Arguments mkDataQualityValueListMetricsResults {A} number_not_in_list
  share_not_in_list.

(** [DataQualityValueListMetrics(column=..., values=...)] *)
Record ValueListParams {A : Arithmetic} : Type := mkValueListParams {
  list_column : string;
  list_values : option (list Scalar)
}.
Arguments mkValueListParams {A} list_column list_values.

Module TestValueList.
Section Methods.
Context {A : Arithmetic}.

Record t : Type := mk {
  column_name : string;
  values : option (list Scalar);
  metric : Metric ValueListParams DataQualityValueListMetricsResults
}.

Definition set_metric (self : t)
    (m : Metric ValueListParams DataQualityValueListMetricsResults) : t :=
  mk (column_name self) (values self) m.

(** The type of a method body of this class. *)
Abbreviation Method := (M (Metric ValueListParams DataQualityValueListMetricsResults)).

Definition call {X} (method : t -> Method X) (self : t) : Outcome X * t :=
  call_method metric set_metric method self.

Definition name : string :=
  "Test checks whether a feature values is in some list of values".

(** [TestValueList.__init__] *)
Definition init
    (pipeline : ValueListParams -> DataQualityValueListMetricsResults)
    (column_name : string) (values : option (list Scalar))
    (metric : option (Metric ValueListParams DataQualityValueListMetricsResults))
    : Outcome t :=
  match metric with
  | Some m => Returned (mk column_name values m)
  | None =>
      Returned (mk column_name values
                  (new_metric pipeline (mkValueListParams column_name values)))
  end.

Variable fmt : Formatting.

Definition check (self : t) : Method TestResult :=
  metric_result <- get_result ;;
  if (literal 0 <? number_not_in_list metric_result)%num then
    ret (mkTestResult name
           ("Number values not in the values list is "
            +:+ format_number fmt (number_not_in_list metric_result))
           FAIL)
  else
    ret (mkTestResult name "All values is in the values list" SUCCESS).
End Methods.
End TestValueList.

(** The subclasses of [BaseDataQualityValueListMetricsTest]. *)
Module ValueListMetricsTest.
Section Methods.
Context {A : Arithmetic}.

Inductive Class : Type :=
| TestNumberOfOutListValues
| TestShareOfOutListValues.

Record t : Type := mk {
  cls : Class;
  column_name : string;
  values : option (list Scalar);
  condition : TestValueCondition;
  metric : Metric ValueListParams DataQualityValueListMetricsResults
}.

Definition set_metric (self : t)
    (m : Metric ValueListParams DataQualityValueListMetricsResults) : t :=
  mk (cls self) (column_name self) (values self) (condition self) m.

(** The type of a method body of this class. *)
Abbreviation Method := (M (Metric ValueListParams DataQualityValueListMetricsResults)).

Definition call {X} (method : t -> Method X) (self : t) : Outcome X * t :=
  call_method metric set_metric method self.

Definition name_of (self : t) : string :=
  match cls self with
  | TestNumberOfOutListValues =>
      "Test the number of out list values for a given feature and compares it against the threshold"
  | TestShareOfOutListValues => "Test Share of Out-Of-List Values"
  end.

(** [BaseDataQualityValueListMetricsTest.__init__] *)
Definition init (cls : Class)
    (pipeline : ValueListParams -> DataQualityValueListMetricsResults)
    (column_name : string) (values : option (list Scalar))
    (eq : option Bound) (gt gte : option num) (is_in : option (list Scalar))
    (lt lte : option num) (not_eq : option Bound) (not_in : option (list Scalar))
    (metric : option (Metric ValueListParams DataQualityValueListMetricsResults))
    : Outcome t :=
  let metric :=
    match metric with
    | Some m => m
    | None => new_metric pipeline (mkValueListParams column_name values)
    end in
  Returned (mk cls column_name values
              (mkTestValueCondition eq gt gte is_in lt lte not_eq not_in) metric).

Variable fmt : Formatting.
Variables DEFAULT_RELATIVE DEFAULT_ABSOLUTE : num.

Definition calculate_value_for_test (self : t) : Method (option num) :=
  match cls self with
  | TestNumberOfOutListValues =>
      r <- get_result ;; ret (Some (number_not_in_list r))
  | TestShareOfOutListValues =>
      r <- get_result ;; ret (Some (share_not_in_list r))
  end.

(** [TestShareOfOutListValues.get_condition]; the other class inherits
    [BaseCheckValueTest.get_condition] (see [FeatureTest.get_condition]). *)
Definition get_condition (self : t) : Method TestValueCondition :=
  match cls self with
  | TestNumberOfOutListValues => ret (condition self)
  | TestShareOfOutListValues =>
      if is_set (condition self) then ret (condition self)
      else ret (TestValueCondition_eq
                  (BApprox (approx DEFAULT_RELATIVE DEFAULT_ABSOLUTE (literal 0)
                              None None)))
  end.

Definition get_description (self : t) (value : num) : Method string :=
  match cls self with
  | TestNumberOfOutListValues =>
      ret ("Number of out of the list values for feature '" +:+ column_name self
           +:+ "' is " +:+ format_number fmt value)
  | TestShareOfOutListValues =>
      c <- get_condition self ;;
      ret ("Share of Out-Of-List Values for feature " +:+ column_name self
           +:+ " is " +:+ format_number fmt (np_round fmt value 3)
           +:+ ". Test Threshold " +:+ spaces 12 +:+ "is ["
           +:+ format_condition fmt c +:+ "].")
  end.

Definition check : t -> Method TestResult :=
  BaseCheckValueTest.check name_of calculate_value_for_test get_description
    get_condition.
End Methods.
End ValueListMetricsTest.

(** ** TestValueQuantile *)

Record DataQualityValueQuantileMetricsResults {A : Arithmetic} : Type :=
  mkDataQualityValueQuantileMetricsResults {
  value : num
}.
Arguments mkDataQualityValueQuantileMetricsResults {A} value.

(** [DataQualityValueQuantileMetrics(column=..., quantile=...)] *)
Record ValueQuantileParams {A : Arithmetic} : Type := mkValueQuantileParams {
  quantile_column : option string;
  quantile_quantile : option num
}.
Arguments mkValueQuantileParams {A} quantile_column quantile_quantile.

Module TestValueQuantile.
Section Methods.
Context {A : Arithmetic}.

(** [column_name] is annotated [str], but the constructor tests it
    against [None], so it is optional here. *)
Record t : Type := mk {
  column_name : option string;
  quantile : option num;
  condition : TestValueCondition;
  metric : Metric ValueQuantileParams DataQualityValueQuantileMetricsResults
}.

Definition set_metric (self : t)
    (m : Metric ValueQuantileParams DataQualityValueQuantileMetricsResults) : t :=
  mk (column_name self) (quantile self) (condition self) m.

(** The type of a method body of this class. *)
Abbreviation Method := (M (Metric ValueQuantileParams DataQualityValueQuantileMetricsResults)).

Definition call {X} (method : t -> Method X) (self : t) : Outcome X * t :=
  call_method metric set_metric method self.

Definition name : string :=
  "Test calculates quantile value of a given column and compares it against the threshold".

(** [TestValueQuantile.__init__]. [super().__init__(eq=..., ...)] stores
    [TestValueCondition(eq=..., ...)] as the condition. *)
Definition init
    (pipeline : ValueQuantileParams -> DataQualityValueQuantileMetricsResults)
    (column_name : option string) (quantile : option num)
    (eq : option Bound) (gt gte : option num) (is_in : option (list Scalar))
    (lt lte : option num) (not_eq : option Bound) (not_in : option (list Scalar))
    (metric : option (Metric ValueQuantileParams DataQualityValueQuantileMetricsResults))
    : Outcome t :=
  let condition := mkTestValueCondition eq gt gte is_in lt lte not_eq not_in in
  match metric with
  | Some m =>
      if is_not_None column_name || is_not_None quantile then
        Raised (ValueError "Test parameters and given  metric conflict")
      else Returned (mk column_name quantile condition m)
  | None =>
      Returned (mk column_name quantile condition
                  (new_metric pipeline (mkValueQuantileParams column_name quantile)))
  end.

Variable fmt : Formatting.

Definition calculate_value_for_test (self : t) : Method (option num) :=
  r <- get_result ;; ret (Some (value r)).

Definition get_description (self : t) (v : num) : Method string :=
  ret ("Quantile " +:+ format_optional (format_number fmt) (quantile self)
       +:+ " for column '" +:+ format_optional id (column_name self) +:+ "' is "
       +:+ format_number fmt v).

(** Modelled from the spec: the inherited
    [BaseCheckValueTest.get_condition] (see [FeatureTest.get_condition]). *)
Definition get_condition (self : t) : Method TestValueCondition :=
  ret (condition self).

Definition check : t -> Method TestResult :=
  BaseCheckValueTest.check (fun _ => name) calculate_value_for_test get_description
    get_condition.
End Methods.
End TestValueQuantile.

(** ** Every test of the module *)

Section Tests.
Context {A : Arithmetic}.

Inductive Test : Type :=
| Feature (t : FeatureTest.t)
| MeanInNSigmas (t : TestMeanInNSigmas.t)
| Conflict (t : ConflictTest.t)
| Correlation (t : CorrelationTest.t)
| ValueRange (t : TestValueRange.t)
| ValueRangeMetrics (t : ValueRangeMetricsTest.t)
| ValueList (t : TestValueList.t)
| ValueListMetrics (t : ValueListMetricsTest.t)
| ValueQuantile (t : TestValueQuantile.t).

(** A method of a subclass called on a [Test]. *)
Definition dispatch {S X} (inj : S -> Test) (called : S -> Outcome X * S) (s : S)
    : Outcome X * Test :=
  let (o, s') := called s in (o, inj s').

(** [test.check()]: the outcome, and the test object after the call. *)
Definition check (fmt : Formatting) (DEFAULT_RELATIVE DEFAULT_ABSOLUTE : num)
    (test : Test) : Outcome TestResult * Test :=
  match test with
  | Feature t =>
      dispatch Feature
        (FeatureTest.call (FeatureTest.check fmt DEFAULT_RELATIVE DEFAULT_ABSOLUTE)) t
  | MeanInNSigmas t =>
      dispatch MeanInNSigmas (TestMeanInNSigmas.call (TestMeanInNSigmas.check fmt)) t
  | Conflict t => dispatch Conflict (ConflictTest.call (ConflictTest.check fmt)) t
  | Correlation t =>
      dispatch Correlation (CorrelationTest.call (CorrelationTest.check fmt)) t
  | ValueRange t => dispatch ValueRange (TestValueRange.call (TestValueRange.check fmt)) t
  | ValueRangeMetrics t =>
      dispatch ValueRangeMetrics
        (ValueRangeMetricsTest.call
           (ValueRangeMetricsTest.check fmt DEFAULT_RELATIVE DEFAULT_ABSOLUTE)) t
  | ValueList t => dispatch ValueList (TestValueList.call (TestValueList.check fmt)) t
  | ValueListMetrics t =>
      dispatch ValueListMetrics
        (ValueListMetricsTest.call
           (ValueListMetricsTest.check fmt DEFAULT_RELATIVE DEFAULT_ABSOLUTE)) t
  | ValueQuantile t =>
      dispatch ValueQuantile (TestValueQuantile.call (TestValueQuantile.check fmt)) t
  end.

(** The test object once the result of its metric has been accessed: the
    attributes are those of [test], the cache of the metric is filled. *)
Definition access_metric (test : Test) : Test :=
  match test with
  | Feature t => Feature (FeatureTest.set_metric t (accessed (FeatureTest.metric t)))
  | MeanInNSigmas t =>
      MeanInNSigmas
        (TestMeanInNSigmas.set_metric t (accessed (TestMeanInNSigmas.metric t)))
  | Conflict t => Conflict (ConflictTest.set_metric t (accessed (ConflictTest.metric t)))
  | Correlation t =>
      Correlation (CorrelationTest.set_metric t (accessed (CorrelationTest.metric t)))
  | ValueRange t =>
      ValueRange (TestValueRange.set_metric t (accessed (TestValueRange.metric t)))
  | ValueRangeMetrics t =>
      ValueRangeMetrics
        (ValueRangeMetricsTest.set_metric t (accessed (ValueRangeMetricsTest.metric t)))
  | ValueList t =>
      ValueList (TestValueList.set_metric t (accessed (TestValueList.metric t)))
  | ValueListMetrics t =>
      ValueListMetrics
        (ValueListMetricsTest.set_metric t (accessed (ValueListMetricsTest.metric t)))
  | ValueQuantile t =>
      ValueQuantile
        (TestValueQuantile.set_metric t (accessed (TestValueQuantile.metric t)))
  end.

End Tests.

(** ** Vocabulary of the properties *)

(** A method body is [cache_only] when all it does to the metric is fill
    its cache, and when its outcome does not depend on whether the cache
    was filled before. *)
Definition cache_only {P R A} (c : M (Metric P R) A) : Prop :=
  forall m,
    (snd (c m) = m \/ snd (c m) = accessed m)
    /\ fst (c (accessed m)) = fst (c m).

(** Every value the body can return satisfies [Q]. *)
Definition returns_only {S A} (Q : A -> Prop) (c : M S A) : Prop :=
  forall s a s', c s = (Returned a, s') -> Q a.

(** The statuses of a finished evaluation. *)
Definition is_terminal (r : TestResult) : Prop :=
  status r = SUCCESS \/ status r = FAIL \/ status r = ERROR.

(** The constructor arguments of a value-range test disagree with the
    arguments the given metric was made with. *)
Definition conflicts_with {A : Arithmetic} (column_name : string)
    (left right : option num)
    (metric : Metric ValueRangeParams DataQualityValueRangeMetricsResults) : Prop :=
  params metric <> mkValueRangeParams column_name left right.

(** ** Sample objects *)

(** The samples are objects of exact arithmetic, unless their name says
    [binary64]; a statement about them that leaves the arithmetic out is
    one about [rational]. *)
#[global] Existing Instance rational.

(** A formatting that prints a number as numerator/denominator, rounds
    nothing and prints every condition alike. *)
Definition sample_formatting : Formatting :=
  {| format_number := fun q => pretty (Qnum q) +:+ "/" +:+ pretty (Zpos (Qden q));
     np_round := fun q _ => q;
     format_condition := fun _ => "condition" |}.

(** Statistics of one feature of which only the mean, the standard
    deviation and the most-common-value percentage are known. *)
Definition sample_stats (mean std most_common : option Q) : FeatureQualityStats.t :=
  FeatureQualityStats.mk None None mean None std None None most_common.

(** A metric over one feature, ["age"], not accessed yet. *)
Definition sample_metric (current : FeatureQualityStats.t)
    (reference : option FeatureQualityStats.t)
    : Metric unit DataQualityMetricsResults :=
  mkMetric tt
    {| features_stats := {[ "age" := current ]};
       reference_features_stats := (fun st => {[ "age" := st ]}) <$> reference |}
    None.

(** The metric over a dataset without features. *)
Definition sample_metric_no_features : Metric unit DataQualityMetricsResults :=
  mkMetric tt {| features_stats := ∅; reference_features_stats := None |} None.

(** Default tolerances of [approx] for the samples. *)
Definition sample_relative : Q := 1 # 1000000.
Definition sample_absolute : Q := 1 # 1000000000000.

(** [TestMostCommonValueShare("age")] with no condition, over a current
    and an optional reference most-common-value percentage. *)
Definition sample_most_common (current : Q) (reference : option Q) : FeatureTest.t :=
  FeatureTest.mk FeatureTest.TestMostCommonValueShare "age" TestValueCondition_unset
    (sample_metric (sample_stats None None (Some current))
       ((fun p => sample_stats None None (Some p)) <$> reference)).

(** [TestMeanInNSigmas("age")] with the default [n_sigmas], over a
    current mean and an optional reference mean and standard deviation. *)
Definition sample_mean_in_n_sigmas (current_mean : Q) (reference : option (Q * Q))
    : TestMeanInNSigmas.t :=
  TestMeanInNSigmas.init (fun _ => mkDataQualityMetricsResults ∅ None) "age" None
    (Some (sample_metric (sample_stats (Some current_mean) None None)
             ((fun ms => sample_stats (Some (fst ms)) (Some (snd ms)) None)
                <$> reference))).

(** A value-range metric made for column ["a"] and the interval [0, 1],
    reporting the given count and share of values outside it. *)
Definition sample_range_metric (count share : Q)
    : Metric ValueRangeParams DataQualityValueRangeMetricsResults :=
  new_metric (fun _ => mkDataQualityValueRangeMetricsResults count share)
    (mkValueRangeParams "a" (Some 0%Q) (Some 1%Q)).

Definition sample_list_metric (count share : Q)
    : Metric ValueListParams DataQualityValueListMetricsResults :=
  new_metric (fun _ => mkDataQualityValueListMetricsResults count share)
    (mkValueListParams "a" None).

Definition sample_quantile_metric
    : Metric ValueQuantileParams DataQualityValueQuantileMetricsResults :=
  new_metric (fun _ => mkDataQualityValueQuantileMetricsResults 0%Q)
    (mkValueQuantileParams (Some "a") (Some (1 # 2)%Q)).

(** ** The rest of the module: vocabulary *)

Section Vocabulary.
Context {A : Arithmetic}.

(** The statistic a feature-level test returns as it is; the two share
    tests divide a percentage instead. *)
Definition plain_statistic (c : FeatureTest.Class)
    : option (FeatureQualityStats.t -> option num) :=
  match c with
  | FeatureTest.TestFeatureValueMin => Some FeatureQualityStats.min
  | FeatureTest.TestFeatureValueMax => Some FeatureQualityStats.max
  | FeatureTest.TestFeatureValueMean => Some FeatureQualityStats.mean
  | FeatureTest.TestFeatureValueMedian => Some FeatureQualityStats.percentile_50
  | FeatureTest.TestFeatureValueStd => Some FeatureQualityStats.std
  | FeatureTest.TestNumberOfUniqueValues => Some FeatureQualityStats.unique_count
  | FeatureTest.TestUniqueValuesShare => None
  | FeatureTest.TestMostCommonValueShare => None
  end.

(** The percentage a share test divides by 100. *)
Definition share_percentage (c : FeatureTest.Class)
    : option (FeatureQualityStats.t -> option num) :=
  match c with
  | FeatureTest.TestUniqueValuesShare => Some FeatureQualityStats.unique_percentage
  | FeatureTest.TestMostCommonValueShare =>
      Some FeatureQualityStats.most_common_value_percentage
  | _ => None
  end.

(** The value a feature-level test tests, read off the statistics of its
    column: the statistic as it is, or the percentage over 100. *)
Definition tested_value (c : FeatureTest.Class) (st : FeatureQualityStats.t)
    : option num :=
  match plain_statistic c, share_percentage c with
  | Some statistic, _ => statistic st
  | None, Some percentage => (fun p => (p / literal 100)%num) <$> percentage st
  | None, None => None
  end.

(** What a metric result says about one column: its current statistics,
    and, when there is a reference, the reference's statistics for it. *)
Definition current_of (r : DataQualityMetricsResults) (column : string)
    : option FeatureQualityStats.t :=
  features_stats r !! column.

Definition reference_of (r : DataQualityMetricsResults) (column : string)
    : option (option FeatureQualityStats.t) :=
  (fun reference : DataQualityStats => reference !! column)
    <$> reference_features_stats r.

(** [self] is the one kind of feature-level test that reads the reference
    statistics: [TestMostCommonValueShare] with no condition of its own. *)
Definition reads_reference (self : FeatureTest.t) : bool :=
  match FeatureTest.cls self with
  | FeatureTest.TestMostCommonValueShare => negb (is_set (FeatureTest.condition self))
  | _ => false
  end.

(** The count a conflict test reads: the target test the target's, the
    prediction test the prediction's. *)
Definition conflict_count (c : ConflictTest.Class)
    (r : DataQualityStabilityMetricsResults) : option num :=
  match c with
  | ConflictTest.TestConflictTarget => number_not_stable_target r
  | ConflictTest.TestConflictPrediction => number_not_stable_prediction r
  end.

(** [TestValueCondition(lte=bound)] *)
Definition TestValueCondition_lte (bound : num) : TestValueCondition :=
  mkTestValueCondition None None None None None (Some bound) None None.

End Vocabulary.

(** ** TestMeanInNSigmasRenderer *)

Module TestMeanInNSigmasRenderer.
Section Methods.
Context {A : Arithmetic}.

(** [stats[column_name]] where [stats] may be [None]: subscripting [None]
    raises [TypeError]. *)
Definition subscript (stats : option DataQualityStats) (column_name : string)
    : TestMeanInNSigmas.Method FeatureQualityStats.t :=
  match stats with
  | None => raise TypeError
  | Some stats => lift (getitem stats column_name)
  end.

(** The first statements of [render_html], up to
    [ref_condition = TestValueCondition(gt=gt, lt=lt)]: the acceptance
    band the renderer draws.  The plots that follow are not modelled. *)
Definition ref_condition (obj : TestMeanInNSigmas.t)
    : TestMeanInNSigmas.Method TestValueCondition :=
  let column_name := TestMeanInNSigmas.column_name obj in
  r1 <- get_result ;;
  st1 <- subscript (reference_features_stats r1) column_name ;;
  let ref_mean := FeatureQualityStats.mean st1 in
  r2 <- get_result ;;
  st2 <- subscript (reference_features_stats r2) column_name ;;
  let ref_std := FeatureQualityStats.std st2 in
  ref_std <- number ref_std ;;
  n_sigmas <- int_operand (TestMeanInNSigmas.n_sigmas obj) ;;
  ref_mean <- number ref_mean ;;
  let gt := (ref_mean - n_sigmas * ref_std)%num in
  let lt := (ref_mean + n_sigmas * ref_std)%num in
  ret (mkTestValueCondition None (Some gt) None None (Some lt) None None None).

End Methods.
End TestMeanInNSigmasRenderer.

(** ** The cloud metadata client ([evidently.ui.workspace.cloud])

    Source: [src/evidently/ui/workspace/cloud.py].  [CloudMetadataStorage]
    extends [RemoteMetadataStorage], which is not among the sources: what
    its [_request] does (send the request, raise [HTTPError] on an error
    status, parse the reply) is the argument [super_request] below, an
    arbitrary action on the client and on the world outside it. *)

Module Cloud.

(** What a call may raise: [requests.HTTPError] with the status code of
    its response, [TypeError], or anything else. *)
Inductive Error : Type :=
| HTTPError (status_code : Z)
| TypeError
| OtherError (what : string).

Inductive Result (A : Type) : Type :=
| Ok (a : A)
| Err (e : Error).
Arguments Ok {A} a.
Arguments Err {A} e.

Definition TOKEN_HEADER_NAME : string := "X-Evidently-Token".

(** The attributes [CloudMetadataStorage.__init__] sets. *)
Record CloudMetadataStorage : Type := mkCloudMetadataStorage {
  token : string;
  token_cookie_name : string;
  _jwt_token : option string;
  _logged_in : bool
}.

Definition set_jwt_token (self : CloudMetadataStorage) (t : option string)
    : CloudMetadataStorage :=
  mkCloudMetadataStorage (token self) (token_cookie_name self) t (_logged_in self).

Definition set_logged_in (self : CloudMetadataStorage) (b : bool)
    : CloudMetadataStorage :=
  mkCloudMetadataStorage (token self) (token_cookie_name self) (_jwt_token self) b.

Section Client.
(** The world outside the client (server, network), the replies of the
    parent's [_request] ([Response] or a parsed model), and the arguments
    the client passes through untouched. *)
Variables World Reply QueryParams Body Model : Type.

(** The arguments of [_request]. *)
Record RequestArgs : Type := mkRequestArgs {
  path : string;
  method : string;
  query_params : option QueryParams;
  body : option Body;
  response_model : option Model;
  cookies : option (gmap string string);
  headers : option (gmap string string);
  form_data : bool
}.

Definition with_cookies (args : RequestArgs) (c : option (gmap string string))
    : RequestArgs :=
  mkRequestArgs (path args) (method args) (query_params args) (body args)
    (response_model args) c (headers args) (form_data args).

(** A method body: from the client and the world to a result, the client
    and the world. *)
Definition Action (A : Type) : Type :=
  CloudMetadataStorage * World -> Result A * (CloudMetadataStorage * World).

(** [RemoteMetadataStorage._request] and [Response.text]. *)
Variable super_request : RequestArgs -> Action Reply.
Variable text : Reply -> string.

(** [_get_jwt_token] *)
Definition _get_jwt_token : Action string :=
  fun s =>
    let self := fst s in
    match super_request
            (mkRequestArgs "/api/users/login" "GET" None None None None
               (Some {[ TOKEN_HEADER_NAME := token self ]}) false) s with
    | (Ok reply, s') => (Ok (text reply), s')
    | (Err e, s') => (Err e, s')
    end.

(** The property [jwt_token] *)
Definition jwt_token : Action string :=
  fun s =>
    match _jwt_token (fst s) with
    | Some t => (Ok t, s)
    | None =>
        match _get_jwt_token s with
        | (Ok t, (self, world)) => (Ok t, (set_jwt_token self (Some t), world))
        | (Err e, s') => (Err e, s')
        end
    end.

(** The [except HTTPError] branch of [_request], entered with the status
    code of the error. *)
Definition on_http_error (args : RequestArgs) (status_code : Z) : Action Reply :=
  fun s =>
    if _logged_in (fst s) && (status_code =? 401)%Z then
      match _get_jwt_token s with
      | (Err e, s') => (Err e, s')
      | (Ok t, (self, world)) =>
          match jwt_token (set_jwt_token self (Some t), world) with
          | (Err e, s') => (Err e, s')
          | (Ok jwt, (self', world')) =>
              match cookies args with
              | None => (Err TypeError, (self', world'))
              | Some c =>
                  super_request
                    (with_cookies args (Some (<[ token_cookie_name self' := jwt ]> c)))
                    (self', world')
              end
          end
      end
    else (Err (HTTPError status_code), s).

(** [CloudMetadataStorage._request] *)
Definition _request (args : RequestArgs) : Action Reply :=
  fun s =>
    match super_request args s with
    | (Ok res, (self, world)) => (Ok res, (set_logged_in self true, world))
    | (Err (HTTPError status_code), s') => on_http_error args status_code s'
    | (Err e, s') => (Err e, s')
    end.

(** [list_orgs], [create_org] and [create_team]: one [_request] each, with
    no cookies and no headers of their own. *)
Definition list_orgs (list_of_OrgModel : Model) : Action Reply :=
  _request (mkRequestArgs "/api/orgs" "GET" None None (Some list_of_OrgModel)
              None None false).

Definition create_org (OrgModel : Model) (org_dict : Body) : Action Reply :=
  _request (mkRequestArgs "/api/orgs" "POST" None (Some org_dict) (Some OrgModel)
              None None false).

Definition create_team (TeamModel : Model) (name_and_org_id : QueryParams)
    : Action Reply :=
  _request (mkRequestArgs "/api/teams" "POST" (Some name_and_org_id) None
              (Some TeamModel) None None false).

End Client.

Arguments path {QueryParams Body Model} r.
Arguments method {QueryParams Body Model} r.
Arguments cookies {QueryParams Body Model} r.
Arguments headers {QueryParams Body Model} r.
Arguments with_cookies {QueryParams Body Model} args c.
Arguments mkRequestArgs {QueryParams Body Model}.
Arguments _get_jwt_token {World Reply QueryParams Body Model} super_request text s.
Arguments jwt_token {World Reply QueryParams Body Model} super_request text s.
Arguments _request {World Reply QueryParams Body Model} super_request text args s.
Arguments on_http_error {World Reply QueryParams Body Model} super_request text args
  status_code s.
Arguments list_orgs {World Reply QueryParams Body Model} super_request text
  list_of_OrgModel s.
Arguments create_org {World Reply QueryParams Body Model} super_request text
  OrgModel org_dict s.
Arguments create_team {World Reply QueryParams Body Model} super_request text
  TeamModel name_and_org_id s.

End Cloud.

(** The arguments of the login request [_get_jwt_token] sends for a client
    whose token is [tok]. *)
Definition login_args {QueryParams Body Model : Type} (tok : string)
    : Cloud.RequestArgs QueryParams Body Model :=
  Cloud.mkRequestArgs "/api/users/login" "GET" None None None None
    (Some {[ Cloud.TOKEN_HEADER_NAME := tok ]}) false.

(** The parent's [_request] leaves the [_logged_in] flag of the client
    alone. *)
Definition keeps_logged_in {World Reply QueryParams Body Model : Type}
    (super_request : Cloud.RequestArgs QueryParams Body Model
                     -> Cloud.Action World Reply) : Prop :=
  forall args s,
    Cloud._logged_in (fst (snd (super_request args s))) = Cloud._logged_in (fst s).

(** A sample server. It answers the login request with the token
    ["renewed"], accepts every other request that carries that token in
    the cookie ["app.at"], and rejects the rest with status 401.  The
    world is the number of requests sent so far. *)
Definition sample_server (args : Cloud.RequestArgs unit unit unit)
    : Cloud.Action nat string :=
  fun s =>
    let sent := (fst s, S (snd s)) in
    if bool_decide (Cloud.path args = "/api/users/login") then
      (Cloud.Ok "renewed", sent)
    else
      match Cloud.cookies args with
      | Some c =>
          if bool_decide (c !! "app.at" = Some "renewed")
          then (Cloud.Ok "done", sent)
          else (Cloud.Err (Cloud.HTTPError 401), sent)
      | None => (Cloud.Err (Cloud.HTTPError 401), sent)
      end.

(** A client of the sample server. *)
Definition sample_client (jwt : option string) (logged_in : bool)
    : Cloud.CloudMetadataStorage :=
  Cloud.mkCloudMetadataStorage "secret" "app.at" jwt logged_in.

Definition sample_orgs_request (c : option (gmap string string))
    : Cloud.RequestArgs unit unit unit :=
  Cloud.mkRequestArgs "/api/orgs" "GET" None None (Some tt) c None false.

(** ** More sample objects *)

(** A [DataQualityMetrics] with the given statistics, not accessed yet. *)
Definition sample_metric_of (current : DataQualityStats)
    (reference : option DataQualityStats) : Metric unit DataQualityMetricsResults :=
  mkMetric tt (mkDataQualityMetricsResults current reference) None.

(** A feature-level test of class [c] on ["age"], with no condition. *)
Definition sample_feature_test (c : FeatureTest.Class)
    (m : Metric unit DataQualityMetricsResults) : FeatureTest.t :=
  FeatureTest.mk c "age" TestValueCondition_unset m.

(** Statistics with nothing known. *)
Definition sample_no_stats : FeatureQualityStats.t := sample_stats None None None.

Definition sample_stability_metric (target prediction : option Q)
    : Metric unit DataQualityStabilityMetricsResults :=
  mkMetric tt (mkDataQualityStabilityMetricsResults target prediction) None.

(** ** Sample objects of binary64 *)

(** A formatting that prints a double as sign, integer significand and
    binary exponent, rounds nothing and prints every condition alike. *)
Definition binary64_formatting : Formatting (A := binary64) :=
  mkFormatting (A := binary64)
    (fun x =>
       match Prim2SF x with
       | S754_zero s => if s then "-0.0" else "0.0"
       | S754_infinity s => if s then "-inf" else "inf"
       | S754_nan => "nan"
       | S754_finite s m e =>
           (if s then "-" else EmptyString) +:+ pretty (Zpos m) +:+ "*2**" +:+ pretty e
       end)
    (fun x _ => x)
    (fun _ => "condition").

Definition binary64_stats (mean std unique most_common : option float)
    : FeatureQualityStats.t (A := binary64) :=
  FeatureQualityStats.mk (A := binary64) None None mean None std None unique
    most_common.

(** A metric over one feature, ["age"], not accessed yet. *)
Definition binary64_metric (current : FeatureQualityStats.t (A := binary64))
    (reference : option (FeatureQualityStats.t (A := binary64)))
    : Metric unit (DataQualityMetricsResults (A := binary64)) :=
  mkMetric tt
    (mkDataQualityMetricsResults (A := binary64) {[ "age" := current ]}
       ((fun st => {[ "age" := st ]}) <$> reference))
    None.

(** [TestMeanInNSigmas("age", n_sigmas)] over a current mean and a
    reference mean and standard deviation. *)
Definition binary64_mean_in_n_sigmas (n_sigmas : option Z) (current_mean : float)
    (reference_mean reference_std : float) : TestMeanInNSigmas.t (A := binary64) :=
  TestMeanInNSigmas.init (A := binary64)
    (fun _ => mkDataQualityMetricsResults (A := binary64) ∅ None) "age" n_sigmas
    (Some (binary64_metric (binary64_stats (Some current_mean) None None None)
             (Some (binary64_stats (Some reference_mean) (Some reference_std)
                      None None)))).

(** A feature-level test of class [c] on ["age"], with the given
    condition, over the statistics [current] and [reference]. *)
Definition binary64_feature_test (c : FeatureTest.Class)
    (condition : TestValueCondition (A := binary64))
    (current : FeatureQualityStats.t (A := binary64))
    (reference : option (FeatureQualityStats.t (A := binary64)))
    : FeatureTest.t (A := binary64) :=
  FeatureTest.mk (A := binary64) c "age" condition (binary64_metric current reference).

(** Default tolerances of [approx] for the samples. *)
Definition binary64_relative : float := 0x1p-20%float.
Definition binary64_absolute : float := 0x1p-40%float.

(** The rational a finite double is; [None] for an infinity and for NaN. *)
Definition exact_value (x : float) : option Q :=
  match Prim2SF x with
  | S754_zero _ => Some 0%Q
  | S754_finite s m e =>
      let magnitude := (inject_Z (Zpos m) * Qpower 2 e)%Q in
      Some (if s then (- magnitude)%Q else magnitude)
  | S754_infinity _ => None
  | S754_nan => None
  end.

(** * Properties *)

(** ** Numbers *)

Lemma Qltb_iff (x y : Q) : Qltb x y = true <-> (x < y)%Q.
Proof.
  unfold Qltb. rewrite negb_true_iff. split.
  - intros H. apply Qnot_le_lt. intros Hle.
    apply Qle_bool_iff in Hle. congruence.
  - intros H. destruct (Qle_bool y x) eqn:E; [|reflexivity].
    apply Qle_bool_iff in E. exfalso. exact (Qlt_not_le _ _ H E).
Qed.



(** In exact arithmetic the operators are those of [Q]. *)
Ltac rational_arith :=
  cbn [num literal of_int num_add num_sub num_mul num_div num_abs num_eq num_lt
       num_le rational] in *.

(** ** The metric cache *)

Lemma get_result_accessed {P R} (m : Metric P R) :
  get_result m = (Returned (result_of m), accessed m).
Proof. destruct m as [p c [r|]]; reflexivity. Qed.

Lemma result_of_accessed {P R} (m : Metric P R) :
  result_of (accessed m) = result_of m.
Proof. reflexivity. Qed.

Lemma accessed_idempotent {P R} (m : Metric P R) :
  accessed (accessed m) = accessed m.
Proof. reflexivity. Qed.

Lemma accessed_cached {P R} (m : Metric P R) (r : R) :
  cached m = Some r -> accessed m = m.
Proof. destruct m as [p c [r'|]]; simpl; intros H; [reflexivity | discriminate]. Qed.

(** ** Methods touch nothing but the cache *)

Lemma cache_only_ret {P R A} (a : A) : cache_only (@ret (Metric P R) A a).
Proof. intros m. simpl. auto. Qed.

Lemma cache_only_raise {P R A} (e : Exception) : cache_only (@raise (Metric P R) A e).
Proof. intros m. simpl. auto. Qed.

Lemma cache_only_lift {P R A} (o : Outcome A) : cache_only (@lift (Metric P R) A o).
Proof. intros m. simpl. auto. Qed.

Lemma cache_only_number {A : Arithmetic} {P R} (o : option num) :
  cache_only (number (S := Metric P R) o).
Proof. destruct o; [apply cache_only_ret | apply cache_only_raise]. Qed.

Lemma cache_only_int_operand {A : Arithmetic} {P R} (n : Z) :
  cache_only (int_operand (S := Metric P R) n).
Proof.
  unfold int_operand. destruct (of_int n); [apply cache_only_ret | apply cache_only_raise].
Qed.

Lemma cache_only_get_result {P R} : cache_only (@get_result P R).
Proof.
  intros m. rewrite !get_result_accessed. simpl. auto.
Qed.

Lemma cache_only_after {P R A} (c : M (Metric P R) A) (m : Metric P R) :
  cache_only c -> snd (c (accessed m)) = accessed m.
Proof.
  intros Hc. destruct (Hc (accessed m)) as [[H | H] _]; exact H.
Qed.

Lemma cache_only_bind {P R A B} (c : M (Metric P R) A) (k : A -> M (Metric P R) B) :
  cache_only c -> (forall a, cache_only (k a)) -> cache_only (bind c k).
Proof.
  intros Hc Hk m. unfold bind.
  pose proof (cache_only_after c m Hc) as Hafter.
  destruct (Hc m) as [Hstate Hout].
  destruct (c (accessed m)) as [o2 m2]. destruct (c m) as [o m1].
  simpl in *. subst o2 m2.
  destruct o as [a | e]; simpl.
  - destruct (Hk a m) as [Hs Ho].
    pose proof (cache_only_after (k a) m (Hk a)) as Hka.
    destruct Hstate as [-> | ->].
    + split; [exact Hs | exact Ho].
    + split; [right; exact Hka | reflexivity].
  - split; [exact Hstate | reflexivity].
Qed.

Lemma cache_only_try {P R A} (body handler : M (Metric P R) A) :
  cache_only body -> cache_only handler ->
  cache_only (try_except_ValueError body handler).
Proof.
  intros Hb Hh m. unfold try_except_ValueError.
  pose proof (cache_only_after body m Hb) as Hafter.
  destruct (Hb m) as [Hstate Hout].
  destruct (body (accessed m)) as [o2 m2]. destruct (body m) as [o m1].
  simpl in *. subst o2 m2.
  destruct o as [a | [msg | | key |]]; simpl; try (split; [exact Hstate | reflexivity]).
  destruct (Hh m) as [Hs Ho].
  pose proof (cache_only_after handler m Hh) as Hha.
  destruct Hstate as [-> | ->].
  - split; [exact Hs | exact Ho].
  - split; [right; exact Hha | reflexivity].
Qed.

(** Called twice, a [cache_only] body gives the same outcome, and the
    second call leaves the metric as the first left it. *)
Lemma cache_only_twice {P R A} (c : M (Metric P R) A) (m : Metric P R) :
  cache_only c ->
  fst (c (snd (c m))) = fst (c m) /\ snd (c (snd (c m))) = snd (c m).
Proof.
  intros Hc. destruct (Hc m) as [[H | H] Hout]; rewrite H.
  - split; [reflexivity | exact H].
  - split; [exact Hout | apply cache_only_after, Hc].
Qed.

(** The outcome and the final state of a [cache_only] body that starts
    with the cache empty or filled. *)
Lemma cache_only_outcome {P R A} (c : M (Metric P R) A) (m : Metric P R) :
  cache_only c -> fst (c m) = fst (c (accessed m)).
Proof. intros Hc. symmetry. apply Hc. Qed.

Create HintDb cache_only discriminated.
#[export] Hint Resolve cache_only_ret cache_only_raise cache_only_lift
  cache_only_number cache_only_int_operand cache_only_get_result : cache_only.

(** Walk through a method body: binds, handlers, branches. *)
Ltac cache_only_step :=
  match goal with
  | |- cache_only (bind _ _) => apply cache_only_bind; [| intro]
  | |- cache_only (try_except_ValueError _ _) => apply cache_only_try
  | |- cache_only (match ?x with _ => _ end) => destruct x
  | |- cache_only _ => solve [auto with cache_only]
  | |- cache_only _ => progress cbv zeta
  end.

Ltac cache_only_walk := repeat cache_only_step.

Section CacheOnly.
Context {A : Arithmetic}.
Variable fmt : Formatting.
Variables DEFAULT_RELATIVE DEFAULT_ABSOLUTE : num.

Lemma BaseCheckValueTest_check_cache_only {Self P R}
    (name_of : Self -> string)
    (calculate_value_for_test : Self -> M (Metric P R) (option num))
    (get_description : Self -> num -> M (Metric P R) string)
    (get_condition : Self -> M (Metric P R) TestValueCondition)
    (self : Self) :
  cache_only (calculate_value_for_test self) ->
  (forall value, cache_only (get_description self value)) ->
  cache_only (get_condition self) ->
  cache_only (BaseCheckValueTest.check name_of calculate_value_for_test
                get_description get_condition self).
Proof.
  intros Hvalue Hdescription Hcondition.
  unfold BaseCheckValueTest.check. cache_only_walk; auto.
Qed.

Lemma FeatureTest_get_condition_cache_only (self : FeatureTest.t) :
  cache_only (FeatureTest.get_condition DEFAULT_RELATIVE DEFAULT_ABSOLUTE self).
Proof. unfold FeatureTest.get_condition. cache_only_walk. Qed.

Lemma FeatureTest_check_cache_only (self : FeatureTest.t) :
  cache_only (FeatureTest.check fmt DEFAULT_RELATIVE DEFAULT_ABSOLUTE self).
Proof.
  pose proof (FeatureTest_get_condition_cache_only self) as Hcondition.
  unfold FeatureTest.check, FeatureTest.calculate_value_for_test,
    FeatureTest.get_description.
  cache_only_walk; auto.
Qed.

Lemma TestMeanInNSigmas_check_cache_only (self : TestMeanInNSigmas.t) :
  cache_only (TestMeanInNSigmas.check fmt self).
Proof. unfold TestMeanInNSigmas.check. cache_only_walk. Qed.

Lemma ConflictTest_check_cache_only (self : ConflictTest.t) :
  cache_only (ConflictTest.check fmt self).
Proof. unfold ConflictTest.check. cache_only_walk. Qed.

Lemma CorrelationTest_check_cache_only (self : CorrelationTest.t) :
  cache_only (CorrelationTest.check fmt self).
Proof.
  apply BaseCheckValueTest_check_cache_only; intros;
    unfold CorrelationTest.calculate_value_for_test,
      CorrelationTest.get_description, CorrelationTest.get_condition;
    cache_only_walk.
Qed.

Lemma TestValueRange_check_cache_only (self : TestValueRange.t) :
  cache_only (TestValueRange.check fmt self).
Proof. unfold TestValueRange.check. cache_only_walk. Qed.

Lemma ValueRangeMetricsTest_check_cache_only (self : ValueRangeMetricsTest.t) :
  cache_only (ValueRangeMetricsTest.check fmt DEFAULT_RELATIVE DEFAULT_ABSOLUTE self).
Proof.
  apply BaseCheckValueTest_check_cache_only; intros;
    unfold ValueRangeMetricsTest.calculate_value_for_test,
      ValueRangeMetricsTest.get_description, ValueRangeMetricsTest.get_condition;
    cache_only_walk.
Qed.

Lemma TestValueList_check_cache_only (self : TestValueList.t) :
  cache_only (TestValueList.check fmt self).
Proof. unfold TestValueList.check. cache_only_walk. Qed.

Lemma ValueListMetricsTest_check_cache_only (self : ValueListMetricsTest.t) :
  cache_only (ValueListMetricsTest.check fmt DEFAULT_RELATIVE DEFAULT_ABSOLUTE self).
Proof.
  apply BaseCheckValueTest_check_cache_only; intros;
    unfold ValueListMetricsTest.calculate_value_for_test,
      ValueListMetricsTest.get_description, ValueListMetricsTest.get_condition;
    cache_only_walk.
Qed.

Lemma TestValueQuantile_check_cache_only (self : TestValueQuantile.t) :
  cache_only (TestValueQuantile.check fmt self).
Proof.
  apply BaseCheckValueTest_check_cache_only; intros;
    unfold TestValueQuantile.calculate_value_for_test,
      TestValueQuantile.get_description, TestValueQuantile.get_condition;
    cache_only_walk.
Qed.

End CacheOnly.

(** ** Calling [check] twice *)

Section CallTwice.
Context {Self P R A : Type}.
Variable metric_of : Self -> Metric P R.
Variable set_metric : Self -> Metric P R -> Self.
Variable method : Self -> M (Metric P R) A.
Variable self : Self.
(** [metric_of] and [set_metric] read and write one attribute, and the
    method reads that attribute through its state only. *)
Hypothesis method_set : forall m, method (set_metric self m) = method self.
Hypothesis get_set : forall m, metric_of (set_metric self m) = m.
Hypothesis set_get : set_metric self (metric_of self) = self.
Hypothesis set_set :
  forall m m', set_metric (set_metric self m) m' = set_metric self m'.
Hypothesis method_cache_only : cache_only (method self).

Let called := call_method metric_of set_metric method.

Lemma call_method_state :
  snd (called self) = self
  \/ snd (called self) = set_metric self (accessed (metric_of self)).
Proof.
  unfold called, call_method.
  destruct (method_cache_only (metric_of self)) as [Hstate _].
  destruct (method self (metric_of self)) as [o m]. simpl in *.
  destruct Hstate as [-> | ->]; [left; exact set_get | right; reflexivity].
Qed.

Lemma call_method_twice :
  fst (called (snd (called self))) = fst (called self)
  /\ snd (called (snd (called self))) = snd (called self).
Proof.
  unfold called, call_method.
  destruct (cache_only_twice (method self) (metric_of self) method_cache_only)
    as [Hout Hstate].
  destruct (method self (metric_of self)) as [o m] eqn:E. simpl in *.
  rewrite method_set, get_set.
  destruct (method self m) as [o' m'] eqn:E'. simpl in *.
  subst o' m'. rewrite set_set. split; reflexivity.
Qed.

End CallTwice.

Lemma dispatch_pair {A : Arithmetic} {S X} (inj : S -> Test)
    (called : S -> Outcome X * S) (s : S) :
  dispatch inj called s = (fst (called s), inj (snd (called s))).
Proof. unfold dispatch. destruct (called s); reflexivity. Qed.

Lemma dispatch_twice {A : Arithmetic} {S X} (inj : S -> Test)
    (called : S -> Outcome X * S)
    (check_all : Test -> Outcome X * Test) (s s' : S) :
  (forall x, check_all (inj x) = dispatch inj called x) ->
  snd (called s) = s \/ snd (called s) = s' ->
  fst (called (snd (called s))) = fst (called s)
  /\ snd (called (snd (called s))) = snd (called s) ->
  (snd (check_all (inj s)) = inj s \/ snd (check_all (inj s)) = inj s')
  /\ fst (check_all (snd (check_all (inj s)))) = fst (check_all (inj s))
  /\ snd (check_all (snd (check_all (inj s)))) = snd (check_all (inj s)).
Proof.
  intros Hall Hfirst [Hout Hstate].
  rewrite (Hall s), dispatch_pair. simpl.
  rewrite Hall, dispatch_pair. simpl.
  rewrite Hout, Hstate.
  split; [| split; reflexivity].
  destruct Hfirst as [-> | ->]; [left | right]; reflexivity.
Qed.

(** C6. Two successive calls of [check()] on the same test instance, with
    nothing else touching its metric in between, give the same outcome
    (the same Result: name, status and description, or the same
    exception).  All [check()] does to the instance is fill the cache of
    its metric, so the second call leaves the instance as the first left
    it. *)
Theorem check_twice_same_result {A : Arithmetic} (fmt : Formatting)
    (DEFAULT_RELATIVE DEFAULT_ABSOLUTE : num) (test : Test) :
  let first := check fmt DEFAULT_RELATIVE DEFAULT_ABSOLUTE test in
  let second := check fmt DEFAULT_RELATIVE DEFAULT_ABSOLUTE (snd first) in
  (snd first = test \/ snd first = access_metric test)
  /\ fst second = fst first
  /\ snd second = snd first.
Proof.
  cbv zeta.
  destruct test as [t | t | t | t | t | t | t | t | t]; cbn [access_metric].
  - apply (dispatch_twice Feature
             (FeatureTest.call (FeatureTest.check fmt DEFAULT_RELATIVE DEFAULT_ABSOLUTE))
             _ t _ (fun _ => eq_refl));
      [apply call_method_state | apply call_method_twice];
      try (intros; destruct t; reflexivity);
      apply FeatureTest_check_cache_only.
  - apply (dispatch_twice MeanInNSigmas
             (TestMeanInNSigmas.call (TestMeanInNSigmas.check fmt))
             _ t _ (fun _ => eq_refl));
      [apply call_method_state | apply call_method_twice];
      try (intros; destruct t; reflexivity);
      apply TestMeanInNSigmas_check_cache_only.
  - apply (dispatch_twice Conflict (ConflictTest.call (ConflictTest.check fmt))
             _ t _ (fun _ => eq_refl));
      [apply call_method_state | apply call_method_twice];
      try (intros; destruct t; reflexivity);
      apply ConflictTest_check_cache_only.
  - apply (dispatch_twice Correlation (CorrelationTest.call (CorrelationTest.check fmt))
             _ t _ (fun _ => eq_refl));
      [apply call_method_state | apply call_method_twice];
      try (intros; destruct t; reflexivity);
      apply CorrelationTest_check_cache_only.
  - apply (dispatch_twice ValueRange (TestValueRange.call (TestValueRange.check fmt))
             _ t _ (fun _ => eq_refl));
      [apply call_method_state | apply call_method_twice];
      try (intros; destruct t; reflexivity);
      apply TestValueRange_check_cache_only.
  - apply (dispatch_twice ValueRangeMetrics
             (ValueRangeMetricsTest.call
                (ValueRangeMetricsTest.check fmt DEFAULT_RELATIVE DEFAULT_ABSOLUTE))
             _ t _ (fun _ => eq_refl));
      [apply call_method_state | apply call_method_twice];
      try (intros; destruct t; reflexivity);
      apply ValueRangeMetricsTest_check_cache_only.
  - apply (dispatch_twice ValueList (TestValueList.call (TestValueList.check fmt))
             _ t _ (fun _ => eq_refl));
      [apply call_method_state | apply call_method_twice];
      try (intros; destruct t; reflexivity);
      apply TestValueList_check_cache_only.
  - apply (dispatch_twice ValueListMetrics
             (ValueListMetricsTest.call
                (ValueListMetricsTest.check fmt DEFAULT_RELATIVE DEFAULT_ABSOLUTE))
             _ t _ (fun _ => eq_refl));
      [apply call_method_state | apply call_method_twice];
      try (intros; destruct t; reflexivity);
      apply ValueListMetricsTest_check_cache_only.
  - apply (dispatch_twice ValueQuantile
             (TestValueQuantile.call (TestValueQuantile.check fmt))
             _ t _ (fun _ => eq_refl));
      [apply call_method_state | apply call_method_twice];
      try (intros; destruct t; reflexivity);
      apply TestValueQuantile_check_cache_only.
Qed.

(** ** What a completed call returns *)

Lemma returns_only_ret {S A} (Q : A -> Prop) (a : A) :
  Q a -> returns_only Q (@ret S A a).
Proof. intros H s a' s' E. inversion E; subst. exact H. Qed.

Lemma returns_only_raise {S A} (Q : A -> Prop) (e : Exception) :
  returns_only Q (@raise S A e).
Proof. intros s a s' E. discriminate E. Qed.

Lemma returns_only_bind {S A B} (Q : B -> Prop) (c : M S A) (k : A -> M S B) :
  (forall a, returns_only Q (k a)) -> returns_only Q (bind c k).
Proof.
  intros Hk s b s' E. unfold bind in E.
  destruct (c s) as [[a | e] s1]; [exact (Hk a s1 b s' E) | discriminate E].
Qed.

Lemma returns_only_try {S A} (Q : A -> Prop) (body handler : M S A) :
  returns_only Q body -> returns_only Q handler ->
  returns_only Q (try_except_ValueError body handler).
Proof.
  intros Hb Hh s a s' E. unfold try_except_ValueError in E.
  destruct (body s) as [[a' | [msg | | key |]] s1] eqn:Eb; try discriminate E.
  - inversion E; subst. exact (Hb s a s' Eb).
  - exact (Hh s1 a s' E).
Qed.

Ltac returns_only_step :=
  match goal with
  | |- returns_only _ (bind _ _) => apply returns_only_bind; intro
  | |- returns_only _ (try_except_ValueError _ _) => apply returns_only_try
  | |- returns_only _ (raise _) => apply returns_only_raise
  | |- returns_only _ (ret _) => apply returns_only_ret
  | |- returns_only _ (match ?x with _ => _ end) => destruct x
  | |- returns_only _ _ => progress cbv zeta
  end.

Ltac returns_only_walk := repeat returns_only_step.

Section Terminal.
Context {A : Arithmetic}.
Variable fmt : Formatting.
Variables DEFAULT_RELATIVE DEFAULT_ABSOLUTE : num.

Ltac terminal_case := unfold is_terminal; simpl; auto.

Lemma BaseCheckValueTest_check_terminal {Self P R}
    (name_of : Self -> string)
    (calculate_value_for_test : Self -> M (Metric P R) (option num))
    (get_description : Self -> num -> M (Metric P R) string)
    (get_condition : Self -> M (Metric P R) TestValueCondition)
    (self : Self) :
  returns_only is_terminal
    (BaseCheckValueTest.check name_of calculate_value_for_test
       get_description get_condition self).
Proof. unfold BaseCheckValueTest.check. returns_only_walk; terminal_case. Qed.

Lemma FeatureTest_check_terminal (self : FeatureTest.t) :
  returns_only is_terminal
    (FeatureTest.check fmt DEFAULT_RELATIVE DEFAULT_ABSOLUTE self).
Proof. unfold FeatureTest.check. returns_only_walk; terminal_case. Qed.

Lemma TestMeanInNSigmas_check_terminal (self : TestMeanInNSigmas.t) :
  returns_only is_terminal (TestMeanInNSigmas.check fmt self).
Proof. unfold TestMeanInNSigmas.check. returns_only_walk; terminal_case. Qed.

Lemma ConflictTest_check_terminal (self : ConflictTest.t) :
  returns_only is_terminal (ConflictTest.check fmt self).
Proof. unfold ConflictTest.check. returns_only_walk; terminal_case. Qed.

Lemma TestValueRange_check_terminal (self : TestValueRange.t) :
  returns_only is_terminal (TestValueRange.check fmt self).
Proof. unfold TestValueRange.check. returns_only_walk; terminal_case. Qed.

Lemma TestValueList_check_terminal (self : TestValueList.t) :
  returns_only is_terminal (TestValueList.check fmt self).
Proof. unfold TestValueList.check. returns_only_walk; terminal_case. Qed.

Lemma call_method_returns {Self P R X} (Q : X -> Prop)
    (metric_of : Self -> Metric P R) (set_metric : Self -> Metric P R -> Self)
    (method : Self -> M (Metric P R) X) (self self' : Self) (a : X) :
  returns_only Q (method self) ->
  call_method metric_of set_metric method self = (Returned a, self') -> Q a.
Proof.
  intros H E. unfold call_method in E.
  destruct (method self (metric_of self)) as [o m] eqn:Em.
  inversion E; subst. exact (H _ _ _ Em).
Qed.

End Terminal.

(** C7. A Result returned by a completed [check()] call carries a
    terminal status, SUCCESS, FAIL or ERROR: the SKIPPED ("not launched")
    status the Result is seeded with is overwritten on every return
    path. *)
Theorem check_returns_terminal_status {A : Arithmetic} (fmt : Formatting)
    (DEFAULT_RELATIVE DEFAULT_ABSOLUTE : num) (test test' : Test) (r : TestResult) :
  check fmt DEFAULT_RELATIVE DEFAULT_ABSOLUTE test = (Returned r, test') ->
  (status r = SUCCESS \/ status r = FAIL \/ status r = ERROR)
  /\ status r <> SKIPPED.
Proof.
  intros E.
  assert (H : is_terminal r).
  { destruct test as [t | t | t | t | t | t | t | t | t];
      simpl in E; rewrite dispatch_pair in E; inversion E as [[Hout Hstate]];
      clear E Hstate;
      match type of Hout with
      | fst (?call ?method t) = _ =>
          destruct (call method t) as [o t1] eqn:Ecall; simpl in Hout; subst o;
          refine (call_method_returns is_terminal _ _ _ t t1 r _ Ecall)
      end.
    - apply FeatureTest_check_terminal.
    - apply TestMeanInNSigmas_check_terminal.
    - apply ConflictTest_check_terminal.
    - apply BaseCheckValueTest_check_terminal.
    - apply TestValueRange_check_terminal.
    - apply BaseCheckValueTest_check_terminal.
    - apply TestValueList_check_terminal.
    - apply BaseCheckValueTest_check_terminal.
    - apply BaseCheckValueTest_check_terminal. }
  split; [exact H |].
  destruct H as [H | [H | H]]; rewrite H; discriminate.
Qed.

(** ** Stepping through a method body *)

Lemma bind_get_result {P R B} (k : R -> M (Metric P R) B) (m : Metric P R) :
  bind get_result k m = k (result_of m) (accessed m).
Proof. unfold bind. rewrite get_result_accessed. reflexivity. Qed.

Lemma bind_bind {S A B C} (c : M S A) (k : A -> M S B) (k' : B -> M S C) (s : S) :
  bind (bind c k) k' s = bind c (fun a => bind (k a) k') s.
Proof. unfold bind. destruct (c s) as [[a | e] s']; reflexivity. Qed.

Lemma bind_ret {S A B} (a : A) (k : A -> M S B) (s : S) :
  bind (ret a) k s = k a s.
Proof. reflexivity. Qed.

Lemma bind_raise {S A B} (e : Exception) (k : A -> M S B) (s : S) :
  bind (raise e) k s = (Raised e, s).
Proof. reflexivity. Qed.

Lemma bind_lift {S A B} (o : Outcome A) (k : A -> M S B) (s : S) :
  bind (lift o) k s
    = match o with
      | Returned a => k a s
      | Raised e => (Raised e, s)
      end.
Proof. destruct o; reflexivity. Qed.

Lemma bind_known {S A B} (c : M S A) (k : A -> M S B) (s s' : S) (a : A) :
  c s = (Returned a, s') -> bind c k s = k a s'.
Proof. intros H. unfold bind. rewrite H. reflexivity. Qed.

Lemma bind_int_operand {A : Arithmetic} {S B} (n : Z) (x : num)
    (k : num -> M S B) (s : S) :
  of_int n = Some x -> bind (int_operand n) k s = k x s.
Proof. intros H. unfold bind, int_operand. rewrite H. reflexivity. Qed.

Lemma call_method_fst {Self P R A}
    (metric_of : Self -> Metric P R) (set_metric : Self -> Metric P R -> Self)
    (method : Self -> M (Metric P R) A) (self : Self) :
  fst (call_method metric_of set_metric method self)
    = fst (method self (metric_of self)).
Proof. unfold call_method. destruct (method self (metric_of self)); reflexivity. Qed.

Lemma contains_lookup {A} (d : gmap string A) (key : string) (a : A) :
  d !! key = Some a -> contains d key = true.
Proof. unfold contains. intros ->. reflexivity. Qed.

Lemma contains_lookup_None {A} (d : gmap string A) (key : string) :
  d !! key = None -> contains d key = false.
Proof. unfold contains. intros ->. reflexivity. Qed.

Lemma getitem_lookup {A} (d : gmap string A) (key : string) (a : A) :
  d !! key = Some a -> getitem d key = Returned a.
Proof. unfold getitem. intros ->. reflexivity. Qed.

Ltac step :=
  repeat first
    [ rewrite bind_bind
    | rewrite bind_get_result
    | rewrite bind_ret
    | rewrite bind_raise
    | rewrite bind_lift
    | rewrite result_of_accessed
    | rewrite accessed_idempotent ].

Section Behaviour.
Context {A : Arithmetic}.
Variable fmt : Formatting.
Variables DEFAULT_RELATIVE DEFAULT_ABSOLUTE : num.

(** A feature-level test whose column is missing from the feature
    statistics: the Result names the column and nothing else is
    evaluated, whatever the subclass and its condition; its status is
    FAIL. *)
Lemma FeatureTest_check_missing_feature (self : FeatureTest.t)
    (m : Metric unit DataQualityMetricsResults) :
  features_stats (result_of m) !! FeatureTest.column_name self = None ->
  FeatureTest.check fmt DEFAULT_RELATIVE DEFAULT_ABSOLUTE self m
    = (Returned
         {| name := FeatureTest.name_of self;
            description :=
              "Feature '" +:+ FeatureTest.column_name self +:+ "' was not found";
            status := FAIL |},
       accessed m).
Proof.
  intros Hmissing. unfold FeatureTest.check. step.
  unfold get_all_features. rewrite (contains_lookup_None _ _ Hmissing).
  reflexivity.
Qed.

(** [TestMeanInNSigmas.check] with the column in both datasets, numeric
    statistics and an [n_sigmas] that is an operand. *)
Lemma TestMeanInNSigmas_check_present (self : TestMeanInNSigmas.t)
    (m : Metric unit DataQualityMetricsResults)
    (reference : DataQualityStats)
    (current_stats reference_stats : FeatureQualityStats.t)
    (current_mean reference_mean reference_std n : num) :
  reference_features_stats (result_of m) = Some reference ->
  features_stats (result_of m) !! TestMeanInNSigmas.column_name self
    = Some current_stats ->
  reference !! TestMeanInNSigmas.column_name self = Some reference_stats ->
  FeatureQualityStats.mean current_stats = Some current_mean ->
  FeatureQualityStats.mean reference_stats = Some reference_mean ->
  FeatureQualityStats.std reference_stats = Some reference_std ->
  of_int (TestMeanInNSigmas.n_sigmas self) = Some n ->
  let sigmas_value := (reference_std * n)%num in
  let inside :=
    (reference_mean - sigmas_value <? current_mean)%num
    && (current_mean <? reference_mean + sigmas_value)%num in
  exists d,
    TestMeanInNSigmas.check fmt self m
      = (Returned
           {| name := TestMeanInNSigmas.name;
              description := d;
              status := if inside then SUCCESS else FAIL |},
         accessed m).
Proof.
  intros Href Hcur Hrefcol Hcm Hrm Hrs Hn. cbv zeta.
  unfold TestMeanInNSigmas.check. step. rewrite Href.
  unfold get_all_features.
  rewrite (contains_lookup _ _ _ Hcur), (contains_lookup _ _ _ Hrefcol).
  cbn [negb].
  rewrite (getitem_lookup _ _ _ Hcur), (getitem_lookup _ _ _ Hrefcol).
  step. rewrite Hrs. unfold number at 1. step.
  rewrite (bind_int_operand _ _ _ _ Hn).
  rewrite Hrm. unfold number at 1. step.
  rewrite Hcm. unfold number at 1. step.
  destruct (num_lt _ _ && num_lt _ _); eexists; reflexivity.
Qed.

Lemma check_value_eq_approx (a : ApproxValue) (v : num) :
  check_value (TestValueCondition_eq (BApprox a)) (SNum v) = Returned (approx_eq a v).
Proof.
  unfold check_value, TestValueCondition_eq. simpl.
  rewrite !andb_true_r. reflexivity.
Qed.

(** The default condition of [TestMostCommonValueShare] with reference
    statistics. *)
Lemma most_common_get_condition_reference (self : FeatureTest.t)
    (m : Metric unit DataQualityMetricsResults)
    (reference : DataQualityStats) (reference_stats : FeatureQualityStats.t)
    (p : num) :
  FeatureTest.cls self = FeatureTest.TestMostCommonValueShare ->
  is_set (FeatureTest.condition self) = false ->
  reference_features_stats (result_of m) = Some reference ->
  reference !! FeatureTest.column_name self = Some reference_stats ->
  FeatureQualityStats.most_common_value_percentage reference_stats = Some p ->
  FeatureTest.get_condition DEFAULT_RELATIVE DEFAULT_ABSOLUTE self m
    = (Returned
         (TestValueCondition_eq
            (BApprox (approx DEFAULT_RELATIVE DEFAULT_ABSOLUTE
                        (p / literal 100)%num (Some (literal (1 # 10))) None))),
       accessed m).
Proof.
  intros Hcls Hunset Href Hcol Hp.
  unfold FeatureTest.get_condition. rewrite Hcls, Hunset. step.
  rewrite Href. cbn [is_not_None]. step. rewrite Href.
  rewrite (getitem_lookup _ _ _ Hcol). step.
  rewrite Hp. reflexivity.
Qed.

(** The default condition of [TestMostCommonValueShare] without reference
    statistics. *)
Lemma most_common_get_condition_no_reference (self : FeatureTest.t)
    (m : Metric unit DataQualityMetricsResults) :
  FeatureTest.cls self = FeatureTest.TestMostCommonValueShare ->
  is_set (FeatureTest.condition self) = false ->
  reference_features_stats (result_of m) = None ->
  FeatureTest.get_condition DEFAULT_RELATIVE DEFAULT_ABSOLUTE self m
    = (Returned (TestValueCondition_lt (literal (8 # 10))), accessed m).
Proof.
  intros Hcls Hunset Href.
  unfold FeatureTest.get_condition. rewrite Hcls, Hunset. step.
  rewrite Href. reflexivity.
Qed.

(** With reference statistics that lack the column, deriving the default
    fails: indexing the reference raises [KeyError]. *)
Lemma most_common_get_condition_reference_without_column (self : FeatureTest.t)
    (m : Metric unit DataQualityMetricsResults) (reference : DataQualityStats) :
  FeatureTest.cls self = FeatureTest.TestMostCommonValueShare ->
  is_set (FeatureTest.condition self) = false ->
  reference_features_stats (result_of m) = Some reference ->
  reference !! FeatureTest.column_name self = None ->
  FeatureTest.get_condition DEFAULT_RELATIVE DEFAULT_ABSOLUTE self m
    = (Raised (KeyError (FeatureTest.column_name self)), accessed m).
Proof.
  intros Hcls Hunset Href Hcol.
  unfold FeatureTest.get_condition. rewrite Hcls, Hunset. step.
  rewrite Href. cbn [is_not_None]. step. rewrite Href.
  unfold getitem. rewrite Hcol. reflexivity.
Qed.

(** [check()] of [TestMostCommonValueShare] under its reference-relative
    default. *)
Lemma most_common_check_reference (self : FeatureTest.t)
    (m : Metric unit DataQualityMetricsResults)
    (reference : DataQualityStats)
    (current_stats reference_stats : FeatureQualityStats.t) (p_cur p_ref : num) :
  FeatureTest.cls self = FeatureTest.TestMostCommonValueShare ->
  is_set (FeatureTest.condition self) = false ->
  reference_features_stats (result_of m) = Some reference ->
  reference !! FeatureTest.column_name self = Some reference_stats ->
  FeatureQualityStats.most_common_value_percentage reference_stats = Some p_ref ->
  features_stats (result_of m) !! FeatureTest.column_name self = Some current_stats ->
  FeatureQualityStats.most_common_value_percentage current_stats = Some p_cur ->
  exists d,
    FeatureTest.check fmt DEFAULT_RELATIVE DEFAULT_ABSOLUTE self m
      = (Returned
           {| name := FeatureTest.name_of self;
              description := d;
              status :=
                if approx_eq
                     (approx DEFAULT_RELATIVE DEFAULT_ABSOLUTE
                        (p_ref / literal 100)%num (Some (literal (1 # 10))) None)
                     (p_cur / literal 100)%num
                then SUCCESS else FAIL |},
         accessed m).
Proof.
  intros Hcls Hunset Href Hcol Hpref Hcur Hpcur.
  pose proof (most_common_get_condition_reference self (accessed m) reference
                reference_stats p_ref Hcls Hunset Href Hcol Hpref) as Hcond.
  rewrite accessed_idempotent in Hcond.
  unfold FeatureTest.check. step.
  unfold get_all_features. rewrite (contains_lookup _ _ _ Hcur). cbn [negb].
  unfold FeatureTest.calculate_value_for_test. step.
  unfold get_all_features. rewrite (getitem_lookup _ _ _ Hcur). step.
  rewrite Hcls, Hpcur. unfold number. step.
  unfold FeatureTest.get_description. rewrite Hcls. step.
  rewrite (bind_known _ _ _ _ _ Hcond). step.
  unfold try_except_ValueError. rewrite (bind_known _ _ _ _ _ Hcond). step.
  rewrite check_value_eq_approx.
  destruct (approx_eq _ _); eexists; reflexivity.
Qed.

(** [check()] of the two share tests under their default condition. *)
Lemma share_out_of_range_check_default (self : ValueRangeMetricsTest.t)
    (m : Metric ValueRangeParams DataQualityValueRangeMetricsResults) :
  ValueRangeMetricsTest.cls self = ValueRangeMetricsTest.TestShareOfOutRangeValues ->
  is_set (ValueRangeMetricsTest.condition self) = false ->
  exists d,
    ValueRangeMetricsTest.check fmt DEFAULT_RELATIVE DEFAULT_ABSOLUTE self m
      = (Returned
           {| name := ValueRangeMetricsTest.name_of self;
              description := d;
              status :=
                if approx_eq
                     (approx DEFAULT_RELATIVE DEFAULT_ABSOLUTE (literal 0) None None)
                     (share_not_in_range (result_of m))
                then SUCCESS else FAIL |},
         accessed m).
Proof.
  intros Hcls Hunset.
  unfold ValueRangeMetricsTest.check, BaseCheckValueTest.check.
  unfold ValueRangeMetricsTest.calculate_value_for_test,
    ValueRangeMetricsTest.get_description, ValueRangeMetricsTest.get_condition.
  rewrite Hcls, Hunset. step.
  unfold try_except_ValueError. step.
  rewrite check_value_eq_approx.
  destruct (approx_eq _ _); eexists; reflexivity.
Qed.

Lemma share_out_of_list_check_default (self : ValueListMetricsTest.t)
    (m : Metric ValueListParams DataQualityValueListMetricsResults) :
  ValueListMetricsTest.cls self = ValueListMetricsTest.TestShareOfOutListValues ->
  is_set (ValueListMetricsTest.condition self) = false ->
  exists d,
    ValueListMetricsTest.check fmt DEFAULT_RELATIVE DEFAULT_ABSOLUTE self m
      = (Returned
           {| name := ValueListMetricsTest.name_of self;
              description := d;
              status :=
                if approx_eq
                     (approx DEFAULT_RELATIVE DEFAULT_ABSOLUTE (literal 0) None None)
                     (share_not_in_list (result_of m))
                then SUCCESS else FAIL |},
         accessed m).
Proof.
  intros Hcls Hunset.
  unfold ValueListMetricsTest.check, BaseCheckValueTest.check.
  unfold ValueListMetricsTest.calculate_value_for_test,
    ValueListMetricsTest.get_description, ValueListMetricsTest.get_condition.
  rewrite Hcls, Hunset. step.
  unfold try_except_ValueError. step.
  rewrite check_value_eq_approx.
  destruct (approx_eq _ _); eexists; reflexivity.
Qed.

End Behaviour.

(** The examples of the claims, in exact arithmetic. *)
Section Bands.
Variables DEFAULT_RELATIVE DEFAULT_ABSOLUTE : Q.

(** The bands of the examples. *)
Lemma approx_eq_042_046 :
  approx_eq (approx DEFAULT_RELATIVE DEFAULT_ABSOLUTE (42 / 100)%Q (Some (1 # 10)%Q) None)
    (46 / 100)%Q = true.
Proof.
  unfold approx_eq, approx. cbn [approx_value approx_relative approx_absolute default].
  apply orb_true_iff. left. vm_compute. reflexivity.
Qed.

Lemma Qle_bool_above (x bound y : Q) :
  (y < bound)%Q -> (bound <= x)%Q -> Qle_bool x y = false.
Proof.
  intros Hy Hx. destruct (Qle_bool x y) eqn:E; [| reflexivity].
  apply Qle_bool_iff in E. exfalso.
  apply (Qlt_irrefl y). apply Qlt_le_trans with bound; [exact Hy |].
  apply Qle_trans with x; assumption.
Qed.

Lemma approx_eq_042_050 :
  (DEFAULT_ABSOLUTE < 8 # 100)%Q ->
  approx_eq (approx DEFAULT_RELATIVE DEFAULT_ABSOLUTE (42 / 100)%Q (Some (1 # 10)%Q) None)
    (50 / 100)%Q = false.
Proof.
  intros Hsmall.
  unfold approx_eq, approx. cbn [approx_value approx_relative approx_absolute default].
  apply orb_false_iff. split.
  - vm_compute. reflexivity.
  - apply (Qle_bool_above _ (8 # 100)%Q); [exact Hsmall |].
    vm_compute. discriminate.
Qed.

Lemma approx_eq_0_003 :
  (DEFAULT_ABSOLUTE < 3 # 100)%Q ->
  approx_eq (approx DEFAULT_RELATIVE DEFAULT_ABSOLUTE 0%Q None None) (3 # 100)%Q = false.
Proof.
  intros Hsmall.
  unfold approx_eq, approx. cbn [approx_value approx_relative approx_absolute default].
  apply orb_false_iff. split.
  - destruct DEFAULT_RELATIVE as [n d]. reflexivity.
  - apply (Qle_bool_above _ (3 # 100)%Q); [exact Hsmall |].
    vm_compute. discriminate.
Qed.

End Bands.

Lemma TestValueQuantile_init_conflict {A : Arithmetic}
    (pipeline : ValueQuantileParams -> DataQualityValueQuantileMetricsResults)
    (column_name : option string) (quantile : option num)
    (eq : option Bound) (gt gte : option num) (is_in : option (list Scalar))
    (lt lte : option num) (not_eq : option Bound) (not_in : option (list Scalar))
    (metric : Metric ValueQuantileParams DataQualityValueQuantileMetricsResults) :
  column_name <> None \/ quantile <> None ->
  TestValueQuantile.init pipeline column_name quantile
    eq gt gte is_in lt lte not_eq not_in (Some metric)
  = Raised (ValueError "Test parameters and given  metric conflict").
Proof.
  intros Hgiven. unfold TestValueQuantile.init.
  destruct column_name as [c |], quantile as [q |]; try reflexivity.
  destruct Hgiven as [H | H]; congruence.
Qed.

(** The claims whose examples are numbers: they are stated for
    [rational]. *)
Section Claims.
Variable fmt : Formatting.
Variables DEFAULT_RELATIVE DEFAULT_ABSOLUTE : Q.

(** C1. The failing input: [TestFeatureValueMin("age")] against a metric
    whose feature statistics have no ["age"].  [check()] returns at once
    with a description that names the column, but the status it sets is
    FAIL, not ERROR. *)
Theorem missing_feature_status_is_FAIL :
  fst (FeatureTest.call (FeatureTest.check fmt DEFAULT_RELATIVE DEFAULT_ABSOLUTE)
         (FeatureTest.mk FeatureTest.TestFeatureValueMin "age"
            TestValueCondition_unset sample_metric_no_features))
  = Returned
      {| name := "Test a feature min value";
         description := "Feature 'age' was not found";
         status := FAIL |}.
Proof.
  unfold FeatureTest.call. rewrite call_method_fst.
  rewrite FeatureTest_check_missing_feature; [reflexivity |].
  apply lookup_empty.
Qed.

(** C2. [TestMostCommonValueShare] with no explicit condition.  With
    reference statistics the derived condition is
    [eq=approx(reference share, relative=0.1)], the share being the
    reference's most-common-value percentage over 100; without them it is
    [lt=0.8].  With reference share 0.42, [check()] on the current share
    0.46 gives SUCCESS, and on 0.50 it gives FAIL (as long as the default
    absolute tolerance of [approx] is below 0.08). *)
Theorem most_common_value_share_default (self : FeatureTest.t) :
  FeatureTest.cls self = FeatureTest.TestMostCommonValueShare ->
  is_set (FeatureTest.condition self) = false ->
  let r := result_of (FeatureTest.metric self) in
  let column := FeatureTest.column_name self in
  let get_condition :=
    fst (FeatureTest.call
           (FeatureTest.get_condition DEFAULT_RELATIVE DEFAULT_ABSOLUTE) self) in
  let check :=
    fst (FeatureTest.call
           (FeatureTest.check fmt DEFAULT_RELATIVE DEFAULT_ABSOLUTE) self) in
  let percentage := FeatureQualityStats.most_common_value_percentage in
  (forall reference reference_stats p,
      reference_features_stats r = Some reference ->
      reference !! column = Some reference_stats ->
      percentage reference_stats = Some p ->
      get_condition
        = Returned
            (TestValueCondition_eq
               (BApprox (approx DEFAULT_RELATIVE DEFAULT_ABSOLUTE (p / 100)%Q
                           (Some (1 # 10)%Q) None))))
  /\ (reference_features_stats r = None ->
      get_condition = Returned (TestValueCondition_lt (8 # 10)%Q))
  /\ (forall reference reference_stats current_stats,
      reference_features_stats r = Some reference ->
      reference !! column = Some reference_stats ->
      percentage reference_stats = Some 42%Q ->
      features_stats r !! column = Some current_stats ->
      (percentage current_stats = Some 46%Q ->
       exists result, check = Returned result /\ status result = SUCCESS)
      /\ ((DEFAULT_ABSOLUTE < 8 # 100)%Q ->
          percentage current_stats = Some 50%Q ->
          exists result, check = Returned result /\ status result = FAIL)).
Proof.
  intros Hcls Hunset. cbv zeta. unfold FeatureTest.call. rewrite !call_method_fst.
  split; [| split].
  - intros reference reference_stats p Href Hcol Hp.
    rewrite (most_common_get_condition_reference _ _ self _ reference
               reference_stats p Hcls Hunset Href Hcol Hp).
    reflexivity.
  - intros Href.
    rewrite (most_common_get_condition_no_reference _ _ self _ Hcls Hunset Href).
    reflexivity.
  - intros reference reference_stats current_stats Href Hcol Hp Hcur. split.
    + intros Hpcur.
      destruct (most_common_check_reference fmt DEFAULT_RELATIVE DEFAULT_ABSOLUTE
                  self _ reference current_stats reference_stats 46%Q 42%Q
                  Hcls Hunset Href Hcol Hp Hcur Hpcur) as [d Hcheck].
      rewrite Hcheck. eexists. split; [reflexivity |]. cbn [status].
      rewrite approx_eq_042_046. reflexivity.
    + intros Hsmall Hpcur.
      destruct (most_common_check_reference fmt DEFAULT_RELATIVE DEFAULT_ABSOLUTE
                  self _ reference current_stats reference_stats 50%Q 42%Q
                  Hcls Hunset Href Hcol Hp Hcur Hpcur) as [d Hcheck].
      rewrite Hcheck. eexists. split; [reflexivity |]. cbn [status].
      rewrite (approx_eq_042_050 _ _ Hsmall). reflexivity.
Qed.

(** C3. [TestShareOfOutRangeValues] and [TestShareOfOutListValues] with
    no explicit condition derive [eq=approx(0)].  A share of 0.03 then
    gives FAIL (as long as the default absolute tolerance of [approx] is
    below 0.03). *)
Theorem share_tests_default_zero :
  (forall self : ValueRangeMetricsTest.t,
      ValueRangeMetricsTest.cls self = ValueRangeMetricsTest.TestShareOfOutRangeValues ->
      is_set (ValueRangeMetricsTest.condition self) = false ->
      fst (ValueRangeMetricsTest.call
             (ValueRangeMetricsTest.get_condition DEFAULT_RELATIVE DEFAULT_ABSOLUTE)
             self)
        = Returned
            (TestValueCondition_eq
               (BApprox (approx DEFAULT_RELATIVE DEFAULT_ABSOLUTE 0%Q None None)))
      /\ ((DEFAULT_ABSOLUTE < 3 # 100)%Q ->
          share_not_in_range (result_of (ValueRangeMetricsTest.metric self))
            = (3 # 100)%Q ->
          exists result,
            fst (ValueRangeMetricsTest.call
                   (ValueRangeMetricsTest.check fmt DEFAULT_RELATIVE DEFAULT_ABSOLUTE)
                   self)
              = Returned result
            /\ status result = FAIL))
  /\ (forall self : ValueListMetricsTest.t,
      ValueListMetricsTest.cls self = ValueListMetricsTest.TestShareOfOutListValues ->
      is_set (ValueListMetricsTest.condition self) = false ->
      fst (ValueListMetricsTest.call
             (ValueListMetricsTest.get_condition DEFAULT_RELATIVE DEFAULT_ABSOLUTE)
             self)
        = Returned
            (TestValueCondition_eq
               (BApprox (approx DEFAULT_RELATIVE DEFAULT_ABSOLUTE 0%Q None None)))
      /\ ((DEFAULT_ABSOLUTE < 3 # 100)%Q ->
          share_not_in_list (result_of (ValueListMetricsTest.metric self))
            = (3 # 100)%Q ->
          exists result,
            fst (ValueListMetricsTest.call
                   (ValueListMetricsTest.check fmt DEFAULT_RELATIVE DEFAULT_ABSOLUTE)
                   self)
              = Returned result
            /\ status result = FAIL)).
Proof.
  split; intros self Hcls Hunset.
  - unfold ValueRangeMetricsTest.call. rewrite !call_method_fst. split.
    + unfold ValueRangeMetricsTest.get_condition. rewrite Hcls, Hunset. reflexivity.
    + intros Hsmall Hshare.
      destruct (share_out_of_range_check_default fmt DEFAULT_RELATIVE
                  DEFAULT_ABSOLUTE self (ValueRangeMetricsTest.metric self)
                  Hcls Hunset) as [d Hcheck].
      rewrite Hcheck. eexists. split; [reflexivity |]. cbn [status].
      rewrite Hshare, (approx_eq_0_003 _ _ Hsmall). reflexivity.
  - unfold ValueListMetricsTest.call. rewrite !call_method_fst. split.
    + unfold ValueListMetricsTest.get_condition. rewrite Hcls, Hunset. reflexivity.
    + intros Hsmall Hshare.
      destruct (share_out_of_list_check_default fmt DEFAULT_RELATIVE
                  DEFAULT_ABSOLUTE self (ValueListMetricsTest.metric self)
                  Hcls Hunset) as [d Hcheck].
      rewrite Hcheck. eexists. split; [reflexivity |]. cbn [status].
      rewrite Hshare, (approx_eq_0_003 _ _ Hsmall). reflexivity.
Qed.

End Claims.

(** The claims that hold whatever the arithmetic. *)
Section ClaimsOfEveryArithmetic.
Context {A : Arithmetic}.
Variable fmt : Formatting.
Variables DEFAULT_RELATIVE DEFAULT_ABSOLUTE : num.

(** C4. [TestMeanInNSigmas.check()] with the column in the current and in
    the reference statistics, numeric mean and standard deviation, and
    [n] the operand that [n_sigmas] is: the Result is SUCCESS exactly
    when
    reference_mean - reference_std * n < current_mean
      < reference_mean + reference_std * n,
    both strict, and FAIL otherwise.  The product, the difference and the
    sum are those of the arithmetic, computed as the source computes
    them: in [binary64] each is rounded, in [rational] none is.  The
    constructor's [n_sigmas] defaults to 2. *)
Theorem mean_in_n_sigmas_window (self : TestMeanInNSigmas.t)
    (reference : DataQualityStats)
    (current_stats reference_stats : FeatureQualityStats.t)
    (current_mean reference_mean reference_std n : num) :
  let r := result_of (TestMeanInNSigmas.metric self) in
  reference_features_stats r = Some reference ->
  features_stats r !! TestMeanInNSigmas.column_name self = Some current_stats ->
  reference !! TestMeanInNSigmas.column_name self = Some reference_stats ->
  FeatureQualityStats.mean current_stats = Some current_mean ->
  FeatureQualityStats.mean reference_stats = Some reference_mean ->
  FeatureQualityStats.std reference_stats = Some reference_std ->
  of_int (TestMeanInNSigmas.n_sigmas self) = Some n ->
  let sigmas_value := (reference_std * n)%num in
  let in_window :=
    (reference_mean - sigmas_value <? current_mean)%num = true
    /\ (current_mean <? reference_mean + sigmas_value)%num = true in
  (forall pipeline column metric,
      TestMeanInNSigmas.n_sigmas (TestMeanInNSigmas.init pipeline column None metric)
        = 2%Z)
  /\ exists result,
      fst (TestMeanInNSigmas.call (TestMeanInNSigmas.check fmt) self) = Returned result
      /\ (status result = SUCCESS <-> in_window)
      /\ (status result = FAIL <-> ~ in_window).
Proof.
  intros r Href Hcur Hrefcol Hcm Hrm Hrs Hn sigmas_value in_window.
  split; [reflexivity |].
  unfold TestMeanInNSigmas.call. rewrite call_method_fst.
  destruct (TestMeanInNSigmas_check_present fmt self _ reference current_stats
              reference_stats current_mean reference_mean reference_std n
              Href Hcur Hrefcol Hcm Hrm Hrs Hn) as [d Hcheck].
  rewrite Hcheck. eexists. split; [reflexivity |]. cbn [status].
  fold sigmas_value. unfold in_window. rewrite <- andb_true_iff.
  destruct (num_lt _ _ && num_lt _ _); split; split; intros H;
    try reflexivity; try discriminate; try congruence.
Qed.

(** C5. [TestMeanInNSigmas.check()] against a metric result without
    reference statistics raises [ValueError]: the caller gets the
    exception, not a Result with status ERROR. *)
Theorem mean_in_n_sigmas_no_reference_raises (self : TestMeanInNSigmas.t) :
  reference_features_stats (result_of (TestMeanInNSigmas.metric self)) = None ->
  fst (check fmt DEFAULT_RELATIVE DEFAULT_ABSOLUTE (MeanInNSigmas self))
    = Raised (ValueError "Reference should be present").
Proof.
  intros Hnone. simpl. rewrite dispatch_pair. simpl.
  unfold TestMeanInNSigmas.call. rewrite call_method_fst.
  unfold TestMeanInNSigmas.check. step. rewrite Hnone. reflexivity.
Qed.

(** C8, as amended. [TestValueQuantile] refuses, at construction, an
    explicit metric given together with a column name or a quantile: it
    raises [ValueError].  No other constructor of the module compares
    anything: given an explicit metric, each binds that metric as it is
    and keeps the arguments it was given, whatever the metric was made
    for. *)
Theorem explicit_metric_at_construction :
  (forall pipeline column_name quantile eq gt gte is_in lt lte not_eq not_in metric,
      column_name <> None \/ quantile <> None ->
      TestValueQuantile.init pipeline column_name quantile
        eq gt gte is_in lt lte not_eq not_in (Some metric)
      = Raised (ValueError "Test parameters and given  metric conflict"))
  /\ (forall cls pipeline column_name eq gt gte is_in lt lte not_eq not_in metric,
      FeatureTest.init cls pipeline column_name
        eq gt gte is_in lt lte not_eq not_in (Some metric)
      = Returned
          (FeatureTest.mk cls column_name
             (mkTestValueCondition eq gt gte is_in lt lte not_eq not_in) metric))
  /\ (forall cls pipeline metric,
      ConflictTest.init cls pipeline (Some metric)
      = Returned (ConflictTest.mk cls metric))
  /\ (forall cls pipeline method eq gt gte is_in lt lte not_eq not_in metric,
      CorrelationTest.init cls pipeline method
        eq gt gte is_in lt lte not_eq not_in (Some metric)
      = Returned
          (CorrelationTest.mk cls (default "pearson" method)
             (mkTestValueCondition eq gt gte is_in lt lte not_eq not_in) metric))
  /\ (forall pipeline column_name n_sigmas metric,
      TestMeanInNSigmas.init pipeline column_name n_sigmas (Some metric)
      = TestMeanInNSigmas.mk column_name (default 2%Z n_sigmas) metric)
  /\ (forall pipeline column_name left right metric,
      TestValueRange.init pipeline column_name left right (Some metric)
      = Returned (TestValueRange.mk column_name left right metric))
  /\ (forall cls pipeline column_name left right
             eq gt gte is_in lt lte not_eq not_in metric,
      ValueRangeMetricsTest.init cls pipeline column_name left right
        eq gt gte is_in lt lte not_eq not_in (Some metric)
      = Returned
          (ValueRangeMetricsTest.mk cls column_name left right
             (mkTestValueCondition eq gt gte is_in lt lte not_eq not_in) metric))
  /\ (forall pipeline column_name values metric,
      TestValueList.init pipeline column_name values (Some metric)
      = Returned (TestValueList.mk column_name values metric))
  /\ (forall cls pipeline column_name values
             eq gt gte is_in lt lte not_eq not_in metric,
      ValueListMetricsTest.init cls pipeline column_name values
        eq gt gte is_in lt lte not_eq not_in (Some metric)
      = Returned
          (ValueListMetricsTest.mk cls column_name values
             (mkTestValueCondition eq gt gte is_in lt lte not_eq not_in) metric)).
Proof.
  split.
  - intros pipeline column_name quantile eq gt gte is_in lt lte not_eq not_in
      metric Hgiven.
    apply TestValueQuantile_init_conflict. exact Hgiven.
  - repeat split.
Qed.

(** C9. [TestValueQuantile.__init__] with an explicit metric raises
    [ValueError] as soon as [column_name] or [quantile] is not [None];
    it succeeds only when both are [None], and then it does succeed,
    binding the metric. *)
Theorem quantile_explicit_metric
    (pipeline : ValueQuantileParams -> DataQualityValueQuantileMetricsResults)
    (column_name : option string) (quantile : option num)
    (eq : option Bound) (gt gte : option num) (is_in : option (list Scalar))
    (lt lte : option num) (not_eq : option Bound) (not_in : option (list Scalar))
    (metric : Metric ValueQuantileParams DataQualityValueQuantileMetricsResults) :
  let constructed :=
    TestValueQuantile.init pipeline column_name quantile
      eq gt gte is_in lt lte not_eq not_in (Some metric) in
  (column_name <> None \/ quantile <> None ->
   constructed = Raised (ValueError "Test parameters and given  metric conflict"))
  /\ (forall test, constructed = Returned test ->
      column_name = None /\ quantile = None)
  /\ (column_name = None -> quantile = None ->
      constructed
        = Returned
            (TestValueQuantile.mk None None
               (mkTestValueCondition eq gt gte is_in lt lte not_eq not_in) metric)).
Proof.
  cbv zeta. split; [| split].
  - apply TestValueQuantile_init_conflict.
  - intros test Hreturned.
    destruct column_name as [c |], quantile as [q |];
      simpl in Hreturned; try discriminate Hreturned.
    split; reflexivity.
  - intros -> ->. reflexivity.
Qed.

(** C10. [HighlyCorrelatedFeatures] and [CorrelationChanges] test the same
    value, the metric's [abs_max_num_features_correlation], and describe
    it with the same string; [check()] gives the two the same status
    and the same description. *)
Theorem correlation_tests_agree (method : string) (condition : TestValueCondition)
    (metric : Metric string DataQualityCorrelationMetricsResults) :
  let highly := CorrelationTest.mk CorrelationTest.HighlyCorrelatedFeatures
                  method condition metric in
  let changes := CorrelationTest.mk CorrelationTest.CorrelationChanges
                   method condition metric in
  fst (CorrelationTest.call CorrelationTest.calculate_value_for_test highly)
    = Returned (abs_max_num_features_correlation (result_of metric))
  /\ fst (CorrelationTest.call CorrelationTest.calculate_value_for_test changes)
    = fst (CorrelationTest.call CorrelationTest.calculate_value_for_test highly)
  /\ (forall value,
      fst (CorrelationTest.call
             (fun self => CorrelationTest.get_description fmt self value) changes)
      = fst (CorrelationTest.call
               (fun self => CorrelationTest.get_description fmt self value) highly))
  /\ (forall value,
      fst (CorrelationTest.call
             (fun self => CorrelationTest.get_description fmt self value) highly)
      = Returned ("Max numeric features correlation is " +:+ format_number fmt value))
  /\ match fst (CorrelationTest.call (CorrelationTest.check fmt) highly),
           fst (CorrelationTest.call (CorrelationTest.check fmt) changes) with
     | Returned of_highly, Returned of_changes =>
         status of_highly = status of_changes
         /\ description of_highly = description of_changes
     | Raised e, Raised e' => e = e'
     | _, _ => False
     end.
Proof.
  cbv zeta. unfold CorrelationTest.call. rewrite !call_method_fst.
  unfold CorrelationTest.calculate_value_for_test. simpl. step.
  repeat split; intros; rewrite ?call_method_fst; try reflexivity.
  unfold CorrelationTest.check, BaseCheckValueTest.check,
    CorrelationTest.calculate_value_for_test, CorrelationTest.get_description,
    CorrelationTest.get_condition.
  simpl. step.
  destruct (abs_max_num_features_correlation (result_of metric)) as [value |];
    [| simpl; split; reflexivity].
  step. unfold try_except_ValueError. step.
  destruct (check_value condition (SNum value)) as [[|] | [msg | | key |]];
    simpl; try split; reflexivity.
Qed.

End ClaimsOfEveryArithmetic.

(** ** The claims at sample inputs *)

(** C8, as stated, fails for [TestValueRange]: an explicit metric made for
    column ["a"] and the interval [0, 1], given together with column
    ["b"] and the interval [5, 10], is accepted. *)
Lemma value_range_conflict_not_refused :
  ~ (forall pipeline column_name left right metric,
        conflicts_with column_name left right metric ->
        exists e,
          TestValueRange.init pipeline column_name left right (Some metric)
          = Raised e).
Proof.
  intros Hclaim.
  destruct (Hclaim (fun _ => mkDataQualityValueRangeMetricsResults (A := rational) 0%Q 0%Q)
              "b" (Some 5%Q) (Some 10%Q) (sample_range_metric 0 0)) as [e He].
  - unfold conflicts_with. simpl. discriminate.
  - discriminate He.
Qed.

Lemma most_common_value_share_default_witness :
  fst (FeatureTest.call (FeatureTest.get_condition sample_relative sample_absolute)
         (sample_most_common 46 (Some 42%Q)))
    = Returned
        (TestValueCondition_eq
           (BApprox (approx sample_relative sample_absolute (42 / 100)%Q
                       (Some (1 # 10)%Q) None)))
  /\ fst (FeatureTest.call (FeatureTest.get_condition sample_relative sample_absolute)
            (sample_most_common 46 None))
    = Returned (TestValueCondition_lt (8 # 10)%Q)
  /\ (exists result,
        fst (FeatureTest.call
               (FeatureTest.check sample_formatting sample_relative sample_absolute)
               (sample_most_common 46 (Some 42%Q)))
          = Returned result
        /\ status result = SUCCESS)
  /\ (exists result,
        fst (FeatureTest.call
               (FeatureTest.check sample_formatting sample_relative sample_absolute)
               (sample_most_common 50 (Some 42%Q)))
          = Returned result
        /\ status result = FAIL).
Proof.
  pose proof (most_common_value_share_default sample_formatting sample_relative
                sample_absolute (sample_most_common 46 (Some 42%Q))
                eq_refl eq_refl) as [Hreference [_ Hexample]].
  pose proof (most_common_value_share_default sample_formatting sample_relative
                sample_absolute (sample_most_common 46 None)
                eq_refl eq_refl) as [_ [Hfixed _]].
  pose proof (most_common_value_share_default sample_formatting sample_relative
                sample_absolute (sample_most_common 50 (Some 42%Q))
                eq_refl eq_refl) as [_ [_ Hexample']].
  split; [| split; [| split]].
  - apply (Hreference _ (sample_stats None None (Some 42%Q)) 42%Q eq_refl);
      [vm_compute; reflexivity | reflexivity].
  - apply Hfixed. reflexivity.
  - apply (Hexample _ (sample_stats None None (Some 42%Q))
             (sample_stats None None (Some 46%Q)) eq_refl);
      [vm_compute; reflexivity | reflexivity | vm_compute; reflexivity | reflexivity].
  - apply (Hexample' _ (sample_stats None None (Some 42%Q))
             (sample_stats None None (Some 50%Q)) eq_refl);
      [vm_compute; reflexivity | reflexivity | vm_compute; reflexivity
      | vm_compute; reflexivity | reflexivity].
Defined.

Lemma share_tests_default_zero_witness :
  (exists result,
      fst (ValueRangeMetricsTest.call
             (ValueRangeMetricsTest.check sample_formatting sample_relative
                sample_absolute)
             (ValueRangeMetricsTest.mk ValueRangeMetricsTest.TestShareOfOutRangeValues
                "a" (Some 0%Q) (Some 1%Q) TestValueCondition_unset
                (sample_range_metric 3 (3 # 100))))
        = Returned result
      /\ status result = FAIL)
  /\ (exists result,
      fst (ValueListMetricsTest.call
             (ValueListMetricsTest.check sample_formatting sample_relative
                sample_absolute)
             (ValueListMetricsTest.mk ValueListMetricsTest.TestShareOfOutListValues
                "a" None TestValueCondition_unset
                (sample_list_metric 3 (3 # 100))))
        = Returned result
      /\ status result = FAIL).
Proof.
  destruct (share_tests_default_zero sample_formatting sample_relative
              sample_absolute) as [Hrange Hlist].
  split.
  - destruct (Hrange
                (ValueRangeMetricsTest.mk (A := rational)
                   ValueRangeMetricsTest.TestShareOfOutRangeValues
                   "a" (Some 0%Q) (Some 1%Q) TestValueCondition_unset
                   (sample_range_metric 3 (3 # 100)))
                eq_refl eq_refl) as [_ Hfail].
    apply Hfail; [vm_compute; reflexivity | reflexivity].
  - destruct (Hlist
                (ValueListMetricsTest.mk (A := rational)
                   ValueListMetricsTest.TestShareOfOutListValues
                   "a" None TestValueCondition_unset
                   (sample_list_metric 3 (3 # 100)))
                eq_refl eq_refl) as [_ Hfail].
    apply Hfail; [vm_compute; reflexivity | reflexivity].
Defined.

Lemma mean_in_n_sigmas_window_witness :
  (exists result,
      fst (TestMeanInNSigmas.call (TestMeanInNSigmas.check binary64_formatting)
             (binary64_mean_in_n_sigmas None 61 50 5))
        = Returned result
      /\ status result = FAIL)
  /\ (exists result,
      fst (TestMeanInNSigmas.call (TestMeanInNSigmas.check binary64_formatting)
             (binary64_mean_in_n_sigmas None 55 50 5))
        = Returned result
      /\ status result = SUCCESS).
Proof.
  split.
  - destruct (mean_in_n_sigmas_window (A := binary64) binary64_formatting
                (binary64_mean_in_n_sigmas None 61 50 5)
                {[ "age" := binary64_stats (Some 50%float) (Some 5%float) None None ]}
                (binary64_stats (Some 61%float) None None None)
                (binary64_stats (Some 50%float) (Some 5%float) None None)
                61%float 50%float 5%float 2%float)
      as [_ [result [Hcheck [_ Hfail]]]];
      try reflexivity; try (vm_compute; reflexivity).
    exists result. split; [exact Hcheck |].
    apply Hfail. intros [_ Hright]. vm_compute in Hright. discriminate Hright.
  - destruct (mean_in_n_sigmas_window (A := binary64) binary64_formatting
                (binary64_mean_in_n_sigmas None 55 50 5)
                {[ "age" := binary64_stats (Some 50%float) (Some 5%float) None None ]}
                (binary64_stats (Some 55%float) None None None)
                (binary64_stats (Some 50%float) (Some 5%float) None None)
                55%float 50%float 5%float 2%float)
      as [_ [result [Hcheck [Hsuccess _]]]];
      try reflexivity; try (vm_compute; reflexivity).
    exists result. split; [exact Hcheck |].
    apply Hsuccess. split; vm_compute; reflexivity.
Defined.

(** The examples of C2 and C3 in [binary64], with the sample tolerances:
    reference share 0.42 against a current share of 0.46 and of 0.50, and
    a share of 0.03 out of range. *)
Example default_conditions_binary64 :
  let most_common current :=
    binary64_feature_test FeatureTest.TestMostCommonValueShare
      TestValueCondition_unset
      (binary64_stats None None None (Some current))
      (Some (binary64_stats None None None (Some 42%float))) in
  let out_of_range :=
    ValueRangeMetricsTest.mk (A := binary64)
      ValueRangeMetricsTest.TestShareOfOutRangeValues "a" None None
      TestValueCondition_unset
      (new_metric
         (fun _ => mkDataQualityValueRangeMetricsResults (A := binary64) 3%float 0.03%float)
         (mkValueRangeParams (A := binary64) "a" None None)) in
  let status_of (outcome : Outcome TestResult) :=
    match outcome with
    | Returned result => Some (status result)
    | Raised _ => None
    end in
  status_of
    (fst (FeatureTest.call
            (FeatureTest.check binary64_formatting binary64_relative
               binary64_absolute) (most_common 46%float)))
  = Some SUCCESS
  /\ status_of
       (fst (FeatureTest.call
               (FeatureTest.check binary64_formatting binary64_relative
                  binary64_absolute) (most_common 50%float)))
     = Some FAIL
  /\ status_of
       (fst (ValueRangeMetricsTest.call
               (ValueRangeMetricsTest.check binary64_formatting binary64_relative
                  binary64_absolute) out_of_range))
     = Some FAIL.
Proof. repeat split; vm_compute; reflexivity. Qed.

(** The literals of the module and two values of [n_sigmas], as
    [binary64] has them. *)
Example binary64_literals :
  @literal binary64 100 = 100%float
  /\ @literal binary64 (1 # 10) = 0.1%float
  /\ @literal binary64 (8 # 10) = 0.8%float
  /\ @literal binary64 0 = 0%float
  /\ @of_int binary64 2 = Some 2%float
  /\ @of_int binary64 (10 ^ 400) = None.
Proof. repeat split; vm_compute; reflexivity. Qed.

(** Rounding moves the window.  With reference mean 0.1, standard
    deviation 0.7 and [n_sigmas = 1], the current mean 0.7999999999999999
    lies below 0.1 + 0.7 as rationals; the sum of the two doubles rounds
    to 0.7999999999999999 itself, so [check()] in [binary64] gives FAIL,
    where [check()] in [rational], on the rationals these doubles are,
    gives SUCCESS. *)
Example mean_in_n_sigmas_rounded_window :
  (exists result,
      fst (TestMeanInNSigmas.call (TestMeanInNSigmas.check binary64_formatting)
             (binary64_mean_in_n_sigmas (Some 1%Z) 0.7999999999999999 0.1 0.7))
        = Returned result
      /\ status result = FAIL)
  /\ (exists current_mean reference_mean reference_std result,
      exact_value 0.7999999999999999 = Some current_mean
      /\ exact_value 0.1 = Some reference_mean
      /\ exact_value 0.7 = Some reference_std
      /\ fst (TestMeanInNSigmas.call (TestMeanInNSigmas.check sample_formatting)
                (TestMeanInNSigmas.mk "age" 1
                   (sample_metric (sample_stats (Some current_mean) None None)
                      (Some (sample_stats (Some reference_mean) (Some reference_std)
                               None)))))
         = Returned result
      /\ status result = SUCCESS).
Proof.
  split.
  - eexists. split; [vm_compute; reflexivity | reflexivity].
  - do 4 eexists. repeat split; try (vm_compute; reflexivity).
Qed.

Lemma mean_in_n_sigmas_no_reference_raises_witness :
  fst (check sample_formatting sample_relative sample_absolute
         (MeanInNSigmas (sample_mean_in_n_sigmas 55 None)))
    = Raised (ValueError "Reference should be present").
Proof.
  apply (mean_in_n_sigmas_no_reference_raises sample_formatting sample_relative
           sample_absolute (sample_mean_in_n_sigmas 55 None)).
  reflexivity.
Defined.

Lemma check_returns_terminal_status_witness :
  let result :=
    {| name := "Test a feature min value";
       description := "Feature 'age' was not found";
       status := FAIL |} in
  (status result = SUCCESS \/ status result = FAIL \/ status result = ERROR)
  /\ status result <> SKIPPED.
Proof.
  apply (check_returns_terminal_status sample_formatting sample_relative
           sample_absolute
           (Feature (FeatureTest.mk FeatureTest.TestFeatureValueMin "age"
                       TestValueCondition_unset sample_metric_no_features))
           (Feature (FeatureTest.mk FeatureTest.TestFeatureValueMin "age"
                       TestValueCondition_unset
                       (accessed sample_metric_no_features)))).
  vm_compute. reflexivity.
Defined.

Lemma explicit_metric_at_construction_witness :
  TestValueQuantile.init (fun _ => mkDataQualityValueQuantileMetricsResults 0%Q)
    (Some "a") (Some (1 # 2)%Q) None None None None None None None None
    (Some sample_quantile_metric)
  = Raised (ValueError "Test parameters and given  metric conflict")
  /\ TestValueRange.init (fun _ => mkDataQualityValueRangeMetricsResults 0%Q 0%Q)
       "b" (Some 5%Q) (Some 10%Q) (Some (sample_range_metric 0 0))
     = Returned (TestValueRange.mk "b" (Some 5%Q) (Some 10%Q) (sample_range_metric 0 0))
  /\ ValueRangeMetricsTest.init ValueRangeMetricsTest.TestShareOfOutRangeValues
       (fun _ => mkDataQualityValueRangeMetricsResults 0%Q 0%Q)
       "b" (Some 5%Q) (Some 10%Q) None None None None None None None None
       (Some (sample_range_metric 0 0))
     = Returned
         (ValueRangeMetricsTest.mk ValueRangeMetricsTest.TestShareOfOutRangeValues
            "b" (Some 5%Q) (Some 10%Q) TestValueCondition_unset
            (sample_range_metric 0 0))
  /\ TestValueList.init (fun _ => mkDataQualityValueListMetricsResults 0%Q 0%Q)
       "b" (Some [SStr "x"]) (Some (sample_list_metric 0 0))
     = Returned (TestValueList.mk "b" (Some [SStr "x"]) (sample_list_metric 0 0)).
Proof.
  destruct (explicit_metric_at_construction (A := rational))
    as [Hquantile [_ [_ [_ [_ [Hrange [Hrange_metrics [Hlist _]]]]]]]].
  split; [| split; [| split]].
  - apply Hquantile. left. discriminate.
  - apply Hrange.
  - apply Hrange_metrics.
  - apply Hlist.
Defined.

Lemma quantile_explicit_metric_witness :
  TestValueQuantile.init (fun _ => mkDataQualityValueQuantileMetricsResults 0%Q)
    (Some "a") None None None None None None None None None
    (Some sample_quantile_metric)
  = Raised (ValueError "Test parameters and given  metric conflict")
  /\ TestValueQuantile.init (fun _ => mkDataQualityValueQuantileMetricsResults 0%Q)
       None None None None None None None None None None
       (Some sample_quantile_metric)
     = Returned
         (TestValueQuantile.mk None None TestValueCondition_unset
            sample_quantile_metric).
Proof.
  split.
  - apply (quantile_explicit_metric
             (fun _ => mkDataQualityValueQuantileMetricsResults (A := rational) 0%Q)
             (Some "a") None None None None None None None None None
             sample_quantile_metric).
    left. discriminate.
  - apply (quantile_explicit_metric
             (fun _ => mkDataQualityValueQuantileMetricsResults (A := rational) 0%Q)
             None None None None None None None None None None
             sample_quantile_metric); reflexivity.
Defined.

(** * The rest of the module *)

(** ** Feature-level tests *)

Lemma Qltb_false_iff_not (x y : Q) : Qltb x y = false <-> (y <= x)%Q.
Proof.
  unfold Qltb. rewrite negb_false_iff. apply Qle_bool_iff.
Qed.

Lemma approx_eq_iff (a : ApproxValue) (v : Q) :
  approx_eq a v = true
  <-> (Qabs (v - approx_value a) <= Qabs (approx_value a) * approx_relative a
       \/ Qabs (v - approx_value a) <= approx_absolute a)%Q.
Proof.
  unfold approx_eq. rational_arith.
  rewrite orb_true_iff, !Qle_bool_iff. reflexivity.
Qed.

Section FeatureTests.
Context {A : Arithmetic}.
Variable fmt : Formatting.
Variables DEFAULT_RELATIVE DEFAULT_ABSOLUTE : num.

(** X1. A feature-level test that returns a statistic as it is (min, max,
    mean, median, std, number of unique values), on a column that is
    present but whose statistic is [None]: the Result is ERROR with the
    description "No value for the feature '<column>'", and neither the
    description method nor the condition is consulted. *)
Theorem feature_check_no_value (self : FeatureTest.t)
    (statistic : FeatureQualityStats.t -> option num)
    (current_stats : FeatureQualityStats.t) :
  plain_statistic (FeatureTest.cls self) = Some statistic ->
  features_stats (result_of (FeatureTest.metric self))
    !! FeatureTest.column_name self = Some current_stats ->
  statistic current_stats = None ->
  fst (FeatureTest.call (FeatureTest.check fmt DEFAULT_RELATIVE DEFAULT_ABSOLUTE) self)
  = Returned
      {| name := FeatureTest.name_of self;
         description :=
           "No value for the feature '" +:+ FeatureTest.column_name self +:+ "'";
         status := ERROR |}.
Proof.
  intros Hplain Hcur Hnone.
  unfold FeatureTest.call. rewrite call_method_fst.
  unfold FeatureTest.check. step.
  unfold get_all_features. rewrite (contains_lookup _ _ _ Hcur). cbn [negb].
  unfold FeatureTest.calculate_value_for_test. step.
  unfold get_all_features. rewrite (getitem_lookup _ _ _ Hcur). step.
  destruct (FeatureTest.cls self); simpl in Hplain; inversion Hplain; subst statistic;
    rewrite Hnone; reflexivity.
Qed.

(** X2. The two share tests divide the percentage by 100 before the
    [None] guard of [check()] is reached: on a column whose percentage is
    [None], [check()] raises [TypeError] instead of returning an ERROR
    Result. *)
Theorem share_check_no_percentage_raises (self : FeatureTest.t)
    (percentage : FeatureQualityStats.t -> option num)
    (current_stats : FeatureQualityStats.t) :
  share_percentage (FeatureTest.cls self) = Some percentage ->
  features_stats (result_of (FeatureTest.metric self))
    !! FeatureTest.column_name self = Some current_stats ->
  percentage current_stats = None ->
  fst (FeatureTest.call (FeatureTest.check fmt DEFAULT_RELATIVE DEFAULT_ABSOLUTE) self)
  = Raised TypeError.
Proof.
  intros Hshare Hcur Hnone.
  unfold FeatureTest.call. rewrite call_method_fst.
  unfold FeatureTest.check. step.
  unfold get_all_features. rewrite (contains_lookup _ _ _ Hcur). cbn [negb].
  unfold FeatureTest.calculate_value_for_test. step.
  unfold get_all_features. rewrite (getitem_lookup _ _ _ Hcur). step.
  destruct (FeatureTest.cls self); simpl in Hshare; inversion Hshare; subst percentage;
    rewrite Hnone; reflexivity.
Qed.

Lemma cache_only_accessed_pair {P R X} (c : M (Metric P R) X) (m : Metric P R) :
  cache_only c -> c (accessed m) = (fst (c (accessed m)), accessed m).
Proof.
  intros Hc. rewrite <- (cache_only_after c m Hc) at 3.
  destruct (c (accessed m)); reflexivity.
Qed.

Lemma bind_cache_only {P R X Y} (c : M (Metric P R) X) (k : X -> M (Metric P R) Y)
    (m : Metric P R) :
  cache_only c ->
  bind c k (accessed m)
  = match fst (c (accessed m)) with
    | Returned a => k a (accessed m)
    | Raised e => (Raised e, accessed m)
    end.
Proof.
  intros Hc. unfold bind. rewrite (cache_only_accessed_pair c m Hc) at 1.
  reflexivity.
Qed.

(** The condition of a feature-level test is a function of the test and
    of what the reference says about its column, and of that only for a
    test that reads the reference. *)
Lemma feature_get_condition_own_column (self : FeatureTest.t)
    (m m' : Metric unit DataQualityMetricsResults) :
  (reads_reference self = true ->
   reference_of (result_of m) (FeatureTest.column_name self)
   = reference_of (result_of m') (FeatureTest.column_name self)) ->
  fst (FeatureTest.get_condition DEFAULT_RELATIVE DEFAULT_ABSOLUTE self (accessed m))
  = fst (FeatureTest.get_condition DEFAULT_RELATIVE DEFAULT_ABSOLUTE self (accessed m')).
Proof.
  unfold reads_reference, reference_of, FeatureTest.get_condition.
  destruct (FeatureTest.cls self); try reflexivity.
  destruct (is_set (FeatureTest.condition self)); [reflexivity |].
  intros Href. specialize (Href eq_refl). step.
  destruct (reference_features_stats (result_of m)) as [reference |] eqn:E,
    (reference_features_stats (result_of m')) as [reference' |] eqn:E';
    simpl in Href; try discriminate Href; [| reflexivity].
  injection Href as Href. cbn [is_not_None]. step. rewrite E, E'. step.
  unfold getitem. rewrite Href.
  destruct (reference' !! FeatureTest.column_name self) as [st |]; [| reflexivity].
  destruct (FeatureQualityStats.most_common_value_percentage st); reflexivity.
Qed.

(** X3. A feature-level test looks at its own column only.  Two metric
    results that agree on the current statistics of the column give the
    same outcome of [check()], whatever they say about other columns;
    the reference statistics matter to [TestMostCommonValueShare] without
    a condition of its own and to no other feature-level test. *)
Theorem feature_check_own_column (self : FeatureTest.t)
    (m m' : Metric unit DataQualityMetricsResults) :
  let column := FeatureTest.column_name self in
  current_of (result_of m) column = current_of (result_of m') column ->
  (reads_reference self = true ->
   reference_of (result_of m) column = reference_of (result_of m') column) ->
  fst (FeatureTest.call (FeatureTest.check fmt DEFAULT_RELATIVE DEFAULT_ABSOLUTE)
         (FeatureTest.set_metric self m))
  = fst (FeatureTest.call (FeatureTest.check fmt DEFAULT_RELATIVE DEFAULT_ABSOLUTE)
           (FeatureTest.set_metric self m')).
Proof.
  intros column Hcur Href. unfold column, current_of in *.
  pose proof (feature_get_condition_own_column self m m' Href) as Hcond.
  pose proof (FeatureTest_get_condition_cache_only DEFAULT_RELATIVE
                DEFAULT_ABSOLUTE self) as Hcache.
  unfold FeatureTest.call. rewrite !call_method_fst.
  assert (Hself : forall x,
             FeatureTest.check fmt DEFAULT_RELATIVE DEFAULT_ABSOLUTE
               (FeatureTest.set_metric self x)
             = FeatureTest.check fmt DEFAULT_RELATIVE DEFAULT_ABSOLUTE self)
    by (intros; destruct self; reflexivity).
  rewrite !Hself.
  assert (Hget : forall x, FeatureTest.metric (FeatureTest.set_metric self x) = x)
    by (intros; destruct self; reflexivity).
  rewrite !Hget. clear Hself Hget.
  unfold FeatureTest.check. step.
  unfold get_all_features, contains. rewrite Hcur.
  destruct (features_stats (result_of m') !! FeatureTest.column_name self)
    as [st |] eqn:Est; cbn [is_not_None negb]; [| reflexivity].
  unfold FeatureTest.calculate_value_for_test. step.
  unfold get_all_features, getitem. rewrite Hcur, Est. step.
  assert (Htail : forall (value : num) (d : string),
             fst (try_except_ValueError
                    (c <- FeatureTest.get_condition DEFAULT_RELATIVE
                            DEFAULT_ABSOLUTE self ;;
                     condition_check_result <- lift (check_value c (SNum value)) ;;
                     if condition_check_result : bool
                     then ret (mark_as_success
                                 (set_description
                                    (mkTestResult (FeatureTest.name_of self)
                                       "The test was not launched" SKIPPED) d)
                                 None)
                     else ret (mark_as_fail
                                 (set_description
                                    (mkTestResult (FeatureTest.name_of self)
                                       "The test was not launched" SKIPPED) d)
                                 None))
                    (ret (mark_as_error
                            (set_description
                               (mkTestResult (FeatureTest.name_of self)
                                  "The test was not launched" SKIPPED) d)
                            (Some "Cannot calculate the condition")))
                    (accessed m))
             = fst (try_except_ValueError
                      (c <- FeatureTest.get_condition DEFAULT_RELATIVE
                              DEFAULT_ABSOLUTE self ;;
                       condition_check_result <- lift (check_value c (SNum value)) ;;
                       if condition_check_result : bool
                       then ret (mark_as_success
                                   (set_description
                                      (mkTestResult (FeatureTest.name_of self)
                                         "The test was not launched" SKIPPED) d)
                                   None)
                       else ret (mark_as_fail
                                   (set_description
                                      (mkTestResult (FeatureTest.name_of self)
                                         "The test was not launched" SKIPPED) d)
                                   None))
                      (ret (mark_as_error
                              (set_description
                                 (mkTestResult (FeatureTest.name_of self)
                                    "The test was not launched" SKIPPED) d)
                              (Some "Cannot calculate the condition")))
                      (accessed m'))).
  { intros value d. unfold try_except_ValueError.
    rewrite !(bind_cache_only _ _ _ Hcache), Hcond.
    destruct (fst (FeatureTest.get_condition DEFAULT_RELATIVE DEFAULT_ABSOLUTE
                     self (accessed m'))) as [c | [msg | | key |]];
      try reflexivity.
    step. destruct (check_value c (SNum value)) as [[|] | [msg | | key |]];
      reflexivity. }
  unfold FeatureTest.get_description.
  destruct (FeatureTest.cls self) eqn:Ecls; step;
    try (match goal with
         | |- context [match ?statistic st with _ => _ end] =>
             destruct (statistic st) as [value |]; [| reflexivity]
         end;
         step; apply Htail).
  - destruct (FeatureQualityStats.unique_percentage st) as [p |];
      [| reflexivity].
    unfold number. step. apply Htail.
  - destruct (FeatureQualityStats.most_common_value_percentage st) as [p |];
      [| reflexivity].
    unfold number. step.
    rewrite !(bind_cache_only _ _ _ Hcache), Hcond.
    destruct (fst (FeatureTest.get_condition DEFAULT_RELATIVE DEFAULT_ABSOLUTE
                     self (accessed m'))) as [c | e]; [| reflexivity].
    step. apply Htail.
Qed.

Lemma check_value_lt (bound v : num) :
  check_value (TestValueCondition_lt bound) (SNum v) = Returned (v <? bound)%num.
Proof.
  unfold check_value, TestValueCondition_lt. simpl.
  rewrite !andb_true_r. reflexivity.
Qed.

(** [check()] of [TestMostCommonValueShare] once the condition it
    resolves to is known. *)
Lemma most_common_check_with_condition (self : FeatureTest.t)
    (m : Metric unit DataQualityMetricsResults)
    (current_stats : FeatureQualityStats.t) (p : num) (c : TestValueCondition) :
  FeatureTest.cls self = FeatureTest.TestMostCommonValueShare ->
  features_stats (result_of m) !! FeatureTest.column_name self = Some current_stats ->
  FeatureQualityStats.most_common_value_percentage current_stats = Some p ->
  FeatureTest.get_condition DEFAULT_RELATIVE DEFAULT_ABSOLUTE self (accessed m)
    = (Returned c, accessed m) ->
  let description :=
    "Share of the Most Common Value for column " +:+ FeatureTest.column_name self
    +:+ " is " +:+ format_number fmt (np_round fmt (p / literal 100)%num 3) +:+ ". "
    +:+ spaces 12 +:+ "Test Threshold is [" +:+ format_condition fmt c +:+ "]." in
  FeatureTest.check fmt DEFAULT_RELATIVE DEFAULT_ABSOLUTE self m
  = (match check_value c (SNum (p / literal 100)%num) with
     | Returned b =>
         Returned (mkTestResult (FeatureTest.name_of self) description
                     (if b then SUCCESS else FAIL))
     | Raised (ValueError _) =>
         Returned (mkTestResult (FeatureTest.name_of self)
                     "Cannot calculate the condition" ERROR)
     | Raised e => Raised e
     end,
     accessed m).
Proof.
  intros Hcls Hcur Hp Hcond. cbv zeta.
  unfold FeatureTest.check. step.
  unfold get_all_features. rewrite (contains_lookup _ _ _ Hcur). cbn [negb].
  unfold FeatureTest.calculate_value_for_test. step.
  unfold get_all_features. rewrite (getitem_lookup _ _ _ Hcur). step.
  rewrite Hcls, Hp. unfold number. step.
  unfold FeatureTest.get_description. rewrite Hcls. step.
  rewrite (bind_known _ _ _ _ _ Hcond). step.
  unfold try_except_ValueError. rewrite (bind_known _ _ _ _ _ Hcond). step.
  destruct (check_value c (SNum (p / literal 100)%num)) as [[|] | [msg | | key |]];
    reflexivity.
Qed.

(** X4. [TestMostCommonValueShare] with no condition and a reference
    that lacks the column, on a column that the current data has:
    [check()] does not return a Result, it raises [KeyError] for the
    column (from deriving the default condition while describing the
    value). *)
Theorem most_common_check_reference_without_column (self : FeatureTest.t)
    (reference : DataQualityStats) (current_stats : FeatureQualityStats.t) (p : num) :
  let r := result_of (FeatureTest.metric self) in
  FeatureTest.cls self = FeatureTest.TestMostCommonValueShare ->
  is_set (FeatureTest.condition self) = false ->
  features_stats r !! FeatureTest.column_name self = Some current_stats ->
  FeatureQualityStats.most_common_value_percentage current_stats = Some p ->
  reference_features_stats r = Some reference ->
  reference !! FeatureTest.column_name self = None ->
  fst (FeatureTest.call (FeatureTest.check fmt DEFAULT_RELATIVE DEFAULT_ABSOLUTE) self)
  = Raised (KeyError (FeatureTest.column_name self)).
Proof.
  intros r Hcls Hunset Hcur Hp Href Hcol. unfold r in *.
  pose proof (most_common_get_condition_reference_without_column
                DEFAULT_RELATIVE DEFAULT_ABSOLUTE self
                (accessed (FeatureTest.metric self)) reference
                Hcls Hunset Href Hcol) as Hcond.
  rewrite accessed_idempotent in Hcond.
  unfold FeatureTest.call. rewrite call_method_fst.
  unfold FeatureTest.check. step.
  unfold get_all_features. rewrite (contains_lookup _ _ _ Hcur). cbn [negb].
  unfold FeatureTest.calculate_value_for_test. step.
  unfold get_all_features. rewrite (getitem_lookup _ _ _ Hcur). step.
  rewrite Hcls, Hp. unfold number. step.
  unfold FeatureTest.get_description. rewrite Hcls. step.
  unfold bind at 1. rewrite Hcond. reflexivity.
Qed.

(** X6. [TestMostCommonValueShare] with no condition and a reference that
    has the column: with c the current share and r the reference share
    (each the percentage divided by [100.0]), the Result is SUCCESS
    exactly when |c - r| <= |r| * 0.1, or |c - r| is within the default
    absolute tolerance of [approx]; it is FAIL otherwise.  The quotients,
    the difference and the product are those of the arithmetic: in
    [binary64] each is rounded. *)
Theorem most_common_check_relative_band (self : FeatureTest.t)
    (reference : DataQualityStats)
    (current_stats reference_stats : FeatureQualityStats.t) (p_cur p_ref : num) :
  let r := result_of (FeatureTest.metric self) in
  FeatureTest.cls self = FeatureTest.TestMostCommonValueShare ->
  is_set (FeatureTest.condition self) = false ->
  features_stats r !! FeatureTest.column_name self = Some current_stats ->
  FeatureQualityStats.most_common_value_percentage current_stats = Some p_cur ->
  reference_features_stats r = Some reference ->
  reference !! FeatureTest.column_name self = Some reference_stats ->
  FeatureQualityStats.most_common_value_percentage reference_stats = Some p_ref ->
  let current_share := (p_cur / literal 100)%num in
  let reference_share := (p_ref / literal 100)%num in
  let distance := num_abs (current_share - reference_share)%num in
  let in_band :=
    (distance <=? num_abs reference_share * literal (1 # 10))%num = true
    \/ (distance <=? DEFAULT_ABSOLUTE)%num = true in
  exists result,
    fst (FeatureTest.call
           (FeatureTest.check fmt DEFAULT_RELATIVE DEFAULT_ABSOLUTE) self)
      = Returned result
    /\ (status result = SUCCESS <-> in_band)
    /\ (status result = FAIL <-> ~ in_band).
Proof.
  intros r Hcls Hunset Hcur Hpcur Href Hcol Hpref
    current_share reference_share distance in_band.
  unfold r in *.
  destruct (most_common_check_reference fmt DEFAULT_RELATIVE DEFAULT_ABSOLUTE
              self _ reference current_stats reference_stats p_cur p_ref
              Hcls Hunset Href Hcol Hpref Hcur Hpcur) as [d Hcheck].
  unfold FeatureTest.call. rewrite call_method_fst, Hcheck. cbn [fst].
  eexists. split; [reflexivity |]. cbn [status].
  assert (Hband : approx_eq
                    (approx DEFAULT_RELATIVE DEFAULT_ABSOLUTE reference_share
                       (Some (literal (1 # 10))) None) current_share = true
                  <-> in_band).
  { unfold approx_eq, approx, in_band, distance.
    cbn [approx_value approx_relative approx_absolute default].
    apply orb_true_iff. }
  fold current_share reference_share.
  destruct (approx_eq _ _); split; split; intros H;
    try reflexivity; try discriminate.
  - apply Hband. reflexivity.
  - exfalso. apply H, Hband. reflexivity.
  - apply Hband in H. discriminate.
  - intros Hin. apply Hband in Hin. discriminate.
Qed.

Lemma check_value_number_returns (c : TestValueCondition) (v : num) :
  exists b, check_value c (SNum v) = Returned b.
Proof.
  unfold check_value, check_eq, check_not_eq, check_order, check_eq.
  destruct (eq c) as [[q | a] |], (gt c), (gte c), (lt c), (lte c),
    (not_eq c) as [[q' | a'] |];
    simpl; eexists; reflexivity.
Qed.

(** X7. The verdict of a feature-level test is the verdict of its
    condition on the tested value.  For a test that uses its own
    condition (every feature-level test but [TestMostCommonValueShare]
    without a condition), on a column that is present and whose tested
    value is a number v: [check()] returns SUCCESS when the condition
    holds of v and FAIL when it does not; on a number the condition
    always evaluates, so the Result is never ERROR. *)
Theorem feature_check_verdict (self : FeatureTest.t)
    (current_stats : FeatureQualityStats.t) (v : num) :
  reads_reference self = false ->
  features_stats (result_of (FeatureTest.metric self))
    !! FeatureTest.column_name self = Some current_stats ->
  tested_value (FeatureTest.cls self) current_stats = Some v ->
  exists (holds : bool) (d : string),
    check_value (FeatureTest.condition self) (SNum v) = Returned holds
    /\ fst (FeatureTest.call
              (FeatureTest.check fmt DEFAULT_RELATIVE DEFAULT_ABSOLUTE) self)
       = Returned
           {| name := FeatureTest.name_of self;
              description := d;
              status := if holds then SUCCESS else FAIL |}.
Proof.
  intros Hreads Hcur Hv.
  destruct (check_value_number_returns (FeatureTest.condition self) v) as [holds Hholds].
  exists holds.
  assert (Hcond : forall m,
             FeatureTest.get_condition DEFAULT_RELATIVE DEFAULT_ABSOLUTE self m
             = (Returned (FeatureTest.condition self), m)).
  { intros m. unfold FeatureTest.get_condition, reads_reference in *.
    destruct (FeatureTest.cls self); try reflexivity.
    apply negb_false_iff in Hreads. rewrite Hreads. reflexivity. }
  assert (Htail : forall d m,
             fst (try_except_ValueError
                    (c <- FeatureTest.get_condition DEFAULT_RELATIVE
                            DEFAULT_ABSOLUTE self ;;
                     condition_check_result <- lift (check_value c (SNum v)) ;;
                     if condition_check_result : bool
                     then ret (mark_as_success
                                 (set_description
                                    (mkTestResult (FeatureTest.name_of self)
                                       "The test was not launched" SKIPPED) d)
                                 None)
                     else ret (mark_as_fail
                                 (set_description
                                    (mkTestResult (FeatureTest.name_of self)
                                       "The test was not launched" SKIPPED) d)
                                 None))
                    (ret (mark_as_error
                            (set_description
                               (mkTestResult (FeatureTest.name_of self)
                                  "The test was not launched" SKIPPED) d)
                            (Some "Cannot calculate the condition")))
                    m)
             = Returned
                 {| name := FeatureTest.name_of self;
                    description := d;
                    status := if holds then SUCCESS else FAIL |}).
  { intros d m. unfold try_except_ValueError.
    rewrite (bind_known _ _ _ _ _ (Hcond m)). step. rewrite Hholds.
    destruct holds; reflexivity. }
  unfold FeatureTest.call. rewrite call_method_fst.
  unfold FeatureTest.check. step.
  unfold get_all_features. rewrite (contains_lookup _ _ _ Hcur). cbn [negb].
  unfold FeatureTest.calculate_value_for_test. step.
  unfold get_all_features. rewrite (getitem_lookup _ _ _ Hcur). step.
  unfold FeatureTest.get_description, tested_value in *.
  destruct (FeatureTest.cls self) eqn:Ecls;
    cbn [plain_statistic share_percentage] in Hv;
    try (step; rewrite Hv; step; eexists; split; [exact Hholds | apply Htail]).
  - destruct (FeatureQualityStats.unique_percentage current_stats) as [p |];
      cbn [fmap option_fmap option_map] in Hv; [| discriminate Hv].
    injection Hv as <-. unfold number. step.
    eexists. split; [exact Hholds | apply Htail].
  - destruct (FeatureQualityStats.most_common_value_percentage current_stats)
      as [p |]; cbn [fmap option_fmap option_map] in Hv; [| discriminate Hv].
    injection Hv as <-. unfold number. step.
    rewrite (bind_known _ _ _ _ _ (Hcond _)). step.
    eexists. split; [exact Hholds | apply Htail].
Qed.

End FeatureTests.

(** In exact arithmetic. *)
Section FeatureTestsExact.
Variable fmt : Formatting.
Variables DEFAULT_RELATIVE DEFAULT_ABSOLUTE : Q.

(** X5. [TestMostCommonValueShare] with no condition and no reference:
    the Result is SUCCESS exactly when the share, the most-common-value
    percentage over 100, is strictly below 0.8, and FAIL otherwise; a
    share of exactly 0.8 fails. *)
Theorem most_common_check_fixed_ceiling (self : FeatureTest.t)
    (current_stats : FeatureQualityStats.t) (p : Q) :
  let r := result_of (FeatureTest.metric self) in
  FeatureTest.cls self = FeatureTest.TestMostCommonValueShare ->
  is_set (FeatureTest.condition self) = false ->
  features_stats r !! FeatureTest.column_name self = Some current_stats ->
  FeatureQualityStats.most_common_value_percentage current_stats = Some p ->
  reference_features_stats r = None ->
  exists result,
    fst (FeatureTest.call
           (FeatureTest.check fmt DEFAULT_RELATIVE DEFAULT_ABSOLUTE) self)
      = Returned result
    /\ (status result = SUCCESS <-> (p / 100 < 8 # 10)%Q)
    /\ (status result = FAIL <-> ~ (p / 100 < 8 # 10)%Q).
Proof.
  intros r Hcls Hunset Hcur Hp Href. unfold r in *.
  pose proof (most_common_get_condition_no_reference DEFAULT_RELATIVE
                DEFAULT_ABSOLUTE self (accessed (FeatureTest.metric self))
                Hcls Hunset Href) as Hcond.
  rewrite accessed_idempotent in Hcond.
  unfold FeatureTest.call. rewrite call_method_fst.
  rewrite (most_common_check_with_condition fmt DEFAULT_RELATIVE DEFAULT_ABSOLUTE
             self _ current_stats p _ Hcls Hcur Hp Hcond).
  rewrite check_value_lt. cbn [fst]. eexists. split; [reflexivity |].
  cbn [status]. rational_arith. rewrite <- Qltb_iff.
  destruct (Qltb (p / 100) (8 # 10)); split; split; intros H;
    try reflexivity; try discriminate; congruence.
Qed.

End FeatureTestsExact.

(** ** TestMeanInNSigmas *)

Section MeanInNSigmas.
Context {A : Arithmetic}.
Variable fmt : Formatting.

(** X8. [TestMeanInNSigmas.check()] with reference statistics present: a
    column missing from the current data gives ERROR "Column <column>
    should be in current data", whatever the reference holds; a column
    that the current data has and the reference lacks gives ERROR
    "Column <column> should be in reference data". *)
Theorem mean_in_n_sigmas_missing_column (self : TestMeanInNSigmas.t)
    (reference : DataQualityStats) :
  let r := result_of (TestMeanInNSigmas.metric self) in
  let column := TestMeanInNSigmas.column_name self in
  let check := fst (TestMeanInNSigmas.call (TestMeanInNSigmas.check fmt) self) in
  reference_features_stats r = Some reference ->
  (features_stats r !! column = None ->
   check = Returned
             {| name := "Test Mean Value Stability";
                description := "Column " +:+ column +:+ " should be in current data";
                status := ERROR |})
  /\ (is_Some (features_stats r !! column) ->
      reference !! column = None ->
      check = Returned
                {| name := "Test Mean Value Stability";
                   description :=
                     "Column " +:+ column +:+ " should be in reference data";
                   status := ERROR |}).
Proof.
  intros r column check Href. unfold check, r, column in *.
  unfold TestMeanInNSigmas.call. rewrite call_method_fst.
  unfold TestMeanInNSigmas.check. step. rewrite Href.
  unfold get_all_features. split.
  - intros Hcur. rewrite (contains_lookup_None _ _ Hcur). reflexivity.
  - intros [st Hcur] Hcol.
    rewrite (contains_lookup _ _ _ Hcur), (contains_lookup_None _ _ Hcol).
    reflexivity.
Qed.

(** X9. [TestMeanInNSigmas.check()] with the column in both datasets but
    a [None] among the current mean, the reference mean and the reference
    standard deviation: the arithmetic raises [TypeError]; no Result is
    returned.  A [None] standard deviation raises at once; a number is
    first multiplied by [n_sigmas], which has to be an operand of the
    arithmetic for the [None] mean to be reached. *)
Theorem mean_in_n_sigmas_none_statistic_raises (self : TestMeanInNSigmas.t)
    (reference : DataQualityStats)
    (current_stats reference_stats : FeatureQualityStats.t) :
  let r := result_of (TestMeanInNSigmas.metric self) in
  reference_features_stats r = Some reference ->
  features_stats r !! TestMeanInNSigmas.column_name self = Some current_stats ->
  reference !! TestMeanInNSigmas.column_name self = Some reference_stats ->
  (is_Some (FeatureQualityStats.std reference_stats) ->
   is_Some (of_int (TestMeanInNSigmas.n_sigmas self))) ->
  FeatureQualityStats.mean current_stats = None
  \/ FeatureQualityStats.mean reference_stats = None
  \/ FeatureQualityStats.std reference_stats = None ->
  fst (TestMeanInNSigmas.call (TestMeanInNSigmas.check fmt) self) = Raised TypeError.
Proof.
  intros r Href Hcur Hcol Hoperand Hnone. unfold r in *.
  unfold TestMeanInNSigmas.call. rewrite call_method_fst.
  unfold TestMeanInNSigmas.check. step. rewrite Href.
  unfold get_all_features.
  rewrite (contains_lookup _ _ _ Hcur), (contains_lookup _ _ _ Hcol).
  cbn [negb].
  rewrite (getitem_lookup _ _ _ Hcur), (getitem_lookup _ _ _ Hcol). step.
  destruct (FeatureQualityStats.std reference_stats) as [rs |]; [| reflexivity].
  destruct (Hoperand (mk_is_Some _ _ eq_refl)) as [n Hn].
  unfold number at 1. step. rewrite (bind_int_operand _ _ _ _ Hn).
  destruct (FeatureQualityStats.mean reference_stats) as [rm |]; [| reflexivity].
  unfold number at 1. step.
  destruct (FeatureQualityStats.mean current_stats) as [cm |]; [| reflexivity].
  destruct Hnone as [H | [H | H]]; discriminate H.
Qed.

End MeanInNSigmas.

(** The properties that rest on the order and the laws of exact
    arithmetic: they are stated for [rational]. *)
Section MeanInNSigmasExact.
Variable fmt : Formatting.



(** X12. The band [TestMeanInNSigmasRenderer] draws is the window
    [TestMeanInNSigmas.check()] accepts: with the column in both datasets
    and numeric statistics, the renderer's [ref_condition] holds of the
    current mean exactly when [check()] gives SUCCESS. *)
Theorem renderer_band_is_check_window (self : TestMeanInNSigmas.t)
    (reference : DataQualityStats)
    (current_stats reference_stats : FeatureQualityStats.t)
    (current_mean reference_mean reference_std : Q) :
  let r := result_of (TestMeanInNSigmas.metric self) in
  reference_features_stats r = Some reference ->
  features_stats r !! TestMeanInNSigmas.column_name self = Some current_stats ->
  reference !! TestMeanInNSigmas.column_name self = Some reference_stats ->
  FeatureQualityStats.mean current_stats = Some current_mean ->
  FeatureQualityStats.mean reference_stats = Some reference_mean ->
  FeatureQualityStats.std reference_stats = Some reference_std ->
  exists ref_condition result,
    fst (TestMeanInNSigmas.call TestMeanInNSigmasRenderer.ref_condition self)
      = Returned ref_condition
    /\ fst (TestMeanInNSigmas.call (TestMeanInNSigmas.check fmt) self)
      = Returned result
    /\ (check_value ref_condition (SNum current_mean) = Returned true
        <-> status result = SUCCESS).
Proof.
  intros r Href Hcur Hcol Hcm Hrm Hrs. unfold r in *.
  destruct (TestMeanInNSigmas_check_present fmt self _ reference current_stats
              reference_stats current_mean reference_mean reference_std _
              Href Hcur Hcol Hcm Hrm Hrs eq_refl) as [d Hcheck].
  unfold TestMeanInNSigmas.call. rewrite !call_method_fst, Hcheck. cbn [fst].
  unfold TestMeanInNSigmasRenderer.ref_condition. step.
  rewrite Href. unfold TestMeanInNSigmasRenderer.subscript.
  rewrite (getitem_lookup _ _ _ Hcol). step. rewrite Href.
  rewrite (getitem_lookup _ _ _ Hcol). step.
  rewrite Hrs. unfold number at 1. step.
  rewrite (bind_int_operand (A := rational) (TestMeanInNSigmas.n_sigmas self)
             (inject_Z (TestMeanInNSigmas.n_sigmas self)) _ _ eq_refl).
  rewrite Hrm. unfold number at 1. step. cbn [fst].
  eexists. eexists. split; [reflexivity |]. split; [reflexivity |].
  cbn [status]. unfold check_value. simpl.
  set (n := inject_Z (TestMeanInNSigmas.n_sigmas self)).
  rewrite !andb_true_r.
  assert (Hsame : Qltb (reference_mean - n * reference_std) current_mean
                  && Qltb current_mean (reference_mean + n * reference_std) = true
                  <-> Qltb (reference_mean - reference_std * n) current_mean
                      && Qltb current_mean (reference_mean + reference_std * n)
                      = true).
  { rewrite !andb_true_iff, !Qltb_iff. rewrite (Qmult_comm n reference_std).
    reflexivity. }
  destruct (Qltb (reference_mean - reference_std * n) current_mean
            && Qltb current_mean (reference_mean + reference_std * n)).
  - split; [reflexivity |]. intros _. f_equal. apply Hsame. reflexivity.
  - split; [| discriminate]. intros H. injection H as H.
    apply Hsame in H. discriminate H.
Qed.

End MeanInNSigmasExact.

(** ** Conflict, value-range, value-list and quantile tests *)

(** Stated for [rational], with the order of the rationals. *)
Section OtherTests.
Variable fmt : Formatting.
Variables DEFAULT_RELATIVE DEFAULT_ABSOLUTE : Q.

(** X14. [TestConflictTarget.check()] and [TestConflictPrediction.check()]
    always return a Result, decided by the test's own count alone (the
    target test never reads the prediction count, nor the other way
    round): ERROR exactly when the count is [None], FAIL exactly when it
    is above 0, SUCCESS exactly when it is a number not above 0. *)
Theorem conflict_check_status (self : ConflictTest.t) :
  let count :=
    conflict_count (ConflictTest.cls self) (result_of (ConflictTest.metric self)) in
  exists result,
    fst (ConflictTest.call (ConflictTest.check fmt) self) = Returned result
    /\ name result = ConflictTest.name_of self
    /\ (status result = ERROR <-> count = None)
    /\ (status result = FAIL <-> exists n, count = Some n /\ (0 < n)%Q)
    /\ (status result = SUCCESS <-> exists n, count = Some n /\ (n <= 0)%Q).
Proof.
  cbv zeta. unfold ConflictTest.call. rewrite call_method_fst.
  unfold ConflictTest.check. step.
  assert (Hdecide : forall (n : Q) (failed stable : string),
             let result :=
               fst ((if Qltb 0 n
                     then ret (mkTestResult (ConflictTest.name_of self) failed FAIL)
                     else ret (mkTestResult (ConflictTest.name_of self) stable SUCCESS))
                      (accessed (ConflictTest.metric self))) in
             exists result',
               result = Returned result'
               /\ name result' = ConflictTest.name_of self
               /\ (status result' = ERROR <-> Some n = None)
               /\ (status result' = FAIL <-> exists n', Some n = Some n' /\ (0 < n')%Q)
               /\ (status result' = SUCCESS
                   <-> exists n', Some n = Some n' /\ (n' <= 0)%Q)).
  { intros n failed stable. cbv zeta.
    destruct (Qltb 0 n) eqn:Epos;
      [apply Qltb_iff in Epos | apply Qltb_false_iff_not in Epos];
      eexists; (split; [reflexivity |]); (split; [reflexivity |]); cbn [status].
    - split; [split; intros H; discriminate H |].
      split; split; intros H; try reflexivity.
      + exists n. split; [reflexivity | exact Epos].
      + discriminate H.
      + destruct H as [n' [H' Hn']]. injection H' as <-. exfalso. lra.
    - split; [split; intros H; discriminate H |].
      split; split; intros H; try reflexivity.
      + discriminate H.
      + destruct H as [n' [H' Hn']]. injection H' as <-. exfalso. lra.
      + exists n. split; [reflexivity | exact Epos]. }
  assert (Hnone : forall (missing : string),
             exists result',
               Returned (mkTestResult (ConflictTest.name_of self) missing ERROR)
               = Returned result'
               /\ name result' = ConflictTest.name_of self
               /\ (status result' = ERROR <-> @None Q = None)
               /\ (status result' = FAIL
                   <-> exists n', @None Q = Some n' /\ (0 < n')%Q)
               /\ (status result' = SUCCESS
                   <-> exists n', @None Q = Some n' /\ (n' <= 0)%Q)).
  { intros missing. eexists. split; [reflexivity |]. split; [reflexivity |].
    cbn [status]. split; [split; reflexivity |].
    split; split; intros H; try discriminate H;
      destruct H as [n' [H' _]]; discriminate H'. }
  destruct (ConflictTest.cls self); cbn [conflict_count];
    match goal with
    | |- context [match ?count with _ => _ end] => destruct count as [n |]
    end;
    first [apply Hdecide | apply Hnone].
Qed.

(** X15. [TestValueRange.check()] always returns a Result, FAIL exactly
    when the metric counts more than 0 values out of range and SUCCESS
    otherwise.  The verdict is the metric's alone: the column name and the
    bounds the test was constructed with (which may differ from those the
    metric was made for) change the description, never the status. *)
Theorem value_range_check_status (self : TestValueRange.t) :
  let count := number_not_in_range (result_of (TestValueRange.metric self)) in
  (exists result,
      fst (TestValueRange.call (TestValueRange.check fmt) self) = Returned result
      /\ (status result = FAIL <-> (0 < count)%Q)
      /\ (status result = SUCCESS <-> (count <= 0)%Q))
  /\ (forall column_name left right result result',
      fst (TestValueRange.call (TestValueRange.check fmt) self) = Returned result ->
      fst (TestValueRange.call (TestValueRange.check fmt)
             (TestValueRange.mk column_name left right (TestValueRange.metric self)))
        = Returned result' ->
      status result' = status result).
Proof.
  cbv zeta. unfold TestValueRange.call. split.
  - rewrite call_method_fst. unfold TestValueRange.check. step. rational_arith.
    destruct (Qltb 0 _) eqn:Epos;
      [apply Qltb_iff in Epos | apply Qltb_false_iff_not in Epos];
      eexists; (split; [reflexivity |]); cbn [status];
      split; split; intros H; try reflexivity; try discriminate H;
      try exact Epos; exfalso; lra.
  - intros column_name left right result result'.
    rewrite !call_method_fst. cbn [TestValueRange.metric].
    unfold TestValueRange.check. step. rational_arith.
    destruct (Qltb 0 _); cbn [fst]; intros H H';
      injection H as <-; injection H' as <-; reflexivity.
Qed.

(** X16. [TestValueList.check()] always returns a Result: FAIL with the
    count in the description exactly when the metric counts more than 0
    values outside the list, and otherwise SUCCESS with the description
    "All values is in the values list". *)
Theorem value_list_check_status (self : TestValueList.t) :
  let count := number_not_in_list (result_of (TestValueList.metric self)) in
  exists result,
    fst (TestValueList.call (TestValueList.check fmt) self) = Returned result
    /\ (status result = FAIL <-> (0 < count)%Q)
    /\ (status result = SUCCESS <-> (count <= 0)%Q)
    /\ ((count <= 0)%Q -> description result = "All values is in the values list")
    /\ ((0 < count)%Q ->
        description result
        = "Number values not in the values list is " +:+ format_number fmt count).
Proof.
  cbv zeta. unfold TestValueList.call. rewrite call_method_fst.
  unfold TestValueList.check. step. rational_arith.
  destruct (Qltb 0 _) eqn:Epos;
    [apply Qltb_iff in Epos | apply Qltb_false_iff_not in Epos];
    eexists; (split; [reflexivity |]); cbn [status description];
    repeat split; intros H; try reflexivity; try discriminate H;
    try exact Epos; exfalso; lra.
Qed.

(** X17. A [TestValueQuantile] constructed with an explicit metric knows
    neither its column nor its quantile (the constructor accepts the
    metric only when both are [None]), so the description of every such
    test reads "Quantile None for column 'None' is <value>". *)
Theorem quantile_explicit_metric_description
    (pipeline : ValueQuantileParams -> DataQualityValueQuantileMetricsResults)
    (column_name : option string) (quantile : option Q)
    (eq : option Bound) (gt gte : option Q) (is_in : option (list Scalar))
    (lt lte : option Q) (not_eq : option Bound) (not_in : option (list Scalar))
    (metric : Metric ValueQuantileParams DataQualityValueQuantileMetricsResults)
    (test : TestValueQuantile.t) (v : Q) :
  TestValueQuantile.init pipeline column_name quantile
    eq gt gte is_in lt lte not_eq not_in (Some metric)
  = Returned test ->
  fst (TestValueQuantile.call
         (fun self => TestValueQuantile.get_description fmt self v) test)
  = Returned ("Quantile None for column 'None' is " +:+ format_number fmt v).
Proof.
  intros Hinit. unfold TestValueQuantile.init in Hinit.
  destruct column_name as [c |], quantile as [q |];
    simpl in Hinit; try discriminate Hinit.
  injection Hinit as <-.
  unfold TestValueQuantile.call. rewrite call_method_fst. reflexivity.
Qed.

(** X18. [TestValueRange] and [TestNumberOfOutRangeValues] with the
    condition [lte=0] give the same verdict on the same metric: both
    return a Result, and with the same status. *)
Theorem value_range_is_number_out_of_range_lte_0 (column_name : string)
    (left right : option Q)
    (metric : Metric ValueRangeParams DataQualityValueRangeMetricsResults) :
  exists result result',
    fst (TestValueRange.call (TestValueRange.check fmt)
           (TestValueRange.mk column_name left right metric))
      = Returned result
    /\ fst (ValueRangeMetricsTest.call
              (ValueRangeMetricsTest.check fmt DEFAULT_RELATIVE DEFAULT_ABSOLUTE)
              (ValueRangeMetricsTest.mk
                 ValueRangeMetricsTest.TestNumberOfOutRangeValues
                 column_name left right (TestValueCondition_lte 0%Q) metric))
       = Returned result'
    /\ status result = status result'.
Proof.
  unfold TestValueRange.call, ValueRangeMetricsTest.call.
  rewrite !call_method_fst.
  cbn [TestValueRange.metric ValueRangeMetricsTest.metric].
  unfold TestValueRange.check, ValueRangeMetricsTest.check,
    BaseCheckValueTest.check, ValueRangeMetricsTest.calculate_value_for_test,
    ValueRangeMetricsTest.get_description, ValueRangeMetricsTest.get_condition.
  cbn [ValueRangeMetricsTest.cls ValueRangeMetricsTest.condition]. step.
  unfold try_except_ValueError. step.
  assert (Hlte : forall v, check_value (TestValueCondition_lte 0%Q) (SNum v)
                           = Returned (Qle_bool v 0)).
  { intros v. unfold check_value, TestValueCondition_lte. simpl.
    rewrite !andb_true_r. reflexivity. }
  rewrite Hlte. rational_arith. unfold Qltb.
  destruct (Qle_bool (number_not_in_range (result_of metric)) 0);
    eexists; eexists; (split; [reflexivity |]); (split; [reflexivity |]);
    reflexivity.
Qed.

(** X19. What the default of the two share tests accepts: with no
    condition, [TestShareOfOutRangeValues] and [TestShareOfOutListValues]
    give SUCCESS exactly when the share is 0 or within the default
    absolute tolerance of [approx] in absolute value, and FAIL otherwise;
    the default relative tolerance plays no part. *)
Theorem share_tests_default_band :
  (forall self : ValueRangeMetricsTest.t,
      ValueRangeMetricsTest.cls self = ValueRangeMetricsTest.TestShareOfOutRangeValues ->
      is_set (ValueRangeMetricsTest.condition self) = false ->
      let share := share_not_in_range (result_of (ValueRangeMetricsTest.metric self)) in
      exists result,
        fst (ValueRangeMetricsTest.call
               (ValueRangeMetricsTest.check fmt DEFAULT_RELATIVE DEFAULT_ABSOLUTE)
               self)
          = Returned result
        /\ (status result = SUCCESS
            <-> (share == 0 \/ Qabs share <= DEFAULT_ABSOLUTE)%Q)
        /\ (status result = FAIL
            <-> ~ (share == 0 \/ Qabs share <= DEFAULT_ABSOLUTE)%Q))
  /\ (forall self : ValueListMetricsTest.t,
      ValueListMetricsTest.cls self = ValueListMetricsTest.TestShareOfOutListValues ->
      is_set (ValueListMetricsTest.condition self) = false ->
      let share := share_not_in_list (result_of (ValueListMetricsTest.metric self)) in
      exists result,
        fst (ValueListMetricsTest.call
               (ValueListMetricsTest.check fmt DEFAULT_RELATIVE DEFAULT_ABSOLUTE)
               self)
          = Returned result
        /\ (status result = SUCCESS
            <-> (share == 0 \/ Qabs share <= DEFAULT_ABSOLUTE)%Q)
        /\ (status result = FAIL
            <-> ~ (share == 0 \/ Qabs share <= DEFAULT_ABSOLUTE)%Q)).
Proof.
  assert (Hband : forall share,
             approx_eq (approx DEFAULT_RELATIVE DEFAULT_ABSOLUTE 0%Q None None) share
             = true
             <-> (share == 0 \/ Qabs share <= DEFAULT_ABSOLUTE)%Q).
  { intros share. rewrite approx_eq_iff. unfold approx.
    cbn [approx_value approx_relative approx_absolute default].
    assert (Hminus : (share - 0 == share)%Q) by ring.
    rewrite Hminus.
    assert (Hzero : (Qabs 0 * DEFAULT_RELATIVE == 0)%Q)
      by (change (Qabs 0) with 0%Q; ring).
    rewrite Hzero.
    split; (intros [H | H]; [left | right; exact H]).
    - apply Qabs_Qle_condition in H. destruct H as [Hlow Hhigh]. lra.
    - rewrite H. simpl. discriminate. }
  assert (Hstatus : forall share,
             let status :=
               if approx_eq (approx DEFAULT_RELATIVE DEFAULT_ABSOLUTE 0%Q None None)
                    share
               then SUCCESS else FAIL in
             (status = SUCCESS <-> (share == 0 \/ Qabs share <= DEFAULT_ABSOLUTE)%Q)
             /\ (status = FAIL
                 <-> ~ (share == 0 \/ Qabs share <= DEFAULT_ABSOLUTE)%Q)).
  { intros share. cbv zeta. specialize (Hband share).
    destruct (approx_eq _ share); split; split; intros H;
      try reflexivity; try discriminate H.
    - apply Hband. reflexivity.
    - exfalso. apply H, Hband. reflexivity.
    - apply Hband in H. discriminate H.
    - intros Hin. apply Hband in Hin. discriminate Hin. }
  split; intros self Hcls Hunset share.
  - destruct (share_out_of_range_check_default fmt DEFAULT_RELATIVE
                DEFAULT_ABSOLUTE self (ValueRangeMetricsTest.metric self)
                Hcls Hunset) as [d Hcheck].
    unfold ValueRangeMetricsTest.call. rewrite call_method_fst, Hcheck.
    eexists. split; [reflexivity |]. cbn [status]. apply Hstatus.
  - destruct (share_out_of_list_check_default fmt DEFAULT_RELATIVE
                DEFAULT_ABSOLUTE self (ValueListMetricsTest.metric self)
                Hcls Hunset) as [d Hcheck].
    unfold ValueListMetricsTest.call. rewrite call_method_fst, Hcheck.
    eexists. split; [reflexivity |]. cbn [status]. apply Hstatus.
Qed.

End OtherTests.

(** ** The cloud metadata client *)

Section CloudClient.
Context {World Reply QueryParams Body Model : Type}.
Variable super_request :
  Cloud.RequestArgs QueryParams Body Model -> Cloud.Action World Reply.
Variable text : Reply -> string.

(** X20. The JWT token is fetched once: after a read of [jwt_token] that
    succeeds, the client holds the token it returned, and every later
    read returns the same token without sending anything (the client and
    the world stay as they are); a client that already holds a token
    sends nothing on the first read either. *)
Theorem jwt_token_fetched_once (s s' : Cloud.CloudMetadataStorage * World)
    (t : string) :
  Cloud.jwt_token super_request text s = (Cloud.Ok t, s') ->
  Cloud._jwt_token (fst s') = Some t
  /\ Cloud.jwt_token super_request text s' = (Cloud.Ok t, s')
  /\ (is_Some (Cloud._jwt_token (fst s)) -> s' = s).
Proof.
  unfold Cloud.jwt_token. intros Hread.
  destruct (Cloud._jwt_token (fst s)) as [t0 |] eqn:Eheld.
  - injection Hread as <- <-. rewrite Eheld. auto.
  - destruct (Cloud._get_jwt_token super_request text s) as [[t1 | e] [self world]];
      [| discriminate Hread].
    injection Hread as <- <-. cbn. split; [reflexivity |].
    split; [reflexivity |]. intros [x Hx]. discriminate Hx.
Qed.

(** X21. The [_logged_in] flag records a first successful send and
    nothing else.  Provided the parent's [_request] leaves the flag
    alone, after [_request] the flag is on exactly when it was on before
    or the first send succeeded: it is never turned off, and neither a
    failed request nor the token renewal turns it on. *)
Theorem logged_in_after_request
    (args : Cloud.RequestArgs QueryParams Body Model)
    (s : Cloud.CloudMetadataStorage * World) :
  keeps_logged_in super_request ->
  Cloud._logged_in (fst (snd (Cloud._request super_request text args s))) = true
  <-> (Cloud._logged_in (fst s) = true
       \/ exists res, fst (super_request args s) = Cloud.Ok res).
Proof.
  intros Hkeeps.
  pose proof (Hkeeps args s) as Hfirst.
  unfold Cloud._request.
  destruct (super_request args s) as [[res | e] [self world]] eqn:Esend;
    cbn [fst snd] in *.
  - split; [intros _; right; exists res; reflexivity | reflexivity].
  - assert (Hfailed : Cloud._logged_in self = true
                      <-> Cloud._logged_in (fst s) = true
                          \/ (exists res : Reply, Cloud.Err e = Cloud.Ok res)).
    { rewrite Hfirst. split; [auto | intros [H | [res H]]; [exact H | discriminate H]]. }
    destruct e as [status_code | | what]; cbn [fst snd]; try exact Hfailed.
    unfold Cloud.on_http_error. cbn [fst].
    destruct (Cloud._logged_in self && (status_code =? 401)%Z) eqn:Eretry;
      cbn [fst snd]; [| exact Hfailed].
    apply andb_true_iff in Eretry. destruct Eretry as [Hon _].
    rewrite <- Hfailed, Hon.
    split; [reflexivity | intros _].
    unfold Cloud._get_jwt_token. cbn [fst].
    pose proof (Hkeeps (login_args (Cloud.token self)) (self, world)) as Hlogin.
    unfold login_args in Hlogin.
    destruct (super_request _ (self, world)) as [[reply | e] [self1 world1]];
      cbn [fst snd] in *.
    2: { rewrite Hlogin. exact Hon. }
    unfold Cloud.jwt_token. cbn [fst Cloud.set_jwt_token Cloud._jwt_token].
    assert (Hrenewed : Cloud._logged_in (Cloud.set_jwt_token self1 (Some (text reply)))
                       = true) by (destruct self1; cbn in *; congruence).
    destruct (Cloud.cookies args) as [c |]; cbn [fst snd]; [| exact Hrenewed].
    rewrite Hkeeps. exact Hrenewed.
Qed.

Lemma request_expired_without_cookies
    (args : Cloud.RequestArgs QueryParams Body Model)
    (s s1 : Cloud.CloudMetadataStorage * World)
    (reply : Reply) (self2 : Cloud.CloudMetadataStorage) (world2 : World) :
  Cloud.cookies args = None ->
  super_request args s = (Cloud.Err (Cloud.HTTPError 401), s1) ->
  Cloud._logged_in (fst s1) = true ->
  super_request (login_args (Cloud.token (fst s1))) s1
  = (Cloud.Ok reply, (self2, world2)) ->
  Cloud._request super_request text args s
  = (Cloud.Err Cloud.TypeError,
     (Cloud.set_jwt_token self2 (Some (text reply)), world2)).
Proof.
  intros Hcookies Hsend Hon Hlogin.
  unfold Cloud._request. rewrite Hsend.
  unfold Cloud.on_http_error. rewrite Hon. cbn [andb Z.eqb Pos.eqb].
  unfold Cloud._get_jwt_token. unfold login_args in Hlogin. rewrite Hlogin.
  unfold Cloud.jwt_token. cbn [fst Cloud.set_jwt_token Cloud._jwt_token].
  rewrite Hcookies. reflexivity.
Qed.

(** X22. An expired session and no cookies of the caller's own: when the
    send is rejected with status 401 on a logged-in client and the login
    request then succeeds, [_request] called without cookies renews the
    token and then raises [TypeError] from storing the cookie into
    [None]; the request is not sent again.  [list_orgs], [create_org]
    and [create_team] call [_request] without cookies, so this is what
    they do on an expired session. *)
Theorem expired_session_without_cookies
    (s s1 : Cloud.CloudMetadataStorage * World)
    (reply : Reply) (self2 : Cloud.CloudMetadataStorage) (world2 : World) :
  Cloud._logged_in (fst s1) = true ->
  super_request (login_args (Cloud.token (fst s1))) s1
  = (Cloud.Ok reply, (self2, world2)) ->
  let rejected args := super_request args s = (Cloud.Err (Cloud.HTTPError 401), s1) in
  let type_error :=
    (Cloud.Err Cloud.TypeError,
     (Cloud.set_jwt_token self2 (Some (text reply)), world2)) in
  (forall args,
      Cloud.cookies args = None -> rejected args ->
      Cloud._request super_request text args s = type_error)
  /\ (forall list_of_OrgModel,
      rejected (Cloud.mkRequestArgs "/api/orgs" "GET" None None
                  (Some list_of_OrgModel) None None false) ->
      Cloud.list_orgs super_request text list_of_OrgModel s = type_error)
  /\ (forall OrgModel org_dict,
      rejected (Cloud.mkRequestArgs "/api/orgs" "POST" None (Some org_dict)
                  (Some OrgModel) None None false) ->
      Cloud.create_org super_request text OrgModel org_dict s = type_error)
  /\ (forall TeamModel name_and_org_id,
      rejected (Cloud.mkRequestArgs "/api/teams" "POST" (Some name_and_org_id) None
                  (Some TeamModel) None None false) ->
      Cloud.create_team super_request text TeamModel name_and_org_id s = type_error).
Proof.
  intros Hon Hlogin rejected type_error. unfold rejected, type_error.
  repeat split; intros;
    unfold Cloud.list_orgs, Cloud.create_org, Cloud.create_team;
    eapply request_expired_without_cookies; eauto.
Qed.

(** X23. An expired session and cookies given by the caller: when the send
    is rejected with status 401 on a logged-in client and the login
    request then succeeds, [_request] sends the request once more, with
    the renewed token stored in the caller's cookies under the client's
    cookie name, and the outcome of that second send is the outcome of
    [_request], also when it is another 401: there is one retry, not a
    loop. *)
Theorem expired_session_retried_once
    (args : Cloud.RequestArgs QueryParams Body Model)
    (c : gmap string string)
    (s s1 : Cloud.CloudMetadataStorage * World)
    (reply : Reply) (self2 : Cloud.CloudMetadataStorage) (world2 : World) :
  Cloud.cookies args = Some c ->
  super_request args s = (Cloud.Err (Cloud.HTTPError 401), s1) ->
  Cloud._logged_in (fst s1) = true ->
  super_request (login_args (Cloud.token (fst s1))) s1
  = (Cloud.Ok reply, (self2, world2)) ->
  Cloud._request super_request text args s
  = super_request
      (Cloud.with_cookies args
         (Some (<[ Cloud.token_cookie_name self2 := text reply ]> c)))
      (Cloud.set_jwt_token self2 (Some (text reply)), world2).
Proof.
  intros Hcookies Hsend Hon Hlogin.
  unfold Cloud._request. rewrite Hsend.
  unfold Cloud.on_http_error. rewrite Hon. cbn [andb Z.eqb Pos.eqb].
  unfold Cloud._get_jwt_token. unfold login_args in Hlogin. rewrite Hlogin.
  unfold Cloud.jwt_token. cbn [fst Cloud.set_jwt_token Cloud._jwt_token].
  rewrite Hcookies. reflexivity.
Qed.

End CloudClient.

(** ** The further properties at sample inputs *)

Lemma feature_check_no_value_witness :
  fst (FeatureTest.call
         (FeatureTest.check sample_formatting sample_relative sample_absolute)
         (sample_feature_test FeatureTest.TestFeatureValueMean
            (sample_metric sample_no_stats None)))
  = Returned
      {| name := "Test a feature mean value";
         description := "No value for the feature 'age'";
         status := ERROR |}.
Proof.
  apply (feature_check_no_value sample_formatting sample_relative sample_absolute
           (sample_feature_test FeatureTest.TestFeatureValueMean
              (sample_metric sample_no_stats None))
           FeatureQualityStats.mean sample_no_stats);
    [reflexivity | vm_compute; reflexivity | reflexivity].
Defined.

Lemma share_check_no_percentage_raises_witness :
  fst (FeatureTest.call
         (FeatureTest.check sample_formatting sample_relative sample_absolute)
         (sample_feature_test FeatureTest.TestUniqueValuesShare
            (sample_metric sample_no_stats None)))
  = Raised TypeError.
Proof.
  apply (share_check_no_percentage_raises sample_formatting sample_relative
           sample_absolute
           (sample_feature_test FeatureTest.TestUniqueValuesShare
              (sample_metric sample_no_stats None))
           FeatureQualityStats.unique_percentage sample_no_stats);
    [reflexivity | vm_compute; reflexivity | reflexivity].
Defined.

Lemma feature_check_own_column_witness :
  let self := sample_feature_test FeatureTest.TestFeatureValueMean
                sample_metric_no_features in
  let age := sample_stats (Some 30%Q) None None in
  let income := sample_stats (Some 1000%Q) None None in
  fst (FeatureTest.call
         (FeatureTest.check sample_formatting sample_relative sample_absolute)
         (FeatureTest.set_metric self (sample_metric_of {[ "age" := age ]} None)))
  = fst (FeatureTest.call
           (FeatureTest.check sample_formatting sample_relative sample_absolute)
           (FeatureTest.set_metric self
              (sample_metric_of (<[ "income" := income ]> {[ "age" := age ]})
                 (Some {[ "income" := income ]})))).
Proof.
  cbv zeta.
  apply (feature_check_own_column sample_formatting sample_relative sample_absolute
           (sample_feature_test FeatureTest.TestFeatureValueMean
              sample_metric_no_features)).
  - vm_compute. reflexivity.
  - intros Hreads. vm_compute in Hreads. discriminate Hreads.
Defined.

Lemma most_common_check_reference_without_column_witness :
  fst (FeatureTest.call
         (FeatureTest.check sample_formatting sample_relative sample_absolute)
         (sample_feature_test FeatureTest.TestMostCommonValueShare
            (sample_metric_of {[ "age" := sample_stats None None (Some 46%Q) ]}
               (Some ∅))))
  = Raised (KeyError "age").
Proof.
  apply (most_common_check_reference_without_column sample_formatting
           sample_relative sample_absolute
           (sample_feature_test FeatureTest.TestMostCommonValueShare
              (sample_metric_of {[ "age" := sample_stats None None (Some 46%Q) ]}
                 (Some ∅)))
           ∅ (sample_stats None None (Some 46%Q)) 46%Q);
    try reflexivity; vm_compute; reflexivity.
Defined.

Lemma most_common_check_fixed_ceiling_witness :
  (exists result,
      fst (FeatureTest.call
             (FeatureTest.check sample_formatting sample_relative sample_absolute)
             (sample_most_common 46 None))
        = Returned result
      /\ status result = SUCCESS)
  /\ (exists result,
      fst (FeatureTest.call
             (FeatureTest.check sample_formatting sample_relative sample_absolute)
             (sample_most_common 80 None))
        = Returned result
      /\ status result = FAIL).
Proof.
  split.
  - destruct (most_common_check_fixed_ceiling sample_formatting sample_relative
                sample_absolute (sample_most_common 46 None)
                (sample_stats None None (Some 46%Q)) 46%Q)
      as [result [Hcheck [Hsuccess _]]];
      try reflexivity; try (vm_compute; reflexivity).
    exists result. split; [exact Hcheck |]. apply Hsuccess. vm_compute. reflexivity.
  - destruct (most_common_check_fixed_ceiling sample_formatting sample_relative
                sample_absolute (sample_most_common 80 None)
                (sample_stats None None (Some 80%Q)) 80%Q)
      as [result [Hcheck [_ Hfail]]];
      try reflexivity; try (vm_compute; reflexivity).
    exists result. split; [exact Hcheck |]. apply Hfail.
    intros Hbelow. vm_compute in Hbelow. discriminate Hbelow.
Defined.

Lemma most_common_check_relative_band_witness :
  (exists result,
      fst (FeatureTest.call
             (FeatureTest.check binary64_formatting binary64_relative
                binary64_absolute)
             (binary64_feature_test FeatureTest.TestMostCommonValueShare
                TestValueCondition_unset
                (binary64_stats None None None (Some 46%float))
                (Some (binary64_stats None None None (Some 42%float)))))
        = Returned result
      /\ status result = SUCCESS)
  /\ (exists result,
      fst (FeatureTest.call
             (FeatureTest.check binary64_formatting binary64_relative
                binary64_absolute)
             (binary64_feature_test FeatureTest.TestMostCommonValueShare
                TestValueCondition_unset
                (binary64_stats None None None (Some 33%float))
                (Some (binary64_stats None None None (Some 30%float)))))
        = Returned result
      /\ status result = FAIL).
Proof.
  split.
  - destruct (most_common_check_relative_band (A := binary64) binary64_formatting
                binary64_relative binary64_absolute
                (binary64_feature_test FeatureTest.TestMostCommonValueShare
                   TestValueCondition_unset
                   (binary64_stats None None None (Some 46%float))
                   (Some (binary64_stats None None None (Some 42%float))))
                {[ "age" := binary64_stats None None None (Some 42%float) ]}
                (binary64_stats None None None (Some 46%float))
                (binary64_stats None None None (Some 42%float))
                46%float 42%float)
      as [result [Hcheck [Hsuccess _]]];
      try reflexivity; try (vm_compute; reflexivity).
    exists result. split; [exact Hcheck |]. apply Hsuccess.
    left. vm_compute. reflexivity.
  - destruct (most_common_check_relative_band (A := binary64) binary64_formatting
                binary64_relative binary64_absolute
                (binary64_feature_test FeatureTest.TestMostCommonValueShare
                   TestValueCondition_unset
                   (binary64_stats None None None (Some 33%float))
                   (Some (binary64_stats None None None (Some 30%float))))
                {[ "age" := binary64_stats None None None (Some 30%float) ]}
                (binary64_stats None None None (Some 33%float))
                (binary64_stats None None None (Some 30%float))
                33%float 30%float)
      as [result [Hcheck [_ Hfail]]];
      try reflexivity; try (vm_compute; reflexivity).
    exists result. split; [exact Hcheck |]. apply Hfail.
    intros [Hin | Hin]; vm_compute in Hin; discriminate Hin.
Defined.

Lemma mean_in_n_sigmas_missing_column_witness :
  fst (TestMeanInNSigmas.call (TestMeanInNSigmas.check sample_formatting)
         (TestMeanInNSigmas.mk "age" 2
            (sample_metric_of ∅ (Some {[ "age" := sample_no_stats ]}))))
    = Returned
        {| name := "Test Mean Value Stability";
           description := "Column age should be in current data";
           status := ERROR |}
  /\ fst (TestMeanInNSigmas.call (TestMeanInNSigmas.check sample_formatting)
            (TestMeanInNSigmas.mk "age" 2
               (sample_metric_of {[ "age" := sample_no_stats ]} (Some ∅))))
    = Returned
        {| name := "Test Mean Value Stability";
           description := "Column age should be in reference data";
           status := ERROR |}.
Proof.
  split.
  - apply (mean_in_n_sigmas_missing_column sample_formatting
             (TestMeanInNSigmas.mk "age" 2
                (sample_metric_of ∅ (Some {[ "age" := sample_no_stats ]})))
             {[ "age" := sample_no_stats ]} eq_refl).
    vm_compute. reflexivity.
  - apply (mean_in_n_sigmas_missing_column sample_formatting
             (TestMeanInNSigmas.mk "age" 2
                (sample_metric_of {[ "age" := sample_no_stats ]} (Some ∅)))
             ∅ eq_refl).
    + exists sample_no_stats. vm_compute. reflexivity.
    + vm_compute. reflexivity.
Defined.

Lemma mean_in_n_sigmas_none_statistic_raises_witness :
  fst (TestMeanInNSigmas.call (TestMeanInNSigmas.check binary64_formatting)
         (TestMeanInNSigmas.mk (A := binary64) "age" 2
            (binary64_metric (binary64_stats (Some 55%float) None None None)
               (Some (binary64_stats None (Some 5%float) None None)))))
  = Raised TypeError.
Proof.
  apply (mean_in_n_sigmas_none_statistic_raises (A := binary64) binary64_formatting
           (TestMeanInNSigmas.mk (A := binary64) "age" 2
              (binary64_metric (binary64_stats (Some 55%float) None None None)
                 (Some (binary64_stats None (Some 5%float) None None))))
           {[ "age" := binary64_stats None (Some 5%float) None None ]}
           (binary64_stats (Some 55%float) None None None)
           (binary64_stats None (Some 5%float) None None));
    try reflexivity.
  - intros _. exists 2%float. vm_compute. reflexivity.
  - right. left. reflexivity.
Defined.



Lemma renderer_band_is_check_window_witness :
  exists ref_condition result,
    fst (TestMeanInNSigmas.call TestMeanInNSigmasRenderer.ref_condition
           (sample_mean_in_n_sigmas 55 (Some (50%Q, 5%Q))))
      = Returned ref_condition
    /\ fst (TestMeanInNSigmas.call (TestMeanInNSigmas.check sample_formatting)
              (sample_mean_in_n_sigmas 55 (Some (50%Q, 5%Q))))
      = Returned result
    /\ (check_value ref_condition (SNum 55%Q) = Returned true
        <-> status result = SUCCESS).
Proof.
  apply (renderer_band_is_check_window sample_formatting
           (sample_mean_in_n_sigmas 55 (Some (50%Q, 5%Q)))
           {[ "age" := sample_stats (Some 50%Q) (Some 5%Q) None ]}
           (sample_stats (Some 55%Q) None None)
           (sample_stats (Some 50%Q) (Some 5%Q) None)
           55%Q 50%Q 5%Q);
    try reflexivity; vm_compute; reflexivity.
Defined.

Lemma value_range_check_status_witness :
  let self := TestValueRange.mk "b" (Some 5%Q) (Some 10%Q) (sample_range_metric 3 (3 # 100)) in
  (exists result,
      fst (TestValueRange.call (TestValueRange.check sample_formatting) self)
        = Returned result
      /\ status result = FAIL)
  /\ (forall result',
      fst (TestValueRange.call (TestValueRange.check sample_formatting)
             (TestValueRange.mk "a" (Some 0%Q) (Some 1%Q)
                (sample_range_metric 3 (3 # 100))))
        = Returned result' ->
      status result' = FAIL).
Proof.
  cbv zeta.
  destruct (value_range_check_status sample_formatting
              (TestValueRange.mk (A := rational) "b" (Some 5%Q) (Some 10%Q)
                 (sample_range_metric 3 (3 # 100))))
    as [[result [Hcheck [Hfail _]]] Hsame].
  assert (Hstatus : status result = FAIL)
    by (apply Hfail; vm_compute; reflexivity).
  split.
  - exists result. split; [exact Hcheck | exact Hstatus].
  - intros result' Hcheck'.
    rewrite (Hsame "a" (Some 0%Q) (Some 1%Q) result result' Hcheck Hcheck').
    exact Hstatus.
Defined.

Lemma value_list_check_status_witness :
  exists result,
    fst (TestValueList.call (TestValueList.check sample_formatting)
           (TestValueList.mk "a" None (sample_list_metric 0 0)))
      = Returned result
    /\ status result = SUCCESS
    /\ description result = "All values is in the values list".
Proof.
  destruct (value_list_check_status sample_formatting
              (TestValueList.mk "a" None (sample_list_metric 0 0)))
    as [result [Hcheck [_ [Hsuccess [Hdescription _]]]]].
  exists result. split; [exact Hcheck |]. split.
  - apply Hsuccess. vm_compute. discriminate.
  - apply Hdescription. vm_compute. discriminate.
Defined.

Lemma quantile_explicit_metric_description_witness :
  fst (TestValueQuantile.call
         (fun self => TestValueQuantile.get_description sample_formatting self (1 # 2))
         (TestValueQuantile.mk None None TestValueCondition_unset
            sample_quantile_metric))
  = Returned ("Quantile None for column 'None' is "
              +:+ format_number sample_formatting (1 # 2)).
Proof.
  apply (quantile_explicit_metric_description sample_formatting
           (fun _ => mkDataQualityValueQuantileMetricsResults (A := rational) 0%Q)
           None None None None None None None None None None
           sample_quantile_metric).
  reflexivity.
Defined.

Lemma share_tests_default_band_witness :
  (exists result,
      fst (ValueRangeMetricsTest.call
             (ValueRangeMetricsTest.check sample_formatting sample_relative
                sample_absolute)
             (ValueRangeMetricsTest.mk ValueRangeMetricsTest.TestShareOfOutRangeValues
                "a" (Some 0%Q) (Some 1%Q) TestValueCondition_unset
                (sample_range_metric 0 0)))
        = Returned result
      /\ status result = SUCCESS)
  /\ (exists result,
      fst (ValueListMetricsTest.call
             (ValueListMetricsTest.check sample_formatting sample_relative
                sample_absolute)
             (ValueListMetricsTest.mk ValueListMetricsTest.TestShareOfOutListValues
                "a" None TestValueCondition_unset
                (sample_list_metric 1 (1 # 2))))
        = Returned result
      /\ status result = FAIL).
Proof.
  destruct (share_tests_default_band sample_formatting sample_relative
              sample_absolute) as [Hrange Hlist].
  split.
  - destruct (Hrange
                (ValueRangeMetricsTest.mk (A := rational)
                   ValueRangeMetricsTest.TestShareOfOutRangeValues
                   "a" (Some 0%Q) (Some 1%Q) TestValueCondition_unset
                   (sample_range_metric 0 0))
                eq_refl eq_refl) as [result [Hcheck [Hsuccess _]]].
    exists result. split; [exact Hcheck |]. apply Hsuccess.
    left. vm_compute. reflexivity.
  - destruct (Hlist
                (ValueListMetricsTest.mk (A := rational)
                   ValueListMetricsTest.TestShareOfOutListValues
                   "a" None TestValueCondition_unset
                   (sample_list_metric 1 (1 # 2)))
                eq_refl eq_refl) as [result [Hcheck [_ Hfail]]].
    exists result. split; [exact Hcheck |]. apply Hfail.
    intros [Hzero | Hsmall].
    + vm_compute in Hzero. discriminate Hzero.
    + vm_compute in Hsmall. apply Hsmall. reflexivity.
Defined.

Lemma sample_server_keeps_logged_in : keeps_logged_in sample_server.
Proof.
  intros args [self world]. unfold sample_server. cbn [fst snd].
  destruct (bool_decide _); [reflexivity |].
  destruct (Cloud.cookies args) as [c |]; [| reflexivity].
  destruct (bool_decide _); reflexivity.
Qed.

Lemma jwt_token_fetched_once_witness :
  Cloud.jwt_token sample_server id (sample_client (Some "renewed") false, 1%nat)
  = (Cloud.Ok "renewed", (sample_client (Some "renewed") false, 1%nat)).
Proof.
  apply (jwt_token_fetched_once sample_server id (sample_client None false, 0%nat)
           (sample_client (Some "renewed") false, 1%nat) "renewed").
  vm_compute. reflexivity.
Defined.

Lemma logged_in_after_request_witness :
  Cloud._logged_in
    (fst (snd (Cloud._request sample_server id (sample_orgs_request None)
                 (sample_client None false, 0%nat))))
  <> true.
Proof.
  intros Hon.
  apply (logged_in_after_request sample_server id (sample_orgs_request None)
           (sample_client None false, 0%nat) sample_server_keeps_logged_in) in Hon.
  destruct Hon as [Hbefore | [res Hsent]].
  - discriminate Hbefore.
  - vm_compute in Hsent. discriminate Hsent.
Defined.

Lemma expired_session_without_cookies_witness :
  Cloud.list_orgs sample_server id tt (sample_client (Some "old") true, 0%nat)
  = (Cloud.Err Cloud.TypeError, (sample_client (Some "renewed") true, 2%nat)).
Proof.
  destruct (expired_session_without_cookies sample_server id
              (sample_client (Some "old") true, 0%nat)
              (sample_client (Some "old") true, 1%nat)
              "renewed" (sample_client (Some "old") true) 2%nat
              eq_refl eq_refl) as [_ [Hlist _]].
  apply Hlist. reflexivity.
Defined.

Lemma expired_session_retried_once_witness :
  Cloud._request sample_server id (sample_orgs_request (Some ∅))
    (sample_client (Some "old") true, 0%nat)
  = (Cloud.Ok "done", (sample_client (Some "renewed") true, 3%nat)).
Proof.
  rewrite (expired_session_retried_once sample_server id
             (sample_orgs_request (Some ∅)) ∅
             (sample_client (Some "old") true, 0%nat)
             (sample_client (Some "old") true, 1%nat)
             "renewed" (sample_client (Some "old") true) 2%nat);
    try reflexivity; vm_compute; reflexivity.
Defined.

Lemma feature_check_verdict_witness :
  let condition :=
    mkTestValueCondition (A := binary64) None (Some 0.07%float) None None None None
      None None in
  let current := binary64_stats None None (Some 7.000000000000001%float) None in
  exists d : string,
    fst (FeatureTest.call
           (FeatureTest.check binary64_formatting binary64_relative
              binary64_absolute)
           (binary64_feature_test FeatureTest.TestUniqueValuesShare condition
              current None))
    = Returned
        {| name := "Test a feature for share of unique values";
           description := d;
           status := FAIL |}.
Proof.
  intros condition current.
  pose proof (feature_check_verdict (A := binary64) binary64_formatting
                binary64_relative binary64_absolute
                (binary64_feature_test FeatureTest.TestUniqueValuesShare condition
                   current None)
                current (7.000000000000001 / 100)%float) as Hverdict.
  destruct Hverdict as [holds [d [Hholds Hcheck]]]; try reflexivity.
  vm_compute in Hholds. injection Hholds as <-.
  exists d. exact Hcheck.
Defined.

